(** * ASH: the signal analysis engine of devxtools/ASH, embedded in Rocq

    The development follows the Python sources
      - [mods/stock_analyzer.py]  (classes [StockAnalyzer], [BatchStockAnalyzer],
                                   their realtime methods, the module's functions),
      - [app2.py]                 (classes [CacheManager], [StockSignalAnalyzer]),
      - [old/app.py]              (the older [StockAnalyzer]).

    numpy/pandas [float64] values are modelled by [fnum]: an exact rational
    or one of the IEEE-754 special values +inf, -inf, NaN.  Rounding errors
    of binary floating point and the sign of zero are not modelled; the
    special-value rules (x/0, inf-inf, comparisons with NaN, ...) are. *)

From Stdlib Require Import String ZArith QArith Qround Qabs Qminmax List Bool Lia Lqa.
From Stdlib Require Import Sorting.Permutation Sorting.Sorted.
From Stdlib Require DecimalString DecimalZ DecimalPos.
Import ListNotations.
Open Scope Z_scope.

(* ===================================================================== *)
(** ** float64 values as the code observes them *)
(* ===================================================================== *)

Module Float.

Inductive fnum : Type :=
| Fin (q : Q)
| PInf
| NInf
| NaN.

Definition of_Z (z : Z) : fnum := Fin (inject_Z z).

Definition Qzero (q : Q) : bool := Qnum q =? 0.
Definition Qpos (q : Q) : bool := 0 <? Qnum q.
Definition Qneg (q : Q) : bool := Qnum q <? 0.
Definition Qltb (a b : Q) : bool := Qnum a * Zpos (Qden b) <? Qnum b * Zpos (Qden a).

Definition fneg (a : fnum) : fnum :=
  match a with
  | Fin q => Fin (Qred (- q))
  | PInf => NInf
  | NInf => PInf
  | NaN => NaN
  end.

Definition fadd (a b : fnum) : fnum :=
  match a, b with
  | NaN, _ | _, NaN => NaN
  | Fin x, Fin y => Fin (Qred (x + y))
  | PInf, NInf | NInf, PInf => NaN
  | PInf, _ | _, PInf => PInf
  | NInf, _ | _, NInf => NInf
  end.

Definition fsub (a b : fnum) : fnum := fadd a (fneg b).

(** sign of a non-NaN value: -1, 0, 1 *)
Definition fsign (a : fnum) : Z :=
  match a with
  | Fin q => Z.sgn (Qnum q)
  | PInf => 1
  | NInf => -1
  | NaN => 0
  end.

Definition inf_of_sign (s : Z) : fnum :=
  if s =? 0 then NaN else if 0 <? s then PInf else NInf.

Definition fmul (a b : fnum) : fnum :=
  match a, b with
  | NaN, _ | _, NaN => NaN
  | Fin x, Fin y => Fin (Qred (x * y))
  | _, _ => inf_of_sign (fsign a * fsign b)
  end.

(** numpy division: x/0 is +-inf (NaN for 0/0), never an exception *)
Definition fdiv (a b : fnum) : fnum :=
  match a, b with
  | NaN, _ | _, NaN => NaN
  | Fin x, Fin y =>
      if Qzero y then inf_of_sign (fsign a) else Fin (Qred (x / y))
  | Fin _, _ => Fin 0
  | _, Fin y => if Qneg y then fneg a else a
  | _, _ => NaN
  end.

(** comparisons: every comparison with NaN is False *)
Definition flt (a b : fnum) : bool :=
  match a, b with
  | NaN, _ | _, NaN => false
  | Fin x, Fin y => Qltb x y
  | NInf, NInf | PInf, _ | _, NInf => false
  | NInf, _ | _, PInf => true
  end.

Definition feq (a b : fnum) : bool :=
  match a, b with
  | Fin x, Fin y => Qeq_bool x y
  | PInf, PInf | NInf, NInf => true
  | _, _ => false
  end.

Definition fgt (a b : fnum) : bool := flt b a.
Definition fle (a b : fnum) : bool := flt a b || feq a b.
Definition fge (a b : fnum) : bool := fle b a.

Definition is_nan (a : fnum) : bool := match a with NaN => true | _ => false end.
Definition is_fin (a : fnum) : bool := match a with Fin _ => true | _ => false end.

(** Python's builtin [abs], [min(a, b)] and [max(a, b)] on floats *)
Definition fabs (a : fnum) : fnum :=
  match a with
  | Fin q => Fin (Qred (Qabs q))
  | NInf => PInf
  | _ => a
  end.
Definition pymin (a b : fnum) : fnum := if flt b a then b else a.
Definition pymax (a b : fnum) : fnum := if fgt b a then b else a.

(** [round(x, nd)]: round half to even at [nd] decimals *)
Definition round_half_even (q : Q) : Z :=
  let f := Qfloor q in
  match Qcompare (q - inject_Z f) (1 # 2) with
  | Lt => f
  | Gt => f + 1
  | Eq => if Z.even f then f else f + 1
  end.

Definition pow10 (nd : nat) : Q := inject_Z (10 ^ Z.of_nat nd).

Definition fround (a : fnum) (nd : nat) : fnum :=
  match a with
  | Fin q => Fin (Qred (inject_Z (round_half_even (q * pow10 nd)) / pow10 nd))
  | _ => a
  end.

(** [np.sqrt]: the square root to a relative precision of 2^-60; exact at 0,
    positive on positive arguments, NaN on negative ones. *)
Definition Qsqrt (q : Q) : Q :=
  let n := Qnum q in
  let d := Zpos (Qden q) in
  Qred (Qmake (Z.sqrt (n * d * 4 ^ 60)) (Qden q * 2 ^ 60)).

Definition fsqrt (a : fnum) : fnum :=
  match a with
  | Fin q => if Qneg q then NaN else Fin (Qsqrt q)
  | PInf => PInf
  | _ => NaN
  end.

Definition fsum (l : list fnum) : fnum := fold_left fadd l (Fin 0).
Definition fmean (l : list fnum) : fnum := fdiv (fsum l) (of_Z (Z.of_nat (length l))).

End Float.
Export Float.

Declare Scope fnum_scope.
Delimit Scope fnum_scope with F.
Bind Scope fnum_scope with fnum.
Infix "+" := fadd : fnum_scope.
Infix "-" := fsub : fnum_scope.
Infix "*" := fmul : fnum_scope.
Infix "/" := fdiv : fnum_scope.
Infix "<?" := flt : fnum_scope.
Infix "<=?" := fle : fnum_scope.
Infix ">?" := fgt : fnum_scope.
Infix ">=?" := fge : fnum_scope.
Notation "- x" := (fneg x) : fnum_scope.

Arguments flt : simpl never.
Arguments fle : simpl never.
Arguments fgt : simpl never.
Arguments fge : simpl never.
Arguments feq : simpl never.

(** decimal literals: [dec 995 2] is 9.95 *)
Definition dec (m : Z) (nd : nat) : fnum := Fin (Qred (inject_Z m / pow10 nd)).

(* ===================================================================== *)
(** ** Exceptions *)
(* ===================================================================== *)

Module Exc.

Inductive exn : Type :=
| ValueError      (* int(nan) *)
| OverflowError   (* int(inf) *)
| KeyError (key : string)
| IndexError
| ProviderError.  (* anything the data provider raises *)

(** a computation that returns a value or raises *)
Inductive M (A : Type) : Type :=
| Ret (a : A)
| Raise (e : exn).
Arguments Ret {A} a.
Arguments Raise {A} e.

Definition bind {A B} (m : M A) (k : A -> M B) : M B :=
  match m with
  | Ret a => k a
  | Raise e => Raise e
  end.

(** [try: body  except Exception: handler] *)
Definition try_except {A} (body : M A) (handler : exn -> M A) : M A :=
  match body with
  | Ret a => Ret a
  | Raise e => handler e
  end.

Definition raises {A} (m : M A) : bool :=
  match m with Raise _ => true | Ret _ => false end.

End Exc.
Export Exc.

Notation "x <- m ;; k" := (bind m (fun x => k))
  (at level 61, m at next level, right associativity).

(* ===================================================================== *)
(** ** The pandas operations the analyzers use *)
(* ===================================================================== *)

Module Pandas.

(** a column: one float per bar *)
Definition Series := list fnum.

Definition map2 (f : fnum -> fnum -> fnum) (xs ys : Series) : Series :=
  map (fun p => f (fst p) (snd p)) (combine xs ys).

(** the window of [w] values ending at index [i], if there are that many *)
Definition window (w i : nat) (xs : Series) : option (list fnum) :=
  if (i + 1 <? w)%nat then None
  else Some (firstn w (skipn (i + 1 - w) xs)).

(** [xs.rolling(w).agg()]: NaN until [w] observations are available *)
Definition rolling (w : nat) (agg : list fnum -> fnum) (xs : Series) : Series :=
  map (fun i => match window w i xs with
                | Some win => agg win
                | None => NaN
                end)
      (seq 0 (length xs)).

Definition nmin (a b : fnum) : fnum :=
  match a, b with
  | NaN, _ | _, NaN => NaN
  | _, _ => if flt b a then b else a
  end.
Definition nmax (a b : fnum) : fnum :=
  match a, b with
  | NaN, _ | _, NaN => NaN
  | _, _ => if flt a b then b else a
  end.
Definition fmin_list (l : list fnum) : fnum :=
  match l with [] => NaN | x :: r => fold_left nmin r x end.
Definition fmax_list (l : list fnum) : fnum :=
  match l with [] => NaN | x :: r => fold_left nmax r x end.

(** sample variance and standard deviation (ddof = 1); NaN when there are
    fewer than two observations *)
Definition fvar (l : list fnum) : fnum :=
  if (length l <=? 1)%nat then NaN
  else
    let m := fmean l in
    (fsum (map (fun x => (x - m) * (x - m)) l)
     / of_Z (Z.of_nat (length l) - 1))%F.
Definition fstd (l : list fnum) : fnum := fsqrt (fvar l).

Definition rolling_mean (w : nat) : Series -> Series := rolling w fmean.
Definition rolling_std (w : nat) : Series -> Series := rolling w fstd.
Definition rolling_min (w : nat) : Series -> Series := rolling w fmin_list.
Definition rolling_max (w : nat) : Series -> Series := rolling w fmax_list.

(** [xs.diff()] and [xs.pct_change()]: the first entry is NaN *)
Fixpoint diff_from (prev : fnum) (xs : Series) : Series :=
  match xs with
  | [] => []
  | x :: r => (x - prev)%F :: diff_from x r
  end.
Definition diff (xs : Series) : Series :=
  match xs with [] => [] | x :: r => NaN :: diff_from x r end.

Fixpoint pct_from (prev : fnum) (xs : Series) : Series :=
  match xs with
  | [] => []
  | x :: r => (x / prev - of_Z 1)%F :: pct_from x r
  end.
Definition pct_change (xs : Series) : Series :=
  match xs with [] => [] | x :: r => NaN :: pct_from x r end.

(** [xs.where(cond, other)]: keep the entries satisfying [cond] *)
Definition where_ (cond : fnum -> bool) (other : fnum) (xs : Series) : Series :=
  map (fun x => if cond x then x else other) xs.

(** [xs.ewm(span=span, adjust=False).mean()] *)
Definition alpha (span : Z) : fnum := (of_Z 2 / of_Z (span + 1))%F.
Fixpoint ewm_from (a y : fnum) (xs : Series) : Series :=
  match xs with
  | [] => []
  | x :: r => let y' := ((of_Z 1 - a) * y + a * x)%F in y' :: ewm_from a y' r
  end.
Definition ewm_mean (span : Z) (xs : Series) : Series :=
  match xs with [] => [] | x :: r => x :: ewm_from (alpha span) x r end.

Definition dropna (xs : Series) : Series := filter (fun x => negb (is_nan x)) xs.

Fixpoint cumprod_from (acc : fnum) (xs : Series) : Series :=
  match xs with
  | [] => []
  | x :: r => let acc' := (acc * x)%F in acc' :: cumprod_from acc' r
  end.
Definition cumprod (xs : Series) : Series := cumprod_from (of_Z 1) xs.

Fixpoint expanding_max_from (m : fnum) (xs : Series) : Series :=
  match xs with
  | [] => []
  | x :: r => let m' := nmax m x in m' :: expanding_max_from m' r
  end.
Definition expanding_max (xs : Series) : Series :=
  match xs with [] => [] | x :: r => x :: expanding_max_from x r end.

(** one row of the frame: the provider's columns, the [returns] column added
    by [_fetch_data], and the columns added later, by name *)
Record row : Type := {
  open : fnum;
  high : fnum;
  low : fnum;
  close : fnum;
  volume : fnum;
  returns : fnum;
  derived : list (string * fnum)
}.

Definition DataFrame := list row.

Fixpoint lookup (k : string) (cols : list (string * fnum)) : option fnum :=
  match cols with
  | [] => None
  | (k', v) :: r => if String.eqb k k' then Some v else lookup k r
  end.

(** [row.get(key, default)] and [row[key]] on a derived column *)
Definition get (r : row) (k : string) (default : fnum) : fnum :=
  match lookup k (derived r) with Some v => v | None => default end.
Definition getitem (r : row) (k : string) : M fnum :=
  match lookup k (derived r) with Some v => Ret v | None => Raise (KeyError k) end.

(** [df.iloc[i]] for a Python index (negative counts from the end) *)
Definition iloc {A} (l : list A) (i : Z) : M A :=
  let n := Z.of_nat (length l) in
  let j := if i <? 0 then n + i else i in
  if (j <? 0) || (n <=? j) then Raise IndexError
  else match nth_error l (Z.to_nat j) with
       | Some a => Ret a
       | None => Raise IndexError
       end.

(** [l[:n]] *)
Definition slice_to {A} (l : list A) (n : Z) : list A :=
  if n <? 0 then firstn (length l - Z.to_nat (- n)) l
  else firstn (Z.to_nat n) l.

(** [int(x)] *)
Definition py_int (a : fnum) : M Z :=
  match a with
  | Fin q => Ret (Z.quot (Qnum q) (Zpos (Qden q)))
  | NaN => Raise ValueError
  | _ => Raise OverflowError
  end.

End Pandas.
Export Pandas.

(* ===================================================================== *)
(** ** Signals and results (the dictionaries the analyzers build) *)
(* ===================================================================== *)

Module Signals.

(** one entry of the [signals] dictionary; a key that the dictionary lacks
    is [None] *)
Record category : Type := {
  reasons : option (list string);
  patterns : option (list string);
  score : option Z
}.

(** [{'reasons': [], 'score': 0}] and [{'patterns': [], 'score': 0}] *)
Definition reasons_entry (rs : list string) (sc : Z) : category :=
  {| reasons := Some rs; patterns := None; score := Some sc |}.
Definition patterns_entry (ps : list string) (sc : Z) : category :=
  {| reasons := None; patterns := Some ps; score := Some sc |}.

(** [c['reasons'].append(r); c['score'] += pts] *)
Definition award (r : string) (pts : Z) (c : category) : category :=
  {| reasons := option_map (fun l => l ++ [r]) (reasons c);
     patterns := patterns c;
     score := option_map (fun s => s + pts) (score c) |}.

Record signals : Type := {
  s_trend : category;
  s_momentum : category;
  s_volume : category;
  s_oscillators : category;
  s_patterns : category
}.

(** [signals.values()], in insertion order *)
Definition values (s : signals) : list category :=
  [s_trend s; s_momentum s; s_volume s; s_oscillators s; s_patterns s].

Definition on_trend (f : category -> category) (s : signals) : signals :=
  {| s_trend := f (s_trend s); s_momentum := s_momentum s; s_volume := s_volume s;
     s_oscillators := s_oscillators s; s_patterns := s_patterns s |}.
Definition on_momentum (f : category -> category) (s : signals) : signals :=
  {| s_trend := s_trend s; s_momentum := f (s_momentum s); s_volume := s_volume s;
     s_oscillators := s_oscillators s; s_patterns := s_patterns s |}.
Definition on_volume (f : category -> category) (s : signals) : signals :=
  {| s_trend := s_trend s; s_momentum := s_momentum s; s_volume := f (s_volume s);
     s_oscillators := s_oscillators s; s_patterns := s_patterns s |}.
Definition on_oscillators (f : category -> category) (s : signals) : signals :=
  {| s_trend := s_trend s; s_momentum := s_momentum s; s_volume := s_volume s;
     s_oscillators := f (s_oscillators s); s_patterns := s_patterns s |}.

(** the raw score of a category ([0] when the key is missing) *)
Definition score_of (c : category) : Z :=
  match score c with Some s => s | None => 0 end.

Record Indicators : Type := {
  i_MA5 : fnum; i_MA10 : fnum; i_MA20 : fnum; i_RSI : fnum; i_MACD : fnum;
  i_KD_K : fnum; i_KD_D : fnum; i_BB_position : fnum
}.

Record Analysis : Type := {
  confidence_score : Z;
  signal : string;
  action : string;
  position_suggestion : string;
  key_reasons : list string;
  detailed_signals : signals
}.

(** [_calculate_risk_metrics] returns [{}] or the four metrics *)
Inductive RiskMetrics : Type :=
| NoRisk
| Risk (volatility sharpe_ratio max_drawdown : fnum) (risk_level : string).

(** what [analyze] returns: the populated dictionary or the empty result;
    [success] is the value of the key ['success'] when the dictionary has it *)
Inductive Result : Type :=
| Populated (stock_code timestamp : string) (current_price price_change : fnum)
            (volume : Z) (indicators : Indicators) (analysis : Analysis)
            (risk_metrics : RiskMetrics) (success : option bool)
| EmptyResult (stock_code error timestamp : string) (success : option bool).

(** [result.get('success')], as a truth value *)
Definition get_success (r : Result) : bool :=
  match r with
  | Populated _ _ _ _ _ _ _ _ (Some b) => b
  | EmptyResult _ _ _ (Some b) => b
  | _ => false
  end.

Definition is_populated (r : Result) : bool :=
  match r with Populated _ _ _ _ _ _ _ _ _ => true | _ => false end.

Definition result_code (r : Result) : string :=
  match r with
  | Populated c _ _ _ _ _ _ _ _ => c
  | EmptyResult c _ _ _ => c
  end.

(** [result['analysis']['confidence_score']] *)
Definition result_confidence (r : Result) : M Z :=
  match r with
  | Populated _ _ _ _ _ _ a _ _ => Ret (confidence_score a)
  | EmptyResult _ _ _ _ => Raise (KeyError "analysis")
  end.

Definition with_timestamp (t : string) (r : Result) : Result :=
  match r with
  | Populated c _ p pc v i a rk s => Populated c t p pc v i a rk s
  | EmptyResult c e _ s => EmptyResult c e t s
  end.

End Signals.
Export Signals.

(** the body shared by the [_calculate_risk_metrics] methods, which differ
    in nothing but the class they belong to *)
Definition risk_of_frame (d : DataFrame) : RiskMetrics :=
  if Z.of_nat (length d) <? 20 then NoRisk
  else
    let rets := dropna (map returns d) in
    let sqrt252 := fsqrt (of_Z 252) in
    let volatility := (fstd rets * sqrt252 * of_Z 100)%F in
    let sharpe :=
      if (fstd rets >? of_Z 0)%F then (fmean rets / fstd rets * sqrt252)%F
      else of_Z 0 in
    let cumulative := cumprod (map (fadd (of_Z 1)) rets) in
    let running_max := expanding_max cumulative in
    let drawdown := map2 fdiv (map2 fsub cumulative running_max) running_max in
    let max_dd := (fmin_list (dropna drawdown) * of_Z 100)%F in
    let risk_level :=
      (if (volatility >? of_Z 40)%F then "高"
       else if (volatility >? of_Z 20)%F then "中" else "低")%string in
    Risk (fround volatility 2) (fround sharpe 3) (fround (fabs max_dd) 2) risk_level.

(* ===================================================================== *)
(** ** mods/stock_analyzer.py: class StockAnalyzer *)
(* ===================================================================== *)

Module StockAnalyzer.

Record t : Type := {
  stock_code : string;
  period_days : Z;
  df : DataFrame
}.

Definition with_df (self : t) (d : DataFrame) : t :=
  {| stock_code := stock_code self; period_days := period_days self; df := d |}.

(** [df.empty or len(df) < 30] *)
Definition too_short (d : DataFrame) : bool :=
  (match d with [] => true | _ => false end) || (Z.of_nat (length d) <? 30).

Section Fetch.
(** the price source [get_price(code, frequency='1d', count=...)]: the bars
    it returns as (open, high, low, close, volume), or the exception *)
Variable get_price : string -> Z -> M (list (fnum * fnum * fnum * fnum * fnum)).

Definition frame_of (bars : list (fnum * fnum * fnum * fnum * fnum)) (rets : Series)
  : DataFrame :=
  map (fun br => match br with
                 | ((o, h, l, c, v), r) =>
                     {| open := o; high := h; low := l; close := c; volume := v;
                        returns := r; derived := [] |}
                 end)
      (combine bars rets).

Definition _fetch_data (code : string) (period : Z) : DataFrame :=
  match get_price code period with
  | Ret bars =>
      frame_of bars (pct_change (map (fun b => match b with (_, _, _, c, _) => c end) bars))
  | Raise _ => []
  end.

(** [StockAnalyzer(stock_code, period_days)] *)
Definition init (code : string) (period : Z) : t :=
  {| stock_code := code; period_days := period; df := _fetch_data code period |}.
End Fetch.

(** *** calculate_indicators *)

Definition at_ (col : Series) (i : nat) : fnum := nth i col NaN.

Definition MA (w : nat) (closes : Series) : Series := rolling_mean w closes.

Definition MACD_col (closes : Series) : Series :=
  let exp1 := ewm_mean 12 closes in
  let exp2 := ewm_mean 26 closes in
  map2 fsub exp1 exp2.
Definition MACD_signal_col (closes : Series) : Series := ewm_mean 9 (MACD_col closes).

Definition gain_col (closes : Series) : Series :=
  let delta := diff closes in
  rolling_mean 14 (where_ (fun d => d >? of_Z 0)%F (of_Z 0) delta).
Definition loss_col (closes : Series) : Series :=
  let delta := diff closes in
  rolling_mean 14 (map fneg (where_ (fun d => d <? of_Z 0)%F (of_Z 0) delta)).
Definition rs_col (closes : Series) : Series :=
  map2 fdiv (gain_col closes) (loss_col closes).
Definition RSI_col (closes : Series) : Series :=
  map (fun rs => of_Z 100 - (of_Z 100 / (of_Z 1 + rs)))%F (rs_col closes).

Definition BB_middle_col (closes : Series) : Series := rolling_mean 20 closes.
Definition bb_std_col (closes : Series) : Series := rolling_std 20 closes.
Definition BB_upper_col (closes : Series) : Series :=
  map2 (fun m s => m + (s * of_Z 2))%F (BB_middle_col closes) (bb_std_col closes).
Definition BB_lower_col (closes : Series) : Series :=
  map2 (fun m s => m - (s * of_Z 2))%F (BB_middle_col closes) (bb_std_col closes).
Definition BB_position_col (closes : Series) : Series :=
  map2 fdiv (map2 fsub closes (BB_lower_col closes))
            (map2 fsub (BB_upper_col closes) (BB_lower_col closes)).

Definition low_14 (d : DataFrame) : Series := rolling_min 14 (map low d).
Definition high_14 (d : DataFrame) : Series := rolling_max 14 (map high d).
Definition K_col (d : DataFrame) : Series :=
  map (fmul (of_Z 100))
      (map2 fdiv (map2 fsub (map close d) (low_14 d))
                 (map2 fsub (high_14 d) (low_14 d))).
Definition D_col (d : DataFrame) : Series := rolling_mean 3 (K_col d).

Definition volume_ma5_col (d : DataFrame) : Series := rolling_mean 5 (map volume d).
Definition volume_ratio_col (d : DataFrame) : Series :=
  map2 fdiv (map volume d) (volume_ma5_col d).

Definition indicator_columns (d : DataFrame) (i : nat) : list (string * fnum) :=
  let closes := map close d in
  [ ("MA5", at_ (MA 5 closes) i); ("MA10", at_ (MA 10 closes) i);
    ("MA20", at_ (MA 20 closes) i); ("MA30", at_ (MA 30 closes) i);
    ("MA60", at_ (MA 60 closes) i);
    ("MACD", at_ (MACD_col closes) i);
    ("MACD_signal", at_ (MACD_signal_col closes) i);
    ("RSI", at_ (RSI_col closes) i);
    ("BB_middle", at_ (BB_middle_col closes) i);
    ("BB_upper", at_ (BB_upper_col closes) i);
    ("BB_lower", at_ (BB_lower_col closes) i);
    ("BB_position", at_ (BB_position_col closes) i);
    ("%K", at_ (K_col d) i); ("%D", at_ (D_col d) i);
    ("volume_ma5", at_ (volume_ma5_col d) i);
    ("volume_ratio", at_ (volume_ratio_col d) i) ]%string.

Definition with_indicators (d : DataFrame) : DataFrame :=
  map (fun ir => let r := snd ir in
                 {| open := open r; high := high r; low := low r; close := close r;
                    volume := volume r; returns := returns r;
                    derived := indicator_columns d (fst ir) |})
      (combine (seq 0 (length d)) d).

(** returns the flag and the analyzer with [self.df] replaced *)
Definition calculate_indicators (self : t) : bool * t :=
  if too_short (df self) then (false, self)
  else (true, with_df self (with_indicators (df self))).

(** *** _analyze_signals *)

Definition _analyze_signals (latest prev : row) : signals :=
  let signals :=
    {| s_trend := reasons_entry [] 0;
       s_momentum := reasons_entry [] 0;
       s_volume := reasons_entry [] 0;
       s_oscillators := reasons_entry [] 0;
       s_patterns := patterns_entry [] 0 |} in
  (* trend *)
  let signals :=
    if (close latest >? get latest "MA20" (of_Z 0))%F
    then on_trend (award "价格站上20日线" 15) signals else signals in
  let signals :=
    if (get latest "MA5" (of_Z 0) >? get latest "MA10" (of_Z 0))%F
       && (get latest "MA10" (of_Z 0) >? get latest "MA20" (of_Z 0))%F
    then on_trend (award "均线多头排列" 10) signals else signals in
  (* momentum *)
  let rsi := get latest "RSI" (of_Z 50) in
  let signals :=
    if (of_Z 30 <? rsi)%F && (rsi <? of_Z 70)%F
    then on_momentum (award "RSI处于健康区间" 10) signals
    else if (rsi <? of_Z 30)%F
    then on_momentum (award "RSI超卖" 20) signals
    else signals in
  let macd := get latest "MACD" (of_Z 0) in
  let macd_signal := get latest "MACD_signal" (of_Z 0) in
  let prev_macd := get prev "MACD" (of_Z 0) in
  let prev_signal := get prev "MACD_signal" (of_Z 0) in
  let signals :=
    if (macd >? macd_signal)%F && (prev_macd <=? prev_signal)%F
    then on_momentum (award "MACD金叉" 15) signals else signals in
  (* oscillators *)
  let k_value := get latest "%K" (of_Z 50) in
  let signals :=
    if (k_value <? of_Z 20)%F
    then on_oscillators (award "K值超卖" 15) signals else signals in
  let bb_position := get latest "BB_position" (dec 5 1) in
  let signals :=
    if (bb_position <? dec 3 1)%F
    then on_oscillators (award "接近布林带下轨" 10) signals else signals in
  (* volume *)
  let volume_ratio := get latest "volume_ratio" (of_Z 1) in
  let signals :=
    if (volume_ratio >? dec 15 1)%F
    then on_volume (award "成交量放大" 15) signals else signals in
  let signals :=
    if (close latest >? close prev)%F && (volume latest >? volume prev)%F
    then on_volume (award "量价齐升" 10) signals else signals in
  signals.

(** *** _calculate_confidence *)

Definition _calculate_confidence (signals : signals) : Z :=
  let total_score :=
    fold_left (fun total category =>
                 match score category with
                 | Some s => total + Z.min s 30
                 | None => total
                 end)
              (values signals) 0 in
  Z.min total_score 100.

(** *** _calculate_risk_metrics *)

Definition _calculate_risk_metrics (self : t) : RiskMetrics :=
  risk_of_frame (df self).

(** *** _empty_result *)

Definition _empty_result (self : t) (now : string) : Result :=
  EmptyResult (stock_code self) "数据不足或获取失败" now (Some false).

(** *** _generate_result; [now] is [datetime.now().isoformat()] *)

Definition choose_signal (confidence : Z) : string * string * string :=
  if 75 <=? confidence then ("强烈买入", "BUY", "中等仓位(30-50%)")%string
  else if 60 <=? confidence then ("买入", "BUY", "轻仓位(20-30%)")%string
  else if 45 <=? confidence then ("关注", "HOLD", "观望")%string
  else ("回避", "SELL", "不建议")%string.

Definition _generate_result (self : t) (now : string) (latest prev : row)
    (signals : signals) (confidence : Z) : M Result :=
  let price_change := ((close latest - close prev) / close prev * of_Z 100)%F in
  let key_reasons :=
    fold_left (fun acc category =>
                 match reasons category with
                 | Some rs => acc ++ rs
                 | None => acc
                 end)
              (values signals) [] in
  let '(signal, action, position) := choose_signal confidence in
  let risk_metrics := _calculate_risk_metrics self in
  vol <- py_int (volume latest) ;;
  Ret (Populated
         (stock_code self) now
         (fround (close latest) 2) (fround price_change 2) vol
         {| i_MA5 := fround (get latest "MA5" (of_Z 0)) 2;
            i_MA10 := fround (get latest "MA10" (of_Z 0)) 2;
            i_MA20 := fround (get latest "MA20" (of_Z 0)) 2;
            i_RSI := fround (get latest "RSI" (of_Z 50)) 2;
            i_MACD := fround (get latest "MACD" (of_Z 0)) 4;
            i_KD_K := fround (get latest "%K" (of_Z 50)) 2;
            i_KD_D := fround (get latest "%D" (of_Z 50)) 2;
            i_BB_position := fround (get latest "BB_position" (dec 5 1)) 3 |}
         {| confidence_score := confidence;
            signal := signal; action := action; position_suggestion := position;
            key_reasons := firstn 5 key_reasons;
            detailed_signals := signals |}
         risk_metrics (Some true)).

(** *** analyze *)

Definition analyze (self : t) (now : string) : M Result :=
  if too_short (df self) then Ret (_empty_result self now)
  else
    latest <- iloc (df self) (-1) ;;
    prev <- iloc (df self) (-2) ;;
    let signals := _analyze_signals latest prev in
    let confidence := _calculate_confidence signals in
    _generate_result self now latest prev signals confidence.

End StockAnalyzer.

(* ===================================================================== *)
(** ** mods/stock_analyzer.py: class BatchStockAnalyzer *)
(* ===================================================================== *)

Module BatchStockAnalyzer.

Record t : Type := {
  stock_list : list string;
  period_days : Z;
  results : list Result
}.

(** [BatchStockAnalyzer(stock_list, period_days)] *)
Definition init (l : list string) (period : Z) : t :=
  {| stock_list := l; period_days := period; results := [] |}.

Definition with_results (self : t) (rs : list Result) : t :=
  {| stock_list := stock_list self; period_days := period_days self; results := rs |}.

(** [l.sort(key=..., reverse=True)] on the decorated list: a stable sort,
    descending by key *)
Fixpoint insert_desc {A} (x : Z * A) (l : list (Z * A)) : list (Z * A) :=
  match l with
  | [] => [x]
  | y :: r => if fst x <? fst y then y :: insert_desc x r else x :: l
  end.
Definition sort_desc {A} (l : list (Z * A)) : list (Z * A) :=
  fold_right insert_desc [] l.

Fixpoint mapM {A B} (f : A -> M B) (l : list A) : M (list B) :=
  match l with
  | [] => Ret []
  | a :: r => b <- f a ;; bs <- mapM f r ;; Ret (b :: bs)
  end.

(** [results.sort(key=lambda x: x['analysis']['confidence_score'], reverse=True)] *)
Definition sort_by_confidence (l : list Result) : M (list Result) :=
  keyed <- mapM (fun r => k <- result_confidence r ;; Ret (k, r)) l ;;
  Ret (map snd (sort_desc keyed)).

Section Batch.
Variable get_price : string -> Z -> M (list (fnum * fnum * fnum * fnum * fnum)).

(** the body of the [try] block for one symbol; [acc] is
    [high_confidence_results], [now] the clock reading *)
Definition analyze_one (self : t) (min_confidence : fnum) (now : string)
    (stock_code : string) (acc : list Result) : M (list Result) :=
  let analyzer := StockAnalyzer.init get_price stock_code (period_days self) in
  if StockAnalyzer.too_short (StockAnalyzer.df analyzer) then Ret acc
  else
    let '(ok, analyzer) := StockAnalyzer.calculate_indicators analyzer in
    if negb ok then Ret acc
    else
      result <- StockAnalyzer.analyze analyzer now ;;
      if get_success result then
        c <- result_confidence result ;;
        if (of_Z c >=? min_confidence)%F then Ret (acc ++ [result]) else Ret acc
      else Ret acc.

(** the [for i, stock_code in enumerate(self.stock_list, 1)] loop *)
Fixpoint loop (self : t) (min_confidence : fnum) (now : Z -> string) (i : Z)
    (codes : list string) (acc : list Result) : M (list Result) :=
  match codes with
  | [] => Ret acc
  | stock_code :: rest =>
      acc' <- try_except (analyze_one self min_confidence (now i) stock_code acc)
                         (fun _ => Ret acc) ;;
      loop self min_confidence now (i + 1) rest acc'
  end.

(** returns the list and the analyzer with [self.results] set *)
Definition analyze_all (self : t) (min_confidence : fnum) (now : Z -> string)
  : M (list Result * t) :=
  high_confidence_results <- loop self min_confidence now 1 (stock_list self) [] ;;
  high_confidence_results <- sort_by_confidence high_confidence_results ;;
  Ret (high_confidence_results, with_results self high_confidence_results).

Definition default_min_confidence : fnum := of_Z 80.

Definition get_top_stocks (self : t) (top_n : Z) (now : Z -> string)
  : M (list Result * t) :=
  self <- match results self with
          | [] => r <- analyze_all self default_min_confidence now ;; Ret (snd r)
          | _ => Ret self
          end ;;
  Ret (slice_to (results self) top_n, self).

(** [batch_analyze_stocks(stock_list, min_confidence)] *)
Definition batch_analyze_stocks (symbols : list string) (min_confidence : fnum)
    (now : Z -> string) : M (list Result) :=
  let batch_analyzer := init symbols 120 in
  r <- analyze_all batch_analyzer min_confidence now ;;
  Ret (fst r).
End Batch.

End BatchStockAnalyzer.

(* ===================================================================== *)
(** ** app2.py: class StockSignalAnalyzer *)
(* ===================================================================== *)

Module StockSignalAnalyzer.

Record t : Type := {
  stock_code : string;
  period_days : Z;
  df : DataFrame;
  signals_ : option signals;     (* [self.signals], [{}] until analysed *)
  confidence_score_ : Z          (* [self.confidence_score] *)
}.

Definition too_short (d : DataFrame) : bool :=
  (match d with [] => true | _ => false end) || (Z.of_nat (length d) <? 30).

(** [StockSignalAnalyzer(stock_code, period_days)] when the cache has no entry
    for the symbol; the column [log_returns], which nothing reads, is left out *)
Definition init (get_price : string -> Z -> M (list (fnum * fnum * fnum * fnum * fnum)))
    (code : string) (period : Z) : t :=
  {| stock_code := code; period_days := period;
     df := StockAnalyzer._fetch_data get_price code period;
     signals_ := None; confidence_score_ := 0 |}.

Definition _analyze_trend (self : t) (latest prev : row) : M category :=
  let trend_score := 0 in
  let reasons : list string := [] in
  ma5 <- getitem latest "MA5" ;;
  ma10 <- getitem latest "MA10" ;;
  aligned <- (if (ma5 >? ma10)%F
              then ma20 <- getitem latest "MA20" ;; Ret (ma10 >? ma20)%F
              else Ret false) ;;
  let '(trend_score, reasons) :=
    if aligned then (trend_score + 25, reasons ++ ["均线多头排列"%string])
    else (trend_score, reasons) in
  ma20 <- getitem latest "MA20" ;;
  let '(trend_score, reasons) :=
    if (close latest >? ma20)%F
    then (trend_score + 15, reasons ++ ["价格站上20日线"%string])
    else (trend_score, reasons) in
  ma5 <- getitem latest "MA5" ;;
  sixth <- iloc (df self) (-6) ;;
  ma5_6 <- getitem sixth "MA5" ;;
  let ma_slope := ((ma5 - ma5_6) / ma5_6 * of_Z 100)%F in
  let '(trend_score, reasons) :=
    if (ma_slope >? of_Z 1)%F
    then (trend_score + 10, reasons ++ ["短期均线上涨"%string])  (* the slope is appended to the text *)
    else (trend_score, reasons) in
  Ret (reasons_entry reasons trend_score).

Definition _analyze_momentum (latest prev : row) : M category :=
  let momentum_score := 0 in
  let reasons : list string := [] in
  rsi <- getitem latest "RSI" ;;
  let '(momentum_score, reasons) :=
    if (of_Z 30 <? rsi)%F && (rsi <? of_Z 70)%F
    then (momentum_score + 10, reasons ++ ["RSI处于健康区间"%string])
    else if (rsi <? of_Z 30)%F
    then (momentum_score + 20, reasons ++ ["RSI超卖，反弹机会"%string])
    else (momentum_score, reasons) in
  macd <- getitem latest "MACD" ;;
  macd_signal <- getitem latest "MACD_signal" ;;
  crossed <- (if (macd >? macd_signal)%F
              then pm <- getitem prev "MACD" ;; ps <- getitem prev "MACD_signal" ;;
                   Ret (pm <=? ps)%F
              else Ret false) ;;
  let '(momentum_score, reasons) :=
    if crossed
    then (momentum_score + 25, reasons ++ ["MACD金叉形成"%string])
    else if (macd >? of_Z 0)%F
    then (momentum_score + 15, reasons ++ ["MACD在零轴上方"%string])
    else (momentum_score, reasons) in
  Ret (reasons_entry reasons momentum_score).

Definition _analyze_volume (latest prev : row) : M category :=
  let volume_score := 0 in
  let reasons : list string := [] in
  vr <- getitem latest "volume_ratio" ;;
  let '(volume_score, reasons) :=
    if (vr >? dec 15 1)%F
    then (volume_score + 20, reasons ++ ["成交量放大"%string])
    else (volume_score, reasons) in
  let '(volume_score, reasons) :=
    if (close latest >? close prev)%F && (volume latest >? volume prev)%F
    then (volume_score + 15, reasons ++ ["量价齐升"%string])
    else (volume_score, reasons) in
  vma5 <- getitem latest "volume_ma5" ;;
  let '(volume_score, reasons) :=
    if (volume latest >? vma5)%F
    then (volume_score + 10, reasons ++ ["成交量高于5日均量"%string])
    else (volume_score, reasons) in
  Ret (reasons_entry reasons volume_score).

Definition _analyze_oscillators (latest : row) : M category :=
  let oscillator_score := 0 in
  let reasons : list string := [] in
  k <- getitem latest "%K" ;;
  kd <- (if (k <? of_Z 20)%F then Ret (Some (15, "K值超卖"%string))
         else d <- getitem latest "%D" ;;
              if (k >? d)%F then Ret (Some (10, "KD金叉状态"%string)) else Ret None) ;;
  let '(oscillator_score, reasons) :=
    match kd with
    | Some (pts, r) => (oscillator_score + pts, reasons ++ [r])
    | None => (oscillator_score, reasons)
    end in
  bb <- getitem latest "BB_position" ;;
  let '(oscillator_score, reasons) :=
    if (bb <? dec 3 1)%F
    then (oscillator_score + 10, reasons ++ ["接近布林带下轨"%string])
    else if (bb >? dec 7 1)%F
    then (oscillator_score + 5, reasons ++ ["接近布林带上轨"%string])
    else (oscillator_score, reasons) in
  Ret (reasons_entry reasons oscillator_score).

Definition _is_hammer (candle : row) : bool :=
  let body_size := fabs (close candle - open candle)%F in
  let lower_shadow := (pymin (close candle) (open candle) - low candle)%F in
  let upper_shadow := (high candle - pymax (close candle) (open candle))%F in
  (lower_shadow >? body_size * of_Z 2)%F && (upper_shadow <? body_size * dec 5 1)%F.

Definition _is_morning_star (day1 day2 day3 : row) : bool :=
  let day1_bearish := (close day1 <? open day1)%F in
  let gap_down := (open day2 <? close day1)%F in
  let day3_bullish := (close day3 >? open day3)%F in
  let recovery := (close day3 >? (open day1 + close day1) / of_Z 2)%F in
  day1_bearish && gap_down && day3_bullish && recovery.

(** [df.tail(n)] *)
Definition tail {A} (n : nat) (l : list A) : list A := skipn (length l - n) l.

Definition _check_patterns (self : t) : M category :=
  let patterns : list string := [] in
  let recent := tail 5 (df self) in
  last1 <- iloc recent (-1) ;;
  let patterns := if _is_hammer last1 then patterns ++ ["锤子线形态"%string] else patterns in
  star <- (if 3 <=? Z.of_nat (length recent)
           then d1 <- iloc recent (-3) ;; d2 <- iloc recent (-2) ;;
                d3 <- iloc recent (-1) ;; Ret (_is_morning_star d1 d2 d3)
           else Ret false) ;;
  let patterns := if star then patterns ++ ["早晨之星"%string] else patterns in
  Ret (patterns_entry patterns (Z.of_nat (length patterns) * 10)).

Definition _analyze_signals (self : t) : M signals :=
  latest <- iloc (df self) (-1) ;;
  prev <- iloc (df self) (-2) ;;
  tr <- _analyze_trend self latest prev ;;
  mo <- _analyze_momentum latest prev ;;
  vo <- _analyze_volume latest prev ;;
  os <- _analyze_oscillators latest ;;
  pa <- _check_patterns self ;;
  Ret {| s_trend := tr; s_momentum := mo; s_volume := vo;
         s_oscillators := os; s_patterns := pa |}.

(** the value stored in [self.confidence_score] *)
Definition _calculate_confidence (signals : signals) : Z :=
  let total_score :=
    fold_left (fun total category =>
                 match score category with
                 | Some s => total + Z.min s 30      (* at most 30 per item *)
                 | None => total
                 end)
              (values signals) 0 in
  (* add the pattern score *)
  let total_score := total_score + score_of (s_patterns signals) in
  Z.min total_score 100.

Definition with_analysis (self : t) (sg : signals) (c : Z) : t :=
  {| stock_code := stock_code self; period_days := period_days self; df := df self;
     signals_ := Some sg; confidence_score_ := c |}.

Definition _calculate_risk_metrics (self : t) : RiskMetrics :=
  risk_of_frame (df self).

Definition _empty_result (self : t) (now : string) : Result :=
  EmptyResult (stock_code self) "数据不足或获取失败" now None.

Definition choose_signal (confidence : Z) : string * string * string :=
  if 75 <=? confidence then ("强烈买入", "BUY", "中等仓位(30-50%)")%string
  else if 60 <=? confidence then ("买入", "BUY", "轻仓位(20-30%)")%string
  else if 45 <=? confidence then ("关注", "HOLD", "观望")%string
  else ("回避", "SELL", "不建议")%string.

Definition _generate_result (self : t) (sg : signals) (now : string) : M Result :=
  latest <- iloc (df self) (-1) ;;
  prev <- iloc (df self) (-2) ;;
  let price_change := ((close latest - close prev) / close prev * of_Z 100)%F in
  let all_reasons :=
    fold_left (fun acc category =>
                 match reasons category with
                 | Some rs => acc ++ rs
                 | None => acc
                 end)
              (values sg) [] in
  let all_reasons :=
    match patterns (s_patterns sg) with
    | Some ps => all_reasons ++ ps
    | None => all_reasons
    end in
  let '(signal, action, position) := choose_signal (confidence_score_ self) in
  vol <- py_int (volume latest) ;;
  ma5 <- getitem latest "MA5" ;;
  ma10 <- getitem latest "MA10" ;;
  ma20 <- getitem latest "MA20" ;;
  rsi <- getitem latest "RSI" ;;
  macd <- getitem latest "MACD" ;;
  k <- getitem latest "%K" ;;
  d <- getitem latest "%D" ;;
  bb <- getitem latest "BB_position" ;;
  Ret (Populated
         (stock_code self) now
         (fround (close latest) 2) (fround price_change 2) vol
         {| i_MA5 := fround ma5 2; i_MA10 := fround ma10 2; i_MA20 := fround ma20 2;
            i_RSI := fround rsi 2; i_MACD := fround macd 4;
            i_KD_K := fround k 2; i_KD_D := fround d 2;
            i_BB_position := fround bb 3 |}
         {| confidence_score := confidence_score_ self;
            signal := signal; action := action; position_suggestion := position;
            key_reasons := firstn 5 all_reasons;
            detailed_signals := sg |}
         (_calculate_risk_metrics self) None).

(** returns the result and the analyzer as [analyze] leaves it *)
Definition analyze (self : t) (now : string) : M (Result * t) :=
  if too_short (df self) then Ret (_empty_result self now, self)
  else
    sg <- _analyze_signals self ;;
    let self := with_analysis self sg (_calculate_confidence sg) in
    r <- _generate_result self sg now ;;
    Ret (r, self).

(** [calculate_all_indicators]: the columns of
    [StockAnalyzer.calculate_indicators], computed by the same expressions,
    and [MACD_hist] *)
Definition MACD_hist_col (closes : Series) : Series :=
  map2 fsub (StockAnalyzer.MACD_col closes) (StockAnalyzer.MACD_signal_col closes).

Definition with_all_indicators (d : DataFrame) : DataFrame :=
  map (fun ir => let r := snd ir in
                 {| open := open r; high := high r; low := low r; close := close r;
                    volume := volume r; returns := returns r;
                    derived := ("MACD_hist"%string,
                                StockAnalyzer.at_ (MACD_hist_col (map close d)) (fst ir))
                               :: StockAnalyzer.indicator_columns d (fst ir) |})
      (combine (seq 0 (length d)) d).

Definition calculate_all_indicators (self : t) : bool * t :=
  if too_short (df self) then (false, self)
  else (true,
        {| stock_code := stock_code self; period_days := period_days self;
           df := with_all_indicators (df self);
           signals_ := signals_ self; confidence_score_ := confidence_score_ self |}).

End StockSignalAnalyzer.

(* ===================================================================== *)
(** ** old/app.py: the scoring of the older StockAnalyzer *)
(* ===================================================================== *)

Module OldApp.

Definition _analyze_signals (latest prev : row) : M signals :=
  let signals :=
    {| s_trend := reasons_entry [] 0;
       s_momentum := reasons_entry [] 0;
       s_volume := reasons_entry [] 0;
       s_oscillators := reasons_entry [] 0;
       s_patterns := patterns_entry [] 0 |} in
  ma20 <- getitem latest "MA20" ;;
  let signals :=
    if (close latest >? ma20)%F
    then on_trend (award "价格站上20日线" 15) signals else signals in
  ma5 <- getitem latest "MA5" ;;
  ma10 <- getitem latest "MA10" ;;
  aligned <- (if (ma5 >? ma10)%F
              then ma20 <- getitem latest "MA20" ;; Ret (ma10 >? ma20)%F
              else Ret false) ;;
  let signals :=
    if aligned then on_trend (award "均线多头排列" 10) signals else signals in
  rsi <- getitem latest "RSI" ;;
  let signals :=
    if (of_Z 30 <? rsi)%F && (rsi <? of_Z 70)%F
    then on_momentum (award "RSI处于健康区间" 10) signals
    else if (rsi <? of_Z 30)%F
    then on_momentum (award "RSI超卖" 20) signals
    else signals in
  macd <- getitem latest "MACD" ;;
  macd_signal <- getitem latest "MACD_signal" ;;
  let signals :=
    if (macd >? macd_signal)%F
    then on_momentum (award "MACD金叉" 15) signals else signals in
  k <- getitem latest "%K" ;;
  let signals :=
    if (k <? of_Z 20)%F
    then on_oscillators (award "K值超卖" 15) signals else signals in
  bb <- getitem latest "BB_position" ;;
  let signals :=
    if (bb <? dec 3 1)%F
    then on_oscillators (award "接近布林带下轨" 10) signals else signals in
  Ret signals.

End OldApp.

(* ===================================================================== *)
(** ** Dictionaries with string keys *)
(* ===================================================================== *)

Module Dict.

(** a dictionary, in insertion order; a key occurs once *)
Definition dict (V : Type) : Type := list (string * V).

Fixpoint get {V} (k : string) (d : dict V) : option V :=
  match d with
  | [] => None
  | (k', v) :: r => if String.eqb k k' then Some v else get k r
  end.

(** [k in d] *)
Definition mem {V} (k : string) (d : dict V) : bool :=
  match get k d with Some _ => true | None => false end.

(** [d[k] = v]: in place when the key is there, appended otherwise *)
Fixpoint set {V} (k : string) (v : V) (d : dict V) : dict V :=
  match d with
  | [] => [(k, v)]
  | (k', v') :: r => if String.eqb k k' then (k, v) :: r else (k', v') :: set k v r
  end.

(** [del d[k]] *)
Fixpoint del {V} (k : string) (d : dict V) : dict V :=
  match d with
  | [] => []
  | (k', v') :: r => if String.eqb k k' then del k r else (k', v') :: del k r
  end.

(** [list(d.keys())] *)
Definition keys {V} (d : dict V) : list string := map fst d.

End Dict.

(* ===================================================================== *)
(** ** app2.py: class CacheManager, and the cached _fetch_data *)
(* ===================================================================== *)

Module CacheManager.

(** [self.cache] maps a key to (data, timestamp); the lock is not modelled *)
Record t (V : Type) : Type := {
  cache : Dict.dict (V * fnum);
  ttl : fnum
}.
Arguments cache {V} _.
Arguments ttl {V} _.

(** [CacheManager(ttl)]; the default is [ttl=300] *)
Definition init {V} (ttl : fnum) : t V := {| cache := []; ttl := ttl |}.

(** [get(key)], with [now] the reading of [time.time()]; returns the value
    or None, and the cache as the call leaves it *)
Definition get {V} (self : t V) (now : fnum) (key : string) : option V * t V :=
  match Dict.get key (cache self) with
  | Some (data, timestamp) =>
      if (now - timestamp <? ttl self)%F then (Some data, self)
      else (None, {| cache := Dict.del key (cache self); ttl := ttl self |})
  | None => (None, self)
  end.

(** [set(key, value)] *)
Definition set {V} (self : t V) (now : fnum) (key : string) (value : V) : t V :=
  {| cache := Dict.set key (value, now) (cache self); ttl := ttl self |}.

(** [f"data_{self.stock_code}_{self.period_days}"] *)
Definition cache_key (stock_code : string) (period_days : Z) : string :=
  ("data_" ++ stock_code ++ "_" ++ DecimalString.NilZero.string_of_int (Z.to_int period_days))%string.

(** [StockSignalAnalyzer._fetch_data] with the module's cache: [now] is the
    clock reading of [cache.get], [now'] that of [cache.set]; returns
    [self.df] and the cache.  As in [StockSignalAnalyzer.init], the column
    [log_returns], which nothing reads, is left out of the frame. *)
Definition _fetch_data
    (get_price : string -> Z -> M (list (fnum * fnum * fnum * fnum * fnum)))
    (cache : t DataFrame) (now now' : fnum) (stock_code : string) (period_days : Z)
  : DataFrame * t DataFrame :=
  let cache_key := cache_key stock_code period_days in
  let '(cached_data, cache) := get cache now cache_key in
  match cached_data with
  | Some d => (d, cache)
  | None =>
      match get_price stock_code period_days with
      | Ret bars =>
          match bars with
          | [] => ([], cache)
          | _ =>
              let d := StockAnalyzer.frame_of bars
                         (pct_change
                            (map (fun b => match b with (_, _, _, c, _) => c end) bars)) in
              (d, set cache now' cache_key d)
          end
      | Raise _ => ([], cache)
      end
  end.

End CacheManager.

(* ===================================================================== *)
(** ** mods/stock_analyzer.py: the realtime methods and the module's functions *)
(* ===================================================================== *)

Module Realtime.

(** a row of the minute frame of [get_price_min_tx]: the index label (its
    time in seconds and its two renderings by [strftime]) and the columns *)
Record minute_bar : Type := {
  label : Q;
  label_long : string;      (* [idx.strftime('%Y-%m-%d %H:%M:%S')] *)
  label_short : string;     (* [idx.strftime('%H:%M')] *)
  m_open : fnum;
  m_high : fnum;
  m_low : fnum;
  m_close : fnum;
  m_volume : fnum
}.

(** the value of the key ['error']: a fixed text, or [str(e)] of the
    exception caught *)
Inductive error_text : Type :=
| Text (s : string)
| StrOf (e : exn).

(** an entry of [kline_data] in [get_realtime_data] *)
Record kbar : Type := {
  timestamp : string;
  time_str : string;
  k_open : fnum;
  k_close : fnum;
  k_high : fnum;
  k_low : fnum;
  k_volume : Z;
  change : fnum;
  change_percent : fnum
}.

(** the dictionary of [_calculate_realtime_summary]; [short_trend] is
    [None] when the key is not set *)
Record summary : Type := {
  latest_price : fnum;
  latest_change : fnum;
  latest_change_percent : fnum;
  latest_volume : Z;
  s_high : fnum;
  s_low : fnum;
  avg_price : fnum;
  total_volume : Z;
  avg_volume : fnum;
  short_trend : option string
}.

(** what [get_realtime_data] returns; the summary is [None] for [{}] *)
Inductive realtime_data : Type :=
| RtError (error : error_text)
| RtData (frequency : string) (data_count : Z) (data_delay_seconds : fnum)
         (latest_time : option string) (kline_data : list kbar)
         (summary_ : option summary).

Record rt_signals : Type := {
  buy_signals : list string;
  sell_signals : list string;
  warning_signals : list string;
  overall_signal : string
}.

(** what [analyze_realtime] returns *)
Inductive realtime_analysis : Type :=
| RaError (error : error_text)
| Combined (stock_code timestamp : string) (realtime_data_ : realtime_data)
           (day_analysis_ : option Result) (signals_ : rt_signals).

(** an entry of [combined_results] *)
Record combined_result : Type := {
  c_stock_code : string;
  c_realtime_analysis : realtime_analysis;
  c_day_analysis : Result;
  combined_confidence : Z
}.

(** an entry of [two_min_data] in [get_2min_data] *)
Record kbar2 : Type := {
  timestamp2 : string;
  time_str2 : string;
  open2 : fnum;
  close2 : fnum;
  high2 : fnum;
  low2 : fnum;
  volume2 : Z
}.

(** what [get_2min_data] returns *)
Inductive two_min_data : Type :=
| TmError (error : error_text) (data : list kbar2)
| TmData (frequency : string) (data_count time_period_minutes : Z)
         (data_delay_seconds : fnum) (kline_data : list kbar2).

(** the clock readings of one pass: [datetime.now()] in [get_realtime_data]
    (in seconds), in the [analyze] of [analyze_realtime], in
    [analyze_realtime] itself and in the later [analyze] *)
Record readings : Type := {
  r_delay : Q;
  r_day : string;
  r_combined : string;
  r_final : string
}.

(** the builtins [max(l)] and [min(l)] *)
Definition py_max (l : list fnum) : M fnum :=
  match l with [] => Raise ValueError | x :: r => Ret (fold_left pymax r x) end.
Definition py_min (l : list fnum) : M fnum :=
  match l with [] => Raise ValueError | x :: r => Ret (fold_left pymin r x) end.

(** [sum(l)] on integers *)
Definition zsum (l : list Z) : Z := fold_left Z.add l 0.

(** [l[s:]] *)
Definition slice_from {A} (l : list A) (s : Z) : list A :=
  if s <? 0 then skipn (length l - Z.to_nat (- s)) l
  else skipn (Z.to_nat s) l.

(** [range(start, stop, 2)] *)
Fixpoint range2 (fuel : nat) (start stop : Z) : list Z :=
  match fuel with
  | O => []
  | S f => if start <? stop then start :: range2 f (start + 2) stop else []
  end.
Definition range_by_2 (start stop : Z) : list Z :=
  range2 (Z.to_nat (stop - start)) start stop.

(** the items a loop visits before its [break] *)
Fixpoint until_break {A} (stop : A -> bool) (l : list A) : list A :=
  match l with
  | [] => []
  | x :: r => if stop x then [] else x :: until_break stop r
  end.

(** [df.sort_index()]: ascending by label; rows of equal label keep their
    order *)
Fixpoint insert_asc (x : minute_bar) (l : list minute_bar) : list minute_bar :=
  match l with
  | [] => [x]
  | y :: r => if Qle_bool (label y) (label x) then y :: insert_asc x r else x :: l
  end.
Definition sort_index (l : list minute_bar) : list minute_bar :=
  fold_left (fun acc x => insert_asc x acc) l [].

(** *** _calculate_realtime_summary *)

Definition _calculate_realtime_summary (kline_data : list kbar) : M (option summary) :=
  match kline_data with
  | [] => Ret None
  | _ =>
      let closes := map k_close kline_data in
      let volumes := map k_volume kline_data in
      latest <- iloc kline_data (-1) ;;
      high <- (match closes with [] => Ret (of_Z 0) | _ => py_max closes end) ;;
      low <- (match closes with [] => Ret (of_Z 0) | _ => py_min closes end) ;;
      let avg_price :=
        match closes with
        | [] => of_Z 0
        | _ => fround (fsum closes / of_Z (Z.of_nat (length closes))) 2
        end in
      let avg_volume :=
        match volumes with
        | [] => of_Z 0
        | _ => fround (of_Z (zsum volumes) / of_Z (Z.of_nat (length volumes))) 2
        end in
      short_trend <-
        (if 3 <=? Z.of_nat (length closes) then
           c1 <- iloc closes (-1) ;;
           c2 <- iloc closes (-2) ;;
           up <- (if (c1 >? c2)%F then c3 <- iloc closes (-3) ;; Ret (c2 >? c3)%F
                  else Ret false) ;;
           if up then Ret (Some "上涨"%string)
           else
             c1 <- iloc closes (-1) ;;
             c2 <- iloc closes (-2) ;;
             down <- (if (c1 <? c2)%F then c3 <- iloc closes (-3) ;; Ret (c2 <? c3)%F
                      else Ret false) ;;
             if down then Ret (Some "下跌"%string) else Ret (Some "震荡"%string)
         else Ret None) ;;
      Ret (Some {| latest_price := k_close latest;
                   latest_change := change latest;
                   latest_change_percent := change_percent latest;
                   latest_volume := k_volume latest;
                   s_high := high;
                   s_low := low;
                   avg_price := avg_price;
                   total_volume := zsum volumes;
                   avg_volume := avg_volume;
                   short_trend := short_trend |})
  end.

(** *** get_realtime_data *)

(** the dictionary appended for one row of the minute frame *)
Definition kline_entry (row : minute_bar) : M kbar :=
  v <- py_int (m_volume row) ;;
  Ret {| timestamp := label_long row;
         time_str := label_short row;
         k_open := fround (m_open row) 2;
         k_close := fround (m_close row) 2;
         k_high := fround (m_high row) 2;
         k_low := fround (m_low row) 2;
         k_volume := v;
         change := fround (m_close row - m_open row) 2;
         change_percent :=
           if (m_open row >? of_Z 0)%F
           then fround ((m_close row - m_open row) / m_open row * of_Z 100) 2
           else of_Z 0 |}.

Section Minutes.
(** the minute source [get_price_min_tx(code, frequency, count)] *)
Variable get_price_min_tx : string -> string -> Z -> M (list minute_bar).

(** [now] is the reading of [datetime.now()], in seconds *)
Definition get_realtime_data (self : StockAnalyzer.t) (now : Q) (minutes : Z)
    (frequency : string) : realtime_data :=
  match
    (df_min <- get_price_min_tx (StockAnalyzer.stock_code self) frequency minutes ;;
     match df_min with
     | [] => Ret (RtError (Text "无法获取实时数据"))
     | _ =>
         last_row <- iloc df_min (-1) ;;
         let data_delay := Fin (Qred (now - label last_row)) in
         kline_data <- BatchStockAnalyzer.mapM kline_entry df_min ;;
         latest_time <- (match kline_data with
                         | [] => Ret None
                         | _ => l <- iloc kline_data (-1) ;; Ret (Some (timestamp l))
                         end) ;;
         s <- _calculate_realtime_summary kline_data ;;
         Ret (RtData frequency (Z.of_nat (length kline_data)) (fround data_delay 1)
                     latest_time kline_data s)
     end)
  with
  | Ret r => r
  | Raise e => RtError (StrOf e)
  end.

(** *** _generate_realtime_signals *)

Definition _generate_realtime_signals (realtime_data : realtime_data)
    (day_analysis : Result) : M rt_signals :=
  let signals := {| buy_signals := []; sell_signals := []; warning_signals := [];
                    overall_signal := "HOLD" |} in
  match realtime_data with
  | RtError _ => Ret signals
  | RtData _ _ _ _ [] _ => Ret signals
  | RtData _ _ _ _ kline_data _ =>
      if Z.of_nat (length kline_data) <? 3 then Ret signals
      else
        latest <- iloc kline_data (-1) ;;
        prev <- iloc kline_data (-2) ;;
        let buy :=
          if (of_Z (k_volume latest) >? of_Z (k_volume prev) * dec 15 1)%F
             && (change_percent latest >? of_Z 0)%F
          then buy_signals signals ++ ["放量上涨"%string] else buy_signals signals in
        let sell :=
          if (of_Z (k_volume latest) >? of_Z (k_volume prev) * dec 15 1)%F
             && (change_percent latest <? of_Z 0)%F
          then sell_signals signals ++ ["放量下跌"%string] else sell_signals signals in
        overall <-
          (if get_success day_analysis then
             match day_analysis with
             | Populated _ _ _ _ _ _ a _ _ =>
                 let day_action := action a in
                 if String.eqb day_action "BUY" && (0 <? Z.of_nat (length buy))
                 then Ret "BUY"%string
                 else if String.eqb day_action "SELL" && (0 <? Z.of_nat (length sell))
                 then Ret "SELL"%string
                 else Ret (overall_signal signals)
             | EmptyResult _ _ _ _ => Raise (KeyError "analysis")
             end
           else Ret (overall_signal signals)) ;;
        Ret {| buy_signals := buy; sell_signals := sell;
               warning_signals := warning_signals signals;
               overall_signal := overall |}
  end.

(** *** analyze_realtime *)

Definition analyze_realtime (self : StockAnalyzer.t) (clock : readings) (minutes : Z)
  : M realtime_analysis :=
  let realtime_data := get_realtime_data self (r_delay clock) minutes "5min" in
  match realtime_data with
  | RtError e => Ret (RaError e)
  | _ =>
      day_analysis <- StockAnalyzer.analyze self (r_day clock) ;;
      signals <- _generate_realtime_signals realtime_data day_analysis ;;
      Ret (Combined (StockAnalyzer.stock_code self) (r_combined clock) realtime_data
                    (if get_success day_analysis then Some day_analysis else None)
                    signals)
  end.

(** *** BatchStockAnalyzer._calculate_combined_confidence *)

Definition _calculate_combined_confidence (realtime_result : realtime_analysis)
    (day_result : Result) : Z :=
  let day_confidence :=
    match day_result with
    | Populated _ _ _ _ _ _ a _ _ => confidence_score a
    | EmptyResult _ _ _ _ => 0
    end in
  let '(buys, sells) :=
    match realtime_result with
    | Combined _ _ _ _ s => (buy_signals s, sell_signals s)
    | RaError _ => ([], [])
    end in
  let realtime_bonus := Z.of_nat (length buys) * 5 in
  let realtime_bonus := realtime_bonus - Z.of_nat (length sells) * 3 in
  let combined := day_confidence + realtime_bonus in
  Z.max 0 (Z.min combined 100).

(** *** BatchStockAnalyzer.analyze_with_realtime *)

Variable get_price : string -> Z -> M (list (fnum * fnum * fnum * fnum * fnum)).

(** the body of the [try] block for one symbol *)
Definition realtime_one (self : BatchStockAnalyzer.t) (realtime_minutes : Z)
    (clock : readings) (stock_code : string) (combined_results : list combined_result)
  : M (list combined_result) :=
  let analyzer := StockAnalyzer.init get_price stock_code
                    (BatchStockAnalyzer.period_days self) in
  realtime_result <- analyze_realtime analyzer clock realtime_minutes ;;
  if StockAnalyzer.too_short (StockAnalyzer.df analyzer) then Ret combined_results
  else
    let '(ok, analyzer) := StockAnalyzer.calculate_indicators analyzer in
    if negb ok then Ret combined_results
    else
      day_result <- StockAnalyzer.analyze analyzer (r_final clock) ;;
      if get_success day_result then
        Ret (combined_results
             ++ [{| c_stock_code := stock_code;
                    c_realtime_analysis := realtime_result;
                    c_day_analysis := day_result;
                    combined_confidence :=
                      _calculate_combined_confidence realtime_result day_result |}])
      else Ret combined_results.

(** the loop; [clock i] gives the readings of the pass for the [i]-th symbol *)
Fixpoint realtime_loop (self : BatchStockAnalyzer.t) (realtime_minutes : Z)
    (clock : Z -> readings) (i : Z) (codes : list string)
    (combined_results : list combined_result) : list combined_result :=
  match codes with
  | [] => combined_results
  | stock_code :: rest =>
      let combined_results :=
        match realtime_one self realtime_minutes (clock i) stock_code combined_results with
        | Ret l => l
        | Raise _ => combined_results
        end in
      realtime_loop self realtime_minutes clock (i + 1) rest combined_results
  end.

(** [stock_codes] is [None] when the argument is left out *)
Definition analyze_with_realtime (self : BatchStockAnalyzer.t)
    (stock_codes : option (list string)) (realtime_minutes : Z) (clock : Z -> readings)
  : list combined_result :=
  let stock_codes :=
    match stock_codes with
    | None => BatchStockAnalyzer.stock_list self
    | Some l => l
    end in
  realtime_loop self realtime_minutes clock 0 (slice_to stock_codes 50) [].

(** *** get_2min_data *)

Definition two_min_bar (bar1 bar2 : minute_bar) : M kbar2 :=
  v <- py_int (m_volume bar1 + m_volume bar2)%F ;;
  Ret {| timestamp2 := label_long bar2;
         time_str2 := label_short bar2;
         open2 := fround (m_open bar1) 2;
         close2 := fround (m_close bar2) 2;
         high2 := fround (pymax (m_high bar1) (m_high bar2)) 2;
         low2 := fround (pymin (m_low bar1) (m_low bar2)) 2;
         volume2 := v |}.

Definition get_2min_data (stock_code : string) (total_minutes : Z) (now : Q)
  : two_min_data :=
  match
    (let need_1min_count := total_minutes * 2 + 10 in
     df_1min <- get_price_min_tx stock_code "1min" need_1min_count ;;
     match df_1min with
     | [] => Ret (TmError (Text "无法获取1分钟数据") [])
     | _ =>
         let df_sorted := sort_index df_1min in
         let n := Z.of_nat (length df_sorted) in
         two_min_data <-
           BatchStockAnalyzer.mapM
             (fun i => bar1 <- iloc df_sorted i ;;
                       bar2 <- iloc df_sorted (i + 1) ;;
                       two_min_bar bar1 bar2)
             (until_break (fun i => n <=? i + 1) (range_by_2 0 (n - 1))) ;;
         let recent_data :=
           slice_from two_min_data
             (- Z.min (Z.of_nat (length two_min_data)) (total_minutes / 2)) in
         last_row <- iloc df_sorted (-1) ;;
         Ret (TmData "2min" (Z.of_nat (length recent_data))
                     (Z.of_nat (length recent_data) * 2)
                     (fround (Fin (Qred (now - label last_row))) 1)
                     recent_data)
     end)
  with
  | Ret r => r
  | Raise e => TmError (StrOf e) []
  end.

(** *** analyze_stock_simple *)

Definition analyze_stock_simple (stock_code : string) (period_days : Z) (now : string)
  : M Result :=
  let analyzer := StockAnalyzer.init get_price stock_code period_days in
  if StockAnalyzer.too_short (StockAnalyzer.df analyzer)
  then Ret (StockAnalyzer._empty_result analyzer now)
  else
    let '(ok, analyzer) := StockAnalyzer.calculate_indicators analyzer in
    if negb ok then Ret (StockAnalyzer._empty_result analyzer now)
    else StockAnalyzer.analyze analyzer now.

End Minutes.

End Realtime.

(* ===================================================================== *)
(** ** old/app.py: the older StockAnalyzer around its scoring *)
(* ===================================================================== *)

Module OldAnalyzer.

Record t : Type := {
  code : string;
  days : Z;
  df : DataFrame
}.

Definition too_short (d : DataFrame) : bool :=
  (match d with [] => true | _ => false end) || (Z.of_nat (length d) <? 30).

Section Fetch.
Variable get_price : string -> Z -> M (list (fnum * fnum * fnum * fnum * fnum)).

Definition _get_data (code : string) (days : Z) : DataFrame :=
  match get_price code days with
  | Ret bars =>
      StockAnalyzer.frame_of bars
        (pct_change (map (fun b => match b with (_, _, _, c, _) => c end) bars))
  | Raise _ => []
  end.

(** [StockAnalyzer(stock_code, days)] *)
Definition init (stock_code : string) (days : Z) : t :=
  {| code := stock_code; days := days; df := _get_data stock_code days |}.
End Fetch.

(** the columns of [calculate_indicators], in the order they are added *)
Definition indicator_columns (d : DataFrame) (i : nat) : list (string * fnum) :=
  let closes := map close d in
  [ ("MA5", StockAnalyzer.at_ (StockAnalyzer.MA 5 closes) i);
    ("MA10", StockAnalyzer.at_ (StockAnalyzer.MA 10 closes) i);
    ("MA20", StockAnalyzer.at_ (StockAnalyzer.MA 20 closes) i);
    ("RSI", StockAnalyzer.at_ (StockAnalyzer.RSI_col closes) i);
    ("MACD", StockAnalyzer.at_ (StockAnalyzer.MACD_col closes) i);
    ("MACD_signal", StockAnalyzer.at_ (StockAnalyzer.MACD_signal_col closes) i);
    ("%K", StockAnalyzer.at_ (StockAnalyzer.K_col d) i);
    ("%D", StockAnalyzer.at_ (StockAnalyzer.D_col d) i);
    ("BB_middle", StockAnalyzer.at_ (StockAnalyzer.BB_middle_col closes) i);
    ("BB_upper", StockAnalyzer.at_ (StockAnalyzer.BB_upper_col closes) i);
    ("BB_lower", StockAnalyzer.at_ (StockAnalyzer.BB_lower_col closes) i);
    ("BB_position", StockAnalyzer.at_ (StockAnalyzer.BB_position_col closes) i) ]%string.

Definition with_indicators (d : DataFrame) : DataFrame :=
  map (fun ir => let r := snd ir in
                 {| open := open r; high := high r; low := low r; close := close r;
                    volume := volume r; returns := returns r;
                    derived := indicator_columns d (fst ir) |})
      (combine (seq 0 (length d)) d).

(** returns the flag and the analyzer with [self.df] replaced *)
Definition calculate_indicators (self : t) : bool * t :=
  if too_short (df self) then (false, self)
  else (true, {| code := code self; days := days self;
                 df := with_indicators (df self) |}).

Definition _calculate_confidence (signals : signals) : Z :=
  let total_score :=
    fold_left (fun total category =>
                 match score category with
                 | Some s => total + Z.min s 30
                 | None => total
                 end)
              (values signals) 0 in
  Z.min total_score 100.

Definition _calculate_risk_metrics (self : t) : RiskMetrics := risk_of_frame (df self).

Definition _empty_result (self : t) (now : string) : Result :=
  EmptyResult (code self) "数据不足或获取失败" now (Some false).

Definition _generate_result (self : t) (now : string) (latest prev : row)
    (signals : signals) (confidence : Z) : M Result :=
  let price_change := ((close latest - close prev) / close prev * of_Z 100)%F in
  let key_reasons :=
    fold_left (fun acc category =>
                 match reasons category with
                 | Some rs => acc ++ rs
                 | None => acc
                 end)
              (values signals) [] in
  let '(signal, action, position) :=
    if 75 <=? confidence then ("强烈买入", "BUY", "中等仓位(30-50%)")%string
    else if 60 <=? confidence then ("买入", "BUY", "轻仓位(20-30%)")%string
    else if 45 <=? confidence then ("关注", "HOLD", "观望")%string
    else ("回避", "SELL", "不建议")%string in
  let risk_metrics := _calculate_risk_metrics self in
  vol <- py_int (volume latest) ;;
  ma5 <- getitem latest "MA5" ;;
  ma10 <- getitem latest "MA10" ;;
  ma20 <- getitem latest "MA20" ;;
  rsi <- getitem latest "RSI" ;;
  macd <- getitem latest "MACD" ;;
  k <- getitem latest "%K" ;;
  d <- getitem latest "%D" ;;
  bb <- getitem latest "BB_position" ;;
  Ret (Populated
         (code self) now
         (fround (close latest) 2) (fround price_change 2) vol
         {| i_MA5 := fround ma5 2; i_MA10 := fround ma10 2; i_MA20 := fround ma20 2;
            i_RSI := fround rsi 2; i_MACD := fround macd 4;
            i_KD_K := fround k 2; i_KD_D := fround d 2;
            i_BB_position := fround bb 3 |}
         {| confidence_score := confidence;    (* [round] of an integer *)
            signal := signal; action := action; position_suggestion := position;
            key_reasons := firstn 5 key_reasons;
            detailed_signals := signals |}
         risk_metrics (Some true)).

Definition analyze (self : t) (now : string) : M Result :=
  if too_short (df self) then Ret (_empty_result self now)
  else
    latest <- iloc (df self) (-1) ;;
    prev <- iloc (df self) (-2) ;;
    signals <- OldApp._analyze_signals latest prev ;;
    let confidence := _calculate_confidence signals in
    _generate_result self now latest prev signals confidence.

End OldAnalyzer.

(* ===================================================================== *)
(** ** Sample data *)
(* ===================================================================== *)

Module Samples.

Definition bars := list (fnum * fnum * fnum * fnum * fnum).

(** a bar from prices in hundredths *)
Definition bar (o h l c v : Z) : fnum * fnum * fnum * fnum * fnum :=
  (dec o 2, dec h 2, dec l 2, dec c 2, of_Z v).

Definition flat (n : nat) (c : Z) : bars := repeat (bar c (c + 100) (c - 100) c 1000) n.

(** fifteen quiet days at 100, a spike to 200, a fall to 150 and a steady
    recovery to 162 on rising volume; one day's high is an outlier *)
Definition recovery : bars :=
  map (fun i => let c := 15000 + 100 * Z.of_nat i in
                bar (c - 100) (if Nat.eqb i 3 then 1000000 else c + 100) (c - 200) c
                    (if Nat.eqb i 12 then 5000 else 1000))
      (seq 0 13).
Definition rebound : bars :=
  flat 15 10000 ++ [bar 10000 20100 9900 20000 1000; bar 20000 20100 14900 15000 1000]
  ++ recovery.

(** twenty-seven quiet days at 10.00, then a bearish day, a gap down and a
    bullish hammer that closes above the first day's midpoint *)
Definition star : bars :=
  flat 27 1000
  ++ [bar 1010 1015 985 990 1000; bar 980 990 970 985 1000; bar 1000 1012 950 1010 1000].

(** thirty identical days *)
Definition still : bars := flat 30 1000.

(** thirty days, the last one without a volume *)
Definition unpriced : bars :=
  flat 29 1000 ++ [(dec 1000 2, dec 1100 2, dec 900 2, dec 1000 2, NaN)].

(** the price source: five symbols are listed, one of them too young, one
    with a missing volume; any other symbol is refused *)
Definition get_price (code : string) (count : Z) : M bars :=
  if String.eqb code "sh600519" then Ret rebound
  else if String.eqb code "sz000858" then Ret star
  else if String.eqb code "sz000333" then Ret still
  else if String.eqb code "sz300750" then Ret (flat 12 1000)
  else if String.eqb code "sz002415" then Ret unpriced
  else Raise ProviderError.

Definition clock (i : Z) : string := "2026-01-05T13:30:00".

End Samples.

(** minute bars for the realtime functions *)
Module MinuteSamples.

(** a minute bar from its time in seconds, its renderings and prices in
    hundredths *)
Definition minute (t : Z) (long short : string) (o h l c v : Z) : Realtime.minute_bar :=
  {| Realtime.label := inject_Z t;
     Realtime.label_long := long;
     Realtime.label_short := short;
     Realtime.m_open := dec o 2;
     Realtime.m_high := dec h 2;
     Realtime.m_low := dec l 2;
     Realtime.m_close := dec c 2;
     Realtime.m_volume := of_Z v |}.

(** five bars from 09:31 on: three quiet ones, a rise, and a fall on twice
    the volume *)
Definition morning : list Realtime.minute_bar :=
  [ minute 34260 "2026-01-05 09:31:00" "09:31" 1000 1004 998 1002 1000;
    minute 34320 "2026-01-05 09:32:00" "09:32" 1002 1003 1000 1001 900;
    minute 34380 "2026-01-05 09:33:00" "09:33" 1001 1006 1001 1005 1100;
    minute 34440 "2026-01-05 09:34:00" "09:34" 1005 1012 1004 1010 1200;
    minute 34500 "2026-01-05 09:35:00" "09:35" 1010 1011 990 992 2500 ].

(** the minute source: one symbol is listed *)
Definition get_price_min_tx (code frequency : string) (count : Z)
  : M (list Realtime.minute_bar) :=
  if String.eqb code "sh600519" then Ret morning else Raise ProviderError.

(** the clock, in seconds: 09:35:30 *)
Definition now : Q := inject_Z 34530.

End MinuteSamples.

(* ===================================================================== *)
(** ** Vocabulary of the statements *)
(* ===================================================================== *)

(** The confidence as the specification words it: the sum over the five
    categories of min(score, 30), clamped to [0,100]. *)
Definition spec_confidence (sg : signals) : Z :=
  Z.max 0 (Z.min 100
    (Z.min (score_of (s_trend sg)) 30 + Z.min (score_of (s_momentum sg)) 30
     + Z.min (score_of (s_volume sg)) 30 + Z.min (score_of (s_oscillators sg)) 30
     + Z.min (score_of (s_patterns sg)) 30)).

(** every category carries a non-negative score *)
Definition scored (sg : signals) : Prop :=
  Forall (fun c => exists s, score c = Some s /\ 0 <= s) (values sg).

(** [analyzer = StockSignalAnalyzer(code); analyzer.calculate_all_indicators();
    analyzer.analyze()] on the sample price source, as the route /api/analyze
    of app2.py runs it *)
Definition app2_analysis (code : string) : M (Result * StockSignalAnalyzer.t) :=
  let analyzer := StockSignalAnalyzer.init Samples.get_price code 120 in
  let analyzer := snd (StockSignalAnalyzer.calculate_all_indicators analyzer) in
  StockSignalAnalyzer.analyze analyzer (Samples.clock 1).

(** the result with its timestamp blanked *)
Definition without_timestamp (r : M Result) : M Result :=
  match r with
  | Ret r => Ret (with_timestamp "" r)
  | Raise e => Raise e
  end.

(** a row with the given open, high, low and close *)
Definition candle (o h l c : fnum) : row :=
  {| open := o; high := h; low := l; close := c; volume := of_Z 1000;
     returns := NaN; derived := [] |}.

(** the bar of the specification's scenario, and the same bar with a
    shorter upper shadow *)
Definition scenario_bar : row := candle (dec 1000 2) (dec 1005 2) (dec 950 2) (dec 995 2).

Definition short_wick_bar : row := candle (dec 1000 2) (dec 1002 2) (dec 950 2) (dec 995 2).

(** twenty-nine quiet days followed by the scenario's bar *)
Definition scenario_source (code : string) (count : Z) : M Samples.bars :=
  Ret (Samples.flat 29 1000 ++ [Samples.bar 1000 1005 950 995 1000]).

Definition short_wick_source (code : string) (count : Z) : M Samples.bars :=
  Ret (Samples.flat 29 1000 ++ [Samples.bar 1000 1002 950 995 1000]).

(** the points [_analyze_signals] gives for the RSI *)
Definition rsi_points (rsi : fnum) : Z :=
  if (of_Z 30 <? rsi)%F && (rsi <? of_Z 70)%F then 10
  else if (rsi <? of_Z 30)%F then 20 else 0.

(** MACD crosses above its signal line between the previous and the latest bar *)
Definition crossed_up (macd macd_signal prev_macd prev_signal : fnum) : bool :=
  (macd >? macd_signal)%F && (prev_macd <=? prev_signal)%F.

(** The MACD award as the specification words it: +15 on a strict upward
    crossing, else +15 if MACD is above zero. *)
Definition spec_macd_points (macd macd_signal prev_macd prev_signal : fnum) : Z :=
  if crossed_up macd macd_signal prev_macd prev_signal then 15
  else if (macd >? of_Z 0)%F then 15 else 0.

(** a row that closes at 10.00 and carries the given derived columns *)
Definition row_with (cols : list (string * fnum)) : row :=
  {| open := of_Z 10; high := of_Z 10; low := of_Z 10; close := of_Z 10;
     volume := of_Z 1000; returns := of_Z 0; derived := cols |}.

(** MACD above zero but below its signal line on both days; RSI 80 *)
Definition lagging_day : row :=
  row_with [("MA5", of_Z 10); ("MA10", of_Z 10); ("MA20", of_Z 10);
            ("RSI", of_Z 80); ("MACD", of_Z 1); ("MACD_signal", of_Z 2);
            ("%K", of_Z 50); ("%D", of_Z 50); ("BB_position", dec 5 1);
            ("volume_ma5", of_Z 1000); ("volume_ratio", of_Z 1)]%string.

(** MACD above its signal line on both days: a level, not a crossing *)
Definition leading_day : row :=
  row_with [("MA5", of_Z 10); ("MA10", of_Z 10); ("MA20", of_Z 10);
            ("RSI", of_Z 80); ("MACD", of_Z (-1)); ("MACD_signal", of_Z (-2));
            ("%K", of_Z 50); ("%D", of_Z 50); ("BB_position", dec 5 1);
            ("volume_ma5", of_Z 1000); ("volume_ratio", of_Z 1)]%string.

(** a float that is not negative: a rational >= 0, +inf, or NaN *)
Definition nonneg (x : fnum) : Prop :=
  match x with
  | Fin q => (0 <= q)%Q
  | PInf | NaN => True
  | NInf => False
  end.

Definition nonneg_num (x : fnum) : Prop := nonneg x /\ x <> NaN.

(** a number in [0,100] *)
Definition percent (x : fnum) : Prop :=
  exists q, x = Fin q /\ (0 <= q <= 100)%Q.

(** the expression [100 - (100 / (1 + rs))] of the RSI column *)
Definition rsi_of_rs (rs : fnum) : fnum :=
  (of_Z 100 - (of_Z 100 / (of_Z 1 + rs)))%F.

(** thirty days, each closing one above the day before *)
Definition climb_source (code : string) (count : Z) : M Samples.bars :=
  Ret (map (fun i => let c := 10000 + 100 * Z.of_nat i in
                     Samples.bar (c - 100) (c + 100) (c - 200) c 1000)
           (seq 0 30)).

(** the sum of a list of rationals *)
Definition Qsum (l : list Q) : Q := fold_right Qplus 0%Q l.

(** the row [r] with the derived column [k] set to [v] *)
Definition with_col (k : string) (v : fnum) (r : row) : row :=
  {| open := open r; high := high r; low := low r; close := close r;
     volume := volume r; returns := returns r; derived := (k, v) :: derived r |}.

Import BatchStockAnalyzer.

(** the type of [get_price] *)
Definition price_source := string -> Z -> M (list (fnum * fnum * fnum * fnum * fnum)).

(** the confidence of a result (0 for the empty result) *)
Definition confidence_of (r : Result) : Z :=
  match r with
  | Populated _ _ _ _ _ _ a _ _ => confidence_score a
  | EmptyResult _ _ _ _ => 0
  end.

(** the analyses that the loop of [analyze_all] keeps, in the order of the
    symbol list; [i] is the loop counter of the first symbol *)
Fixpoint survivors (gp : price_source) (self : t) (min_confidence : fnum)
    (now : Z -> string) (i : Z) (codes : list string) : list Result :=
  match codes with
  | [] => []
  | code :: rest =>
      match analyze_one gp self min_confidence (now i) code [] with
      | Ret l => l
      | Raise _ => []
      end ++ survivors gp self min_confidence now (i + 1) rest
  end.

(** processing a symbol fails: the source has no data for it, its history
    is too short, or its analysis raises *)
Definition symbol_fails (gp : price_source) (period : Z) (code : string) : Prop :=
  let analyzer := StockAnalyzer.init gp code period in
  (exists e, gp code period = Raise e)
  \/ StockAnalyzer.too_short (StockAnalyzer.df analyzer) = true
  \/ (forall now,
        raises (StockAnalyzer.analyze
                  (snd (StockAnalyzer.calculate_indicators analyzer)) now) = true).

(** [r] is a successful analysis of [code] that clears the threshold *)
Definition cleared (gp : price_source) (period : Z) (min_confidence : fnum)
    (code : string) (r : Result) : Prop :=
  let analyzer := StockAnalyzer.init gp code period in
  StockAnalyzer.too_short (StockAnalyzer.df analyzer) = false
  /\ (exists now,
        StockAnalyzer.analyze (snd (StockAnalyzer.calculate_indicators analyzer)) now
        = Ret r)
  /\ get_success r = true
  /\ result_code r = code
  /\ result_confidence r = Ret (confidence_of r)
  /\ (of_Z (confidence_of r) >=? min_confidence)%F = true.

(** the order of the decorated list after the sort, and the entries of key [k] *)
Definition key_ge {A} (a b : Z * A) : Prop := fst b <= fst a.

Definition has_key {A} (k : Z) (x : Z * A) : bool := fst x =? k.

(** the results paired with their sort keys *)
Definition decorate (l : list Result) : list (Z * Result) :=
  map (fun r => (confidence_of r, r)) l.

(** [l] sorted by confidence, highest first, as [sort_by_confidence] leaves it *)
Definition ranked (l : list Result) : list Result := map snd (sort_desc (decorate l)).

(** descending order of confidence, and the results of confidence [k] *)
Definition confidence_ge (a b : Result) : Prop := confidence_of b <= confidence_of a.

Definition has_confidence (k : Z) (r : Result) : bool := confidence_of r =? k.

Definition keyed_well (x : Z * Result) : Prop := fst x = confidence_of (snd x).

(** the columns of a row that the price source and [_fetch_data] provide *)
Definition raw (r : row) : fnum * fnum * fnum * fnum * fnum * fnum :=
  (open r, high r, low r, close r, volume r, returns r).

(** what [_fetch_data] leaves in [self.df], and the cache after it *)
Definition fetched_frame (gp : string -> Z -> M (list (fnum * fnum * fnum * fnum * fnum)))
    (cache : CacheManager.t DataFrame) (now now' : fnum) (code : string) (period : Z) :=
  fst (CacheManager._fetch_data gp cache now now' code period).
Definition cache_after (gp : string -> Z -> M (list (fnum * fnum * fnum * fnum * fnum)))
    (cache : CacheManager.t DataFrame) (now now' : fnum) (code : string) (period : Z) :=
  snd (CacheManager._fetch_data gp cache now now' code period).


(** the character [_] *)
Definition underscore : Ascii.ascii :=
  Ascii.Ascii true true true true true false true false.

(** whether a character occurs in a string *)
Fixpoint has_char (c : Ascii.ascii) (s : string) : bool :=
  match s with
  | EmptyString => false
  | String a r => Ascii.eqb a c || has_char c r
  end.

(** the action of a day analysis that reports success *)
Definition day_action (r : Result) : option string :=
  match r with
  | Populated _ _ _ _ _ _ a _ (Some true) => Some (action a)
  | _ => None
  end.

(** the confidence a day result carries *)
Definition day_confidence (r : Result) : Z :=
  match r with
  | Populated _ _ _ _ _ _ a _ _ => confidence_score a
  | EmptyResult _ _ _ _ => 0
  end.

Definition kline_of (rd : Realtime.realtime_data) : list Realtime.kbar :=
  match rd with
  | Realtime.RtData _ _ _ _ k _ => k
  | Realtime.RtError _ => []
  end.

(** the signals of a realtime analysis, when it has them *)
Definition signals_of (ra : Realtime.realtime_analysis) : option Realtime.rt_signals :=
  match ra with
  | Realtime.Combined _ _ _ _ s => Some s
  | Realtime.RaError _ => None
  end.

(** [overall_signal] of a realtime analysis, when it has signals *)
Definition overall_of (ra : Realtime.realtime_analysis) : option string :=
  option_map Realtime.overall_signal (signals_of ra).

(** an entry of [combined_results] as [analyze_with_realtime] builds them *)
Definition sound_entry (r : Realtime.combined_result) : Prop :=
  is_populated (Realtime.c_day_analysis r) = true
  /\ get_success (Realtime.c_day_analysis r) = true
  /\ result_code (Realtime.c_day_analysis r) = Realtime.c_stock_code r
  /\ 0 <= day_confidence (Realtime.c_day_analysis r) <= 100
  /\ 0 <= Realtime.combined_confidence r <= 100
  /\ day_confidence (Realtime.c_day_analysis r) - 3 <= Realtime.combined_confidence r
     <= day_confidence (Realtime.c_day_analysis r) + 5
  /\ overall_of (Realtime.c_realtime_analysis r) <> Some "BUY"%string.

(** the rational a finite float stands for *)
Definition qof (a : fnum) : Q := match a with Fin q => q | _ => 0%Q end.

Definition finite_volume (b : Realtime.minute_bar) : bool := is_fin (Realtime.m_volume b).

(** consecutive pairs of a list: (l0, l1), (l2, l3), ...; the last element
    of a list of odd length has no partner *)
Fixpoint pairs {A} (l : list A) : list (A * A) :=
  match l with
  | a :: b :: r => (a, b) :: pairs r
  | _ => []
  end.

Definition pair_bar (p : Realtime.minute_bar * Realtime.minute_bar) : M Realtime.kbar2 :=
  Realtime.two_min_bar (fst p) (snd p).

(** the realtime data of the sample symbol, and its day analysis before the
    indicators are computed *)
Definition sample_realtime : Realtime.realtime_data :=
  Realtime.get_realtime_data MinuteSamples.get_price_min_tx
    (StockAnalyzer.init Samples.get_price "sh600519" 120) MinuteSamples.now 30 "5min".

Definition sample_day : Result :=
  match StockAnalyzer.analyze (StockAnalyzer.init Samples.get_price "sh600519" 120)
                              (Samples.clock 1) with
  | Ret r => r
  | Raise _ => EmptyResult "sh600519" "" (Samples.clock 1) None
  end.

(** a row that carries the columns [calculate_all_indicators] adds and the
    analysis reads *)
Definition has_indicators (r : row) : Prop :=
  forall k, In k ["MA5"; "MA10"; "MA20"; "MACD"; "MACD_signal"; "RSI"; "BB_position";
                  "%K"; "%D"; "volume_ma5"; "volume_ratio"]%string ->
            exists v, getitem r k = Ret v.

(** a row that carries the columns the older analyzer reads *)
Definition has_old_indicators (r : row) : Prop :=
  forall k, In k ["MA5"; "MA10"; "MA20"; "RSI"; "MACD"; "MACD_signal"; "%K"; "%D";
                  "BB_position"]%string ->
            exists v, getitem r k = Ret v.

(** a bar whose low, close and high are numbers in that order *)
Definition consistent_bar (r : row) : Prop :=
  exists l c h, low r = Fin l /\ close r = Fin c /\ high r = Fin h
                /\ (l <= c)%Q /\ (c <= h)%Q.

(** fifteen quiet bars, and twenty closes that alternate between 9 and 11 *)
Definition quiet_frame : DataFrame :=
  StockAnalyzer._fetch_data (fun _ _ => Ret (Samples.flat 15 1000)) "sz300750" 120.
Definition zigzag : Series :=
  map (fun i => if Nat.even i then of_Z 9 else of_Z 11) (seq 0 20).

(** the clock readings of the samples *)
Definition sample_readings (i : Z) : Realtime.readings :=
  {| Realtime.r_delay := MinuteSamples.now;
     Realtime.r_day := Samples.clock i;
     Realtime.r_combined := Samples.clock i;
     Realtime.r_final := Samples.clock i |}.




(* ===================================================================== *)
(** ** Confidence aggregation *)
(* ===================================================================== *)

Lemma award_score r pts c s :
  score c = Some s -> score (award r pts c) = Some (s + pts).
Proof. intros H. unfold award; simpl. now rewrite H. Qed.

Ltac split_ifs :=
  repeat match goal with
         | |- context [if ?b then _ else _] => destruct b
         end.

Lemma canonical_confidence_is_sum sg :
  scored sg -> StockAnalyzer._calculate_confidence sg = spec_confidence sg.
Proof.
  destruct sg as [tr mo vo os pa]. unfold scored, values; simpl.
  intros H.
  repeat match goal with
         | H : Forall _ (_ :: _) |- _ => inversion H; clear H; subst
         end.
  repeat match goal with
         | H : exists _, _ |- _ => destruct H as [? [? ?]]
         end.
  unfold StockAnalyzer._calculate_confidence, spec_confidence, values, score_of; simpl.
  repeat match goal with H : score _ = Some _ |- _ => rewrite H; clear H end.
  lia.
Qed.

Lemma app2_confidence_formula sg :
  scored sg ->
  StockSignalAnalyzer._calculate_confidence sg =
  Z.min (Z.min (score_of (s_trend sg)) 30 + Z.min (score_of (s_momentum sg)) 30
         + Z.min (score_of (s_volume sg)) 30 + Z.min (score_of (s_oscillators sg)) 30
         + Z.min (score_of (s_patterns sg)) 30 + score_of (s_patterns sg)) 100.
Proof.
  destruct sg as [tr mo vo os pa]. unfold scored, values; simpl.
  intros H.
  repeat match goal with
         | H : Forall _ (_ :: _) |- _ => inversion H; clear H; subst
         end.
  repeat match goal with
         | H : exists _, _ |- _ => destruct H as [? [? ?]]
         end.
  unfold StockSignalAnalyzer._calculate_confidence, values, score_of; simpl.
  repeat match goal with H : score _ = Some _ |- _ => rewrite H; clear H end.
  reflexivity.
Qed.

Lemma canonical_signals_scored latest prev :
  scored (StockAnalyzer._analyze_signals latest prev).
Proof.
  unfold StockAnalyzer._analyze_signals, scored.
  split_ifs; simpl; repeat constructor; eexists; (split; [reflexivity | lia]).
Qed.

(** C10: in mods/stock_analyzer.py the patterns entry of the signals is
    always the initial one, with score 0 and no pattern, and the confidence
    is the capped sum of the four other categories, clamped at 100. *)
Theorem canonical_patterns_never_score (latest prev : row) :
  let sg := StockAnalyzer._analyze_signals latest prev in
  s_patterns sg = patterns_entry [] 0
  /\ score_of (s_patterns sg) = 0
  /\ StockAnalyzer._calculate_confidence sg =
     Z.min (Z.min (score_of (s_trend sg)) 30 + Z.min (score_of (s_momentum sg)) 30
            + Z.min (score_of (s_volume sg)) 30 + Z.min (score_of (s_oscillators sg)) 30)
           100.
Proof.
  intros sg.
  assert (Hp : s_patterns sg = patterns_entry [] 0).
  { subst sg. unfold StockAnalyzer._analyze_signals. split_ifs; reflexivity. }
  split; [exact Hp | split; [now rewrite Hp |]].
  rewrite canonical_confidence_is_sum by apply canonical_signals_scored.
  unfold spec_confidence. rewrite Hp.
  pose proof (canonical_signals_scored latest prev) as Hs.
  fold sg in Hs. unfold scored, values in Hs.
  repeat match goal with
         | H : Forall _ (_ :: _) |- _ => inversion H; clear H; subst
         end.
  repeat match goal with
         | H : exists _, _ |- _ => destruct H as [? [? ?]]
         end.
  unfold score_of.
  repeat match goal with H : score _ = Some _ |- _ => rewrite H; clear H end.
  simpl. lia.
Qed.

(** C1: on the series [Samples.star] (a hammer that completes a morning
    star) the analyzer of app2.py reports confidence 80, while the capped
    sum over its five categories is 60: the patterns score 20 is counted by
    the loop and added once more. *)
Theorem app2_counts_patterns_twice :
  match app2_analysis "sz000858" with
  | Ret (Populated _ _ _ _ _ _ a _ _, self) =>
      confidence_score a = 80
      /\ StockSignalAnalyzer.confidence_score_ self = 80
      /\ map score_of (values (detailed_signals a)) = [15; 10; 0; 15; 20]
      /\ spec_confidence (detailed_signals a) = 60
      /\ StockAnalyzer._calculate_confidence (detailed_signals a) = 60
  | _ => False
  end.
Proof. vm_compute. repeat split; reflexivity. Qed.

(* ===================================================================== *)
(** ** analyze: short series, determinism *)
(* ===================================================================== *)

Lemma too_short_lt (d : DataFrame) :
  (length d < 30)%nat -> StockAnalyzer.too_short d = true.
Proof.
  intros H. unfold StockAnalyzer.too_short.
  apply orb_true_iff; right. apply Z.ltb_lt. lia.
Qed.

(** C2: with fewer than 30 bars [analyze] returns the empty result (the
    symbol, the error text, the timestamp and success = False) and
    [calculate_indicators] refuses, leaving the frame as it was. *)
Theorem analyze_short_series_is_empty (self : StockAnalyzer.t) (now : string) :
  (length (StockAnalyzer.df self) < 30)%nat ->
  StockAnalyzer.analyze self now =
    Ret (EmptyResult (StockAnalyzer.stock_code self) "数据不足或获取失败" now (Some false))
  /\ StockAnalyzer.calculate_indicators self = (false, self).
Proof.
  intros H. apply too_short_lt in H.
  unfold StockAnalyzer.analyze, StockAnalyzer.calculate_indicators.
  rewrite H. split; reflexivity.
Qed.

Lemma analyze_short_series_is_empty_witness :
  let self := StockAnalyzer.init Samples.get_price "sz300750" 120 in
  (length (StockAnalyzer.df self) < 30)%nat
  /\ StockAnalyzer.analyze self "2026-01-05T13:30:00" =
       Ret (EmptyResult "sz300750" "数据不足或获取失败" "2026-01-05T13:30:00" (Some false))
  /\ StockAnalyzer.calculate_indicators self = (false, self).
Proof.
  intros self.
  assert (H : (length (StockAnalyzer.df self) < 30)%nat) by (vm_compute; lia).
  split; [exact H |].
  exact (analyze_short_series_is_empty self "2026-01-05T13:30:00" H).
Defined.

(** C9: two runs of [analyze] on the same analyzer, at whatever clock
    readings, agree on everything but the timestamp: both raise the same
    exception, or both return, and the results are equal once the timestamp
    is blanked; the timestamp itself is the clock reading of the run. *)
Theorem analyze_deterministic_but_timestamp (self : StockAnalyzer.t) (t1 t2 : string) :
  without_timestamp (StockAnalyzer.analyze self t1)
  = without_timestamp (StockAnalyzer.analyze self t2)
  /\ (forall r, StockAnalyzer.analyze self t1 = Ret r ->
                StockAnalyzer.analyze self t2 = Ret (with_timestamp t2 r)
                /\ with_timestamp t1 r = r).
Proof.
  unfold StockAnalyzer.analyze.
  destruct (StockAnalyzer.too_short (StockAnalyzer.df self)).
  - split; [reflexivity |]. intros r H. inversion H; subst. split; reflexivity.
  - destruct (iloc (StockAnalyzer.df self) (-1)) as [latest | e]; simpl;
      [| split; [reflexivity | discriminate]].
    destruct (iloc (StockAnalyzer.df self) (-2)) as [prev | e]; simpl;
      [| split; [reflexivity | discriminate]].
    unfold StockAnalyzer._generate_result.
    destruct (StockAnalyzer.choose_signal _) as [[sg ac] ps].
    destruct (py_int (volume latest)) as [v | e]; simpl;
      [| split; [reflexivity | discriminate]].
    split; [reflexivity |]. intros r H. inversion H; subst. split; reflexivity.
Qed.

(* ===================================================================== *)
(** ** Facts about float64 values *)
(* ===================================================================== *)

Lemma Qltb_lt (a b : Q) : Qltb a b = true <-> (a < b)%Q.
Proof. unfold Qltb, Qlt. apply Z.ltb_lt. Qed.

Lemma Qltb_ge (a b : Q) : Qltb a b = false <-> (b <= a)%Q.
Proof. unfold Qltb, Qle. rewrite Z.ltb_ge. reflexivity. Qed.

Lemma Qzero_eq (q : Q) : Qzero q = true <-> (q == 0)%Q.
Proof. unfold Qzero, Qeq; simpl. rewrite Z.eqb_eq. lia. Qed.

Lemma Qneg_lt (q : Q) : Qneg q = true <-> (q < 0)%Q.
Proof. unfold Qneg, Qlt; simpl. rewrite Z.ltb_lt. lia. Qed.

Lemma pymin_Fin (a b : Q) :
  exists q, pymin (Fin a) (Fin b) = Fin q /\ (q == Qmin a b)%Q.
Proof.
  unfold pymin, flt. destruct (Qltb b a) eqn:H.
  - apply Qltb_lt in H. exists b. split; [reflexivity |].
    symmetry. apply Q.min_r. lra.
  - apply Qltb_ge in H. exists a. split; [reflexivity |].
    symmetry. apply Q.min_l. lra.
Qed.

Lemma pymax_Fin (a b : Q) :
  exists q, pymax (Fin a) (Fin b) = Fin q /\ (q == Qmax a b)%Q.
Proof.
  unfold pymax, fgt, flt. destruct (Qltb a b) eqn:H.
  - apply Qltb_lt in H. exists b. split; [reflexivity |].
    symmetry. apply Q.max_r. lra.
  - apply Qltb_ge in H. exists a. split; [reflexivity |].
    symmetry. apply Q.max_l. lra.
Qed.

(* ===================================================================== *)
(** ** Candle patterns (app2.py) *)
(* ===================================================================== *)

Lemma hammer_rule (o h l c : Q) :
  StockSignalAnalyzer._is_hammer (candle (Fin o) (Fin h) (Fin l) (Fin c)) = true
  <-> (2 * Qabs (c - o) < Qmin c o - l /\ h - Qmax c o < Qabs (c - o) * (1 # 2))%Q.
Proof.
  unfold StockSignalAnalyzer._is_hammer, candle; cbn [open high low close].
  change (dec 5 1) with (Fin (1 # 2)).
  destruct (pymin_Fin c o) as [mn [-> Hmn]].
  destruct (pymax_Fin c o) as [mx [-> Hmx]].
  unfold fgt, flt, fsub, fabs, fadd, fneg, fmul, of_Z.
  rewrite andb_true_iff, !Qltb_lt, !Qred_correct, Hmn, Hmx.
  change (inject_Z 2) with 2%Q. unfold Qminus.
  split; intros [H1 H2]; split; lra.
Qed.

(** C7, as stated, fails: the bar open=10.00, high=10.05, low=9.50,
    close=9.95 is not a hammer for [_is_hammer], and [_check_patterns] finds
    no pattern on a frame that ends with it. *)
Lemma scenario_bar_is_not_flagged :
  StockSignalAnalyzer._is_hammer scenario_bar <> true
  /\ StockSignalAnalyzer._check_patterns
       (StockSignalAnalyzer.init scenario_source "sh600519" 120)
     = Ret (patterns_entry [] 0).
Proof. split; [vm_compute; discriminate | vm_compute; reflexivity]. Qed.

(** C7, amended: a bar is a hammer exactly when its lower shadow exceeds
    twice its body and its upper shadow is below half its body; the
    scenario's bar (body 0.05, upper shadow 0.05) fails the second test and is
    not flagged; with high=10.02 it is flagged, by [_is_hammer] and by
    [_check_patterns] on a frame that ends with it. *)
Theorem hammer_rule_on_scenario :
  (forall o h l c : Q,
     StockSignalAnalyzer._is_hammer (candle (Fin o) (Fin h) (Fin l) (Fin c)) = true
     <-> (2 * Qabs (c - o) < Qmin c o - l
          /\ h - Qmax c o < Qabs (c - o) * (1 # 2))%Q)
  /\ StockSignalAnalyzer._is_hammer scenario_bar = false
  /\ StockSignalAnalyzer._is_hammer short_wick_bar = true
  /\ StockSignalAnalyzer._check_patterns
       (StockSignalAnalyzer.init short_wick_source "sh600519" 120)
     = Ret (patterns_entry ["锤子线形态"%string] 10).
Proof.
  split; [exact hammer_rule |].
  repeat split; vm_compute; reflexivity.
Qed.

(* ===================================================================== *)
(** ** The MACD award of the momentum category *)
(* ===================================================================== *)

Lemma canonical_momentum_score (latest prev : row) :
  score_of (s_momentum (StockAnalyzer._analyze_signals latest prev)) =
  rsi_points (get latest "RSI" (of_Z 50))
  + (if crossed_up (get latest "MACD" (of_Z 0)) (get latest "MACD_signal" (of_Z 0))
                   (get prev "MACD" (of_Z 0)) (get prev "MACD_signal" (of_Z 0))
     then 15 else 0).
Proof.
  unfold StockAnalyzer._analyze_signals, rsi_points, crossed_up.
  split_ifs; reflexivity.
Qed.

Lemma app2_momentum_score (latest prev : row) (c : category) :
  StockSignalAnalyzer._analyze_momentum latest prev = Ret c ->
  score_of c =
  rsi_points (get latest "RSI" (of_Z 50))
  + (if crossed_up (get latest "MACD" (of_Z 0)) (get latest "MACD_signal" (of_Z 0))
                   (get prev "MACD" (of_Z 0)) (get prev "MACD_signal" (of_Z 0))
     then 25
     else if (get latest "MACD" (of_Z 0) >? of_Z 0)%F then 15 else 0).
Proof.
  unfold StockSignalAnalyzer._analyze_momentum, getitem, get, rsi_points, crossed_up.
  destruct (lookup "RSI" (derived latest)) as [rsi |]; [| discriminate].
  destruct (lookup "MACD" (derived latest)) as [macd |];
    [| cbn [bind]; split_ifs; discriminate].
  destruct (lookup "MACD_signal" (derived latest)) as [sig |];
    [| cbn [bind]; split_ifs; discriminate].
  cbn [bind].
  destruct (macd >? sig)%F; cbn [bind andb].
  - destruct (lookup "MACD" (derived prev)) as [pm |];
      [| cbn [bind]; split_ifs; discriminate].
    destruct (lookup "MACD_signal" (derived prev)) as [ps |];
      [| cbn [bind]; split_ifs; discriminate].
    cbn [bind]. intros H.
    split_ifs; inversion H; reflexivity.
  - intros H. split_ifs; inversion H; reflexivity.
Qed.

Lemma old_momentum_score (latest prev : row) (sg : signals) :
  OldApp._analyze_signals latest prev = Ret sg ->
  score_of (s_momentum sg) =
  rsi_points (get latest "RSI" (of_Z 50))
  + (if (get latest "MACD" (of_Z 0) >? get latest "MACD_signal" (of_Z 0))%F
     then 15 else 0).
Proof.
  unfold OldApp._analyze_signals, getitem, get, rsi_points.
  destruct (lookup "MA20" (derived latest)) as [ma20 |]; cbn [bind]; [| discriminate].
  destruct (lookup "MA5" (derived latest)) as [ma5 |]; cbn [bind]; [| discriminate].
  destruct (lookup "MA10" (derived latest)) as [ma10 |]; cbn [bind]; [| discriminate].
  destruct (ma5 >? ma10)%F; cbn [bind].
  all: destruct (lookup "RSI" (derived latest)) as [rsi |]; cbn [bind]; [| discriminate].
  all: destruct (lookup "MACD" (derived latest)) as [macd |]; cbn [bind]; [| discriminate].
  all: destruct (lookup "MACD_signal" (derived latest)) as [sig |]; cbn [bind];
    [| discriminate].
  all: destruct (lookup "%K" (derived latest)) as [k |]; cbn [bind]; [| discriminate].
  all: destruct (lookup "BB_position" (derived latest)) as [bb |]; cbn [bind];
    [| discriminate].
  all: intros H; injection H as <-; split_ifs; reflexivity.
Qed.

(** C5, as stated, fails: with MACD above zero and below its signal line
    on both days there is no crossing, the specification's rule awards 15,
    and the momentum category of mods/stock_analyzer.py scores 0. *)
Lemma macd_above_zero_alone_earns_nothing :
  crossed_up (of_Z 1) (of_Z 2) (of_Z 1) (of_Z 2) = false
  /\ (of_Z 1 >? of_Z 0)%F = true
  /\ score_of (s_momentum (StockAnalyzer._analyze_signals lagging_day lagging_day))
     <> rsi_points (of_Z 80) + spec_macd_points (of_Z 1) (of_Z 2) (of_Z 1) (of_Z 2).
Proof. repeat split; vm_compute; discriminate. Qed.

(** C5, amended: the momentum score is the RSI points plus the MACD award,
    and the MACD award is
    - in mods/stock_analyzer.py: 15 exactly when MACD crossed above its signal
      line (latest MACD > latest signal and previous MACD <= previous signal),
      and nothing otherwise, whether or not MACD is above zero;
    - in app2.py: 25 on that crossing, otherwise 15 when MACD is above zero;
    - in old/app.py: 15 on the level test latest MACD > latest signal. *)
Theorem macd_award_by_variant (latest prev : row) :
  let rsi := get latest "RSI" (of_Z 50) in
  let macd := get latest "MACD" (of_Z 0) in
  let macd_signal := get latest "MACD_signal" (of_Z 0) in
  let prev_macd := get prev "MACD" (of_Z 0) in
  let prev_signal := get prev "MACD_signal" (of_Z 0) in
  score_of (s_momentum (StockAnalyzer._analyze_signals latest prev)) =
    rsi_points rsi
    + (if crossed_up macd macd_signal prev_macd prev_signal then 15 else 0)
  /\ (forall c, StockSignalAnalyzer._analyze_momentum latest prev = Ret c ->
        score_of c =
          rsi_points rsi
          + (if crossed_up macd macd_signal prev_macd prev_signal then 25
             else if (macd >? of_Z 0)%F then 15 else 0))
  /\ (forall sg, OldApp._analyze_signals latest prev = Ret sg ->
        score_of (s_momentum sg) =
          rsi_points rsi + (if (macd >? macd_signal)%F then 15 else 0)).
Proof.
  intros rsi macd macd_signal prev_macd prev_signal.
  split; [apply canonical_momentum_score |].
  split; [intros c; apply app2_momentum_score | intros sg; apply old_momentum_score].
Qed.

Lemma macd_award_by_variant_witness :
  score_of (s_momentum (StockAnalyzer._analyze_signals leading_day leading_day)) = 0
  /\ (exists c, StockSignalAnalyzer._analyze_momentum lagging_day lagging_day = Ret c
                /\ score_of c = 15)
  /\ (exists sg, OldApp._analyze_signals leading_day leading_day = Ret sg
                 /\ score_of (s_momentum sg) = 15).
Proof.
  split; [| split].
  - exact (proj1 (macd_award_by_variant leading_day leading_day)).
  - eexists. split; [vm_compute; reflexivity |].
    exact (proj1 (proj2 (macd_award_by_variant lagging_day lagging_day)) _ eq_refl).
  - eexists. split; [vm_compute; reflexivity |].
    exact (proj2 (proj2 (macd_award_by_variant leading_day leading_day)) _ eq_refl).
Defined.

(* ===================================================================== *)
(** ** The RSI column *)
(* ===================================================================== *)

Lemma at_map_in (f : fnum -> fnum) (xs : Series) (i : nat) :
  (i < length xs)%nat -> StockAnalyzer.at_ (map f xs) i = f (StockAnalyzer.at_ xs i).
Proof.
  intros H. unfold StockAnalyzer.at_.
  rewrite (nth_indep _ NaN (f NaN)) by (now rewrite length_map).
  apply map_nth.
Qed.

Lemma at_out (xs : Series) (i : nat) :
  (length xs <= i)%nat -> StockAnalyzer.at_ xs i = NaN.
Proof. intros H. unfold StockAnalyzer.at_. now apply nth_overflow. Qed.

Lemma at_map2 (f : fnum -> fnum -> fnum) (xs ys : Series) (i : nat) :
  (i < length xs)%nat -> (i < length ys)%nat ->
  StockAnalyzer.at_ (map2 f xs ys) i = f (StockAnalyzer.at_ xs i) (StockAnalyzer.at_ ys i).
Proof.
  unfold StockAnalyzer.at_, map2.
  revert ys i. induction xs as [| x xs IH]; intros ys i Hx Hy; [simpl in Hx; lia |].
  destruct ys as [| y ys]; [simpl in Hy; lia |].
  destruct i as [| i]; [reflexivity |].
  simpl in *. apply IH; lia.
Qed.

Lemma length_map2 (f : fnum -> fnum -> fnum) (xs ys : Series) :
  length (map2 f xs ys) = Nat.min (length xs) (length ys).
Proof. unfold map2. now rewrite length_map, length_combine. Qed.

Lemma length_rolling w agg xs : length (rolling w agg xs) = length xs.
Proof. unfold rolling. now rewrite length_map, length_seq. Qed.

Lemma at_rolling w agg xs i :
  (i < length xs)%nat ->
  StockAnalyzer.at_ (rolling w agg xs) i =
  match window w i xs with Some win => agg win | None => NaN end.
Proof.
  intros H. unfold StockAnalyzer.at_, rolling.
  rewrite (nth_indep _ NaN ((fun i => match window w i xs with
                                      | Some win => agg win | None => NaN end) 0%nat))
    by (now rewrite length_map, length_seq).
  rewrite (map_nth (fun i => match window w i xs with
                             | Some win => agg win | None => NaN end)).
  now rewrite seq_nth.
Qed.

Lemma In_firstn {A} (x : A) n l : In x (firstn n l) -> In x l.
Proof.
  revert l. induction n as [| n IH]; intros [| y l]; simpl; try tauto.
  intros [H | H]; [left; exact H | right; apply IH; exact H].
Qed.

Lemma In_skipn {A} (x : A) n l : In x (skipn n l) -> In x l.
Proof.
  revert l. induction n as [| n IH]; intros [| y l]; simpl; try tauto.
  intros H. right. apply IH; exact H.
Qed.

Lemma window_incl w i xs win : window w i xs = Some win -> incl win xs.
Proof.
  unfold window. destruct (i + 1 <? w)%nat; [discriminate |].
  intros H; injection H as <-. intros x Hx.
  eapply In_skipn, In_firstn; exact Hx.
Qed.

Lemma length_diff xs : length (diff xs) = length xs.
Proof.
  destruct xs as [| x xs]; [reflexivity |]. simpl. f_equal.
  revert x. induction xs as [| y ys IH]; intros x; simpl; [reflexivity |].
  f_equal. apply IH.
Qed.

(** sums and means of non-negative numbers *)
Lemma fadd_nonneg_num a b : nonneg_num a -> nonneg_num b -> nonneg_num (fadd a b).
Proof.
  destruct a as [x | | |], b as [y | | |]; cbv [nonneg_num nonneg fadd];
    intros [Ha Ha'] [Hb Hb']; try tauto; try (split; [exact I | discriminate]).
  split; [| discriminate]. rewrite Qred_correct. lra.
Qed.

Lemma fsum_nonneg_num l : Forall nonneg_num l -> nonneg_num (fsum l).
Proof.
  unfold fsum. 
  assert (H0 : nonneg_num (Fin 0)) by (split; [simpl; lra | discriminate]).
  revert H0. generalize (Fin 0).
  induction l as [| x l IH]; intros acc Hacc Hl; simpl; [exact Hacc |].
  inversion Hl; subst. apply IH; [apply fadd_nonneg_num |]; assumption.
Qed.

Lemma fdiv_nonneg a b : nonneg a -> nonneg b -> nonneg (fdiv a b).
Proof.
  destruct a as [x | | |], b as [y | | |]; cbv [nonneg fdiv fneg];
    intros Ha Hb; try tauto; try lra.
  - destruct (Qzero y) eqn:Hy.
    + unfold inf_of_sign, fsign.
      destruct (Z.sgn (Qnum x) =? 0) eqn:E; [exact I |].
      destruct (0 <? Z.sgn (Qnum x)) eqn:E'; [exact I |].
      apply Z.eqb_neq in E. apply Z.ltb_ge in E'.
      unfold Qle in Ha; cbn in Ha. lia.
    + rewrite Qred_correct.
      assert (Hy' : ~ (y == 0)%Q) by (rewrite <- Qzero_eq; congruence).
      apply Qle_shift_div_l; lra.
  - destruct (Qneg y) eqn:Hy; [| exact I].
    apply Qneg_lt in Hy. lra.
Qed.

Lemma fmean_nonneg l : Forall nonneg_num l -> nonneg (fmean l).
Proof.
  intros H. unfold fmean. apply fdiv_nonneg.
  - apply fsum_nonneg_num; assumption.
  - cbv [of_Z nonneg]. unfold Qle; cbn. lia.
Qed.

Lemma where_gain_nonneg d :
  nonneg_num (if (d >? of_Z 0)%F then d else of_Z 0).
Proof.
  destruct (d >? of_Z 0)%F eqn:H.
  - destruct d as [q | | |]; cbv [fgt flt of_Z] in H; try discriminate.
    + apply Qltb_lt in H. change (inject_Z 0) with 0%Q in H.
      split; [cbv [nonneg]; lra | discriminate].
    + split; [exact I | discriminate].
  - split; [cbv [nonneg of_Z]; unfold Qle; cbn; lia | discriminate].
Qed.

Lemma where_loss_nonneg d :
  nonneg_num (fneg (if (d <? of_Z 0)%F then d else of_Z 0)).
Proof.
  destruct (d <? of_Z 0)%F eqn:H.
  - destruct d as [q | | |]; cbv [flt of_Z] in H; try discriminate.
    + apply Qltb_lt in H. change (inject_Z 0) with 0%Q in H.
      split; [| discriminate].
      cbv [nonneg fneg]. rewrite Qred_correct. lra.
    + split; [exact I | discriminate].
  - split; [| discriminate]. cbv [nonneg fneg of_Z]. rewrite Qred_correct.
    unfold Qle; cbn; lia.
Qed.

Lemma rolling_mean_nonneg w xs i :
  Forall nonneg_num xs -> nonneg (StockAnalyzer.at_ (rolling_mean w xs) i).
Proof.
  intros H. destruct (Nat.lt_ge_cases i (length xs)) as [Hi | Hi].
  - unfold rolling_mean. rewrite at_rolling by exact Hi.
    destruct (window w i xs) as [win |] eqn:Hw; [| exact I].
    apply fmean_nonneg. rewrite Forall_forall in *.
    intros x Hx. apply H. eapply window_incl; eauto.
  - rewrite at_out; [exact I |].
    unfold rolling_mean. now rewrite length_rolling.
Qed.

Lemma gain_nonneg closes i : nonneg (StockAnalyzer.at_ (StockAnalyzer.gain_col closes) i).
Proof.
  unfold StockAnalyzer.gain_col. apply rolling_mean_nonneg.
  unfold where_. apply Forall_map, Forall_forall. intros d _. apply where_gain_nonneg.
Qed.

Lemma loss_nonneg closes i : nonneg (StockAnalyzer.at_ (StockAnalyzer.loss_col closes) i).
Proof.
  unfold StockAnalyzer.loss_col. apply rolling_mean_nonneg.
  unfold where_. rewrite map_map. apply Forall_map, Forall_forall.
  intros d _. apply where_loss_nonneg.
Qed.

Lemma rsi_of_rs_range rs :
  nonneg rs -> rsi_of_rs rs = NaN \/ percent (rsi_of_rs rs).
Proof.
  destruct rs as [q | | |]; cbv [nonneg]; intros H.
  - right. unfold rsi_of_rs, of_Z.
    cbv [fadd fsub fdiv fneg].
    assert (Hpos : (0 < 1 + q)%Q) by lra.
    destruct (Qzero (Qred (inject_Z 1 + q))) eqn:Hz.
    { apply Qzero_eq in Hz. rewrite Qred_correct in Hz.
      change (inject_Z 1) with 1%Q in Hz. lra. }
    eexists; split; [reflexivity |].
    rewrite !Qred_correct.
    change (inject_Z 1) with 1%Q. change (inject_Z 100) with 100%Q.
    assert (H1 : (0 <= 100 / (1 + q))%Q) by (apply Qle_shift_div_l; lra).
    assert (H2 : (100 / (1 + q) <= 100)%Q) by (apply Qle_shift_div_r; lra).
    split; lra.
  - right. exists 100%Q. split; [vm_compute; reflexivity | lra].
  - contradiction.
  - left. reflexivity.
Qed.

Lemma length_gain closes : length (StockAnalyzer.gain_col closes) = length closes.
Proof.
  unfold StockAnalyzer.gain_col, rolling_mean, where_.
  now rewrite length_rolling, length_map, length_diff.
Qed.

Lemma length_loss closes : length (StockAnalyzer.loss_col closes) = length closes.
Proof.
  unfold StockAnalyzer.loss_col, rolling_mean, where_.
  now rewrite length_rolling, !length_map, length_diff.
Qed.

Lemma at_RSI closes i :
  (i < length closes)%nat ->
  StockAnalyzer.at_ (StockAnalyzer.RSI_col closes) i =
  rsi_of_rs (fdiv (StockAnalyzer.at_ (StockAnalyzer.gain_col closes) i)
                  (StockAnalyzer.at_ (StockAnalyzer.loss_col closes) i)).
Proof.
  intros H. unfold StockAnalyzer.RSI_col, StockAnalyzer.rs_col.
  rewrite at_map_in
    by (rewrite length_map2, length_gain, length_loss; lia).
  rewrite at_map2 by (rewrite ?length_gain, ?length_loss; lia).
  reflexivity.
Qed.

Lemma nth_error_combine_seq {A} (d : list A) (s i : nat) :
  nth_error (combine (seq s (length d)) d) i
  = option_map (fun x => ((s + i)%nat, x)) (nth_error d i).
Proof.
  revert s i. induction d as [| x d IH]; intros s i; simpl.
  - destruct i; reflexivity.
  - destruct i as [| i]; simpl.
    + now rewrite Nat.add_0_r.
    + rewrite IH. now rewrite Nat.add_succ_r.
Qed.

Lemma with_indicators_row (d : DataFrame) (i : nat) (r : row) :
  nth_error (StockAnalyzer.with_indicators d) i = Some r ->
  exists r0, nth_error d i = Some r0
    /\ close r = close r0 /\ open r = open r0 /\ high r = high r0 /\ low r = low r0
    /\ volume r = volume r0 /\ returns r = returns r0
    /\ derived r = StockAnalyzer.indicator_columns d i.
Proof.
  unfold StockAnalyzer.with_indicators.
  rewrite nth_error_map, nth_error_combine_seq.
  destruct (nth_error d i) as [r0 |]; [| discriminate].
  simpl. intros H; injection H as <-. exists r0. repeat split; reflexivity.
Qed.

(** C4: every value of the RSI column is NaN (undefined) or a number in
    [0,100]; and where the 14-bar average gain is above 0 and the 14-bar
    average loss is 0, the RSI is exactly 100.  The column is the one that
    [calculate_indicators] stores in the frame. *)
Theorem rsi_in_range (closes : Series) (i : nat) :
  let rsi := StockAnalyzer.at_ (StockAnalyzer.RSI_col closes) i in
  let avg_gain := StockAnalyzer.at_ (StockAnalyzer.gain_col closes) i in
  let avg_loss := StockAnalyzer.at_ (StockAnalyzer.loss_col closes) i in
  (rsi = NaN \/ percent rsi)
  /\ ((avg_gain >? of_Z 0)%F = true -> feq avg_loss (of_Z 0) = true ->
      rsi = of_Z 100)
  /\ (forall d r, closes = map close d ->
        nth_error (StockAnalyzer.with_indicators d) i = Some r ->
        lookup "RSI" (derived r) = Some rsi).
Proof.
  intros rsi avg_gain avg_loss.
  assert (Hcol : forall d r, closes = map close d ->
            nth_error (StockAnalyzer.with_indicators d) i = Some r ->
            lookup "RSI" (derived r) = Some rsi).
  { intros d r -> Hr. apply with_indicators_row in Hr.
    destruct Hr as [r0 [_ [_ [_ [_ [_ [_ [_ Hd]]]]]]]]. rewrite Hd. reflexivity. }
  cut ((rsi = NaN \/ percent rsi)
       /\ ((avg_gain >? of_Z 0)%F = true -> feq avg_loss (of_Z 0) = true ->
           rsi = of_Z 100)); [tauto |].
  clear Hcol.
  destruct (Nat.lt_ge_cases i (length closes)) as [Hi | Hi].
  - subst rsi. rewrite at_RSI by exact Hi. fold avg_gain avg_loss.
    split.
    + apply rsi_of_rs_range, fdiv_nonneg; [apply gain_nonneg | apply loss_nonneg].
    + intros Hg Hl.
      destruct avg_loss as [l | | |]; cbv [feq of_Z] in Hl; try discriminate.
      apply Qeq_bool_iff in Hl. change (inject_Z 0) with 0%Q in Hl.
      apply Qzero_eq in Hl.
      destruct avg_gain as [g | | |]; cbv [fgt flt of_Z] in Hg; try discriminate.
      * apply Qltb_lt in Hg. change (inject_Z 0) with 0%Q in Hg.
        cbv [fdiv]. rewrite Hl. cbv [fsign inf_of_sign].
        assert (Hs : Z.sgn (Qnum g) = 1).
        { apply Z.sgn_pos. unfold Qlt in Hg; cbn in Hg. lia. }
        rewrite Hs. vm_compute. reflexivity.
      * cbv [fdiv]. 
        assert (Hn : Qneg l = false).
        { unfold Qneg. unfold Qzero in Hl. apply Z.eqb_eq in Hl. rewrite Hl. reflexivity. }
        rewrite Hn. vm_compute. reflexivity.
  - assert (Hr : rsi = NaN).
    { subst rsi. apply at_out. unfold StockAnalyzer.RSI_col, StockAnalyzer.rs_col.
      rewrite length_map, length_map2, length_gain, length_loss. lia. }
    split; [left; exact Hr |].
    intros Hg _. exfalso.
    assert (Hg' : avg_gain = NaN).
    { subst avg_gain. apply at_out. rewrite length_gain. lia. }
    rewrite Hg' in Hg. discriminate.
Qed.

Lemma rsi_in_range_witness :
  let d := StockAnalyzer._fetch_data climb_source "sh600519" 120 in
  let closes := map close d in
  (StockAnalyzer.at_ (StockAnalyzer.gain_col closes) 29 >? of_Z 0)%F = true
  /\ feq (StockAnalyzer.at_ (StockAnalyzer.loss_col closes) 29) (of_Z 0) = true
  /\ StockAnalyzer.at_ (StockAnalyzer.RSI_col closes) 29 = of_Z 100
  /\ (forall r, nth_error (StockAnalyzer.with_indicators d) 29 = Some r ->
        lookup "RSI" (derived r) = Some (of_Z 100)).
Proof.
  intros d closes.
  assert (Hg : (StockAnalyzer.at_ (StockAnalyzer.gain_col closes) 29 >? of_Z 0)%F = true)
    by (vm_compute; reflexivity).
  assert (Hl : feq (StockAnalyzer.at_ (StockAnalyzer.loss_col closes) 29) (of_Z 0) = true)
    by (vm_compute; reflexivity).
  destruct (rsi_in_range closes 29) as [_ [H100 Hcol]].
  split; [exact Hg | split; [exact Hl | split]].
  - exact (H100 Hg Hl).
  - intros r Hr. rewrite <- (H100 Hg Hl). exact (Hcol d r eq_refl Hr).
Defined.

(* ===================================================================== *)
(** ** The Bollinger position on a band of zero width *)
(* ===================================================================== *)

Lemma fadd_not_fin_l a b : is_fin a = false -> is_fin (fadd a b) = false.
Proof. destruct a, b; simpl; intros; congruence. Qed.

Lemma fold_fadd_not_fin l a :
  is_fin a = false -> is_fin (fold_left fadd l a) = false.
Proof.
  revert a. induction l as [| x l IH]; intros a H; simpl; [exact H |].
  apply IH, fadd_not_fin_l, H.
Qed.

Lemma fold_fadd_Fin l acc s :
  fold_left fadd l (Fin acc) = Fin s ->
  exists qs, l = map Fin qs /\ (s == acc + Qsum qs)%Q.
Proof.
  revert acc. induction l as [| x l IH]; intros acc H.
  - exists []. simpl in *. injection H as <-. split; [reflexivity | lra].
  - cbn [fold_left] in H. destruct x as [q | | |].
    + cbv [fadd] in H. apply IH in H. destruct H as [qs [-> Hs]].
      exists (q :: qs). split; [reflexivity |].
      rewrite Hs, Qred_correct. simpl. lra.
    + pose proof (fold_fadd_not_fin l (fadd (Fin acc) PInf) eq_refl) as Hn.
      rewrite H in Hn. discriminate.
    + pose proof (fold_fadd_not_fin l (fadd (Fin acc) NInf) eq_refl) as Hn.
      rewrite H in Hn. discriminate.
    + pose proof (fold_fadd_not_fin l (fadd (Fin acc) NaN) eq_refl) as Hn.
      rewrite H in Hn. discriminate.
Qed.

Lemma fsum_Fin l s :
  fsum l = Fin s -> exists qs, l = map Fin qs /\ (s == Qsum qs)%Q.
Proof.
  unfold fsum. intros H. apply fold_fadd_Fin in H.
  destruct H as [qs [-> Hs]]. exists qs. split; [reflexivity | lra].
Qed.

Lemma Qsum_zero qs :
  Forall (fun q => 0 <= q)%Q qs -> (Qsum qs == 0)%Q -> Forall (fun q => q == 0)%Q qs.
Proof.
  induction 1 as [| q qs Hq Hqs IH]; intros Hs; [constructor |].
  simpl in Hs.
  assert (Hnn : (0 <= Qsum qs)%Q).
  { clear -Hqs. induction Hqs; simpl; lra. }
  constructor; [lra | apply IH; lra].
Qed.

Lemma sq_Fin x m q :
  (fmul (fsub x m) (fsub x m)) = Fin q ->
  exists qx a, x = Fin qx /\ m = Fin a /\ (q == (qx - a) * (qx - a))%Q.
Proof.
  destruct x as [qx | | |], m as [a | | |]; cbv [fsub fadd fneg fmul fsign inf_of_sign];
    try discriminate.
  intros H.
  apply (f_equal (fun x => match x with Fin q => q | _ => 0%Q end)) in H.
  cbv beta iota in H. subst q. exists qx, a.
  split; [reflexivity | split; [reflexivity |]].
  rewrite !Qred_correct. lra.
Qed.

Lemma Qsqrt_zero v : Qneg v = false -> (Qsqrt v == 0)%Q -> (v == 0)%Q.
Proof.
  intros Hn H. unfold Qsqrt in H. rewrite Qred_correct in H.
  unfold Qeq in H; cbn [Qnum Qden] in H. rewrite Z.mul_1_r, Z.mul_0_l in H.
  unfold Qneg in Hn. apply Z.ltb_ge in Hn.
  set (x := Qnum v * Z.pos (Qden v) * 4 ^ 60) in *.
  assert (Hle : x <= 0).
  { destruct (Z.lt_ge_cases 0 x) as [Hp | Hp]; [| lia].
    apply Z.sqrt_pos in Hp. lia. }
  subst x. apply Qzero_eq. unfold Qzero. apply Z.eqb_eq.
  assert (H4 : 0 < 4 ^ 60) by (apply Z.pow_pos_nonneg; lia).
  nia.
Qed.

Lemma fdiv_Fin_zero a k v :
  fdiv a (Fin k) = Fin v -> (v == 0)%Q -> exists s, a = Fin s /\ (s == 0)%Q.
Proof.
  destruct a as [s | | |]; cbv [fdiv fneg].
  - destruct (Qzero k) eqn:Hk.
    + unfold inf_of_sign. destruct (_ =? 0); [discriminate |].
      destruct (0 <? _); discriminate.
    + intros H Hv.
      apply (f_equal (fun x => match x with Fin q => q | _ => 0%Q end)) in H.
      cbv beta iota in H. subst v. rewrite Qred_correct in Hv.
      exists s. split; [reflexivity |].
      assert (Hk' : ~ (k == 0)%Q) by (rewrite <- Qzero_eq; congruence).
      unfold Qdiv in Hv. apply Qmult_integral in Hv. destruct Hv as [Hv | Hv]; [exact Hv |].
      exfalso. apply Hk'.
      rewrite <- (Qinv_involutive k), Hv. reflexivity.
  - destruct (Qneg k); discriminate.
  - destruct (Qneg k); discriminate.
  - discriminate.
Qed.

(** a window whose standard deviation is 0 is constant, at its mean *)
Lemma fstd_zero l b :
  fstd l = Fin b -> (b == 0)%Q ->
  exists a, fmean l = Fin a /\ forall x, In x l -> exists q, x = Fin q /\ (q == a)%Q.
Proof.
  unfold fstd, fvar.
  destruct (length l <=? 1)%nat eqn:Hlen; [discriminate |].
  apply Nat.leb_gt in Hlen.
  set (m := fmean l).
  set (sq := fun x : fnum => ((x - m) * (x - m))%F).
  intros Hs Hb.
  destruct (fsum (map sq l) / of_Z (Z.of_nat (length l) - 1))%F as [v | | |] eqn:Hv;
    cbv [fsqrt] in Hs; try discriminate.
  destruct (Qneg v) eqn:Hn; [discriminate |].
  apply (f_equal (fun x => match x with Fin q => q | _ => 0%Q end)) in Hs.
  cbv beta iota in Hs. subst b.
  apply Qsqrt_zero in Hb; [| exact Hn].
  unfold of_Z in Hv.
  destruct (fdiv_Fin_zero _ _ _ Hv Hb) as [s [Hsum Hs0]].
  apply fsum_Fin in Hsum. destruct Hsum as [qs [Hqs Hsq]].
  assert (Hall : forall q, In q qs ->
            exists x qx a, In x l /\ x = Fin qx /\ m = Fin a
                           /\ (q == (qx - a) * (qx - a))%Q).
  { intros q Hq.
    assert (Hin : In (Fin q) (map sq l)) by (rewrite Hqs; now apply in_map).
    apply in_map_iff in Hin. destruct Hin as [x [Hx Hxl]].
    apply sq_Fin in Hx. destruct Hx as [qx [a [-> [Hm Hq']]]].
    exists (Fin qx), qx, a. repeat split; assumption. }
  assert (Hnn : Forall (fun q => 0 <= q)%Q qs).
  { apply Forall_forall. intros q Hq.
    destruct (Hall q Hq) as [x [qx [a [_ [_ [_ ->]]]]]].
    generalize (qx - a)%Q. intros e. nra. }
  assert (Hz : Forall (fun q => q == 0)%Q qs).
  { apply Qsum_zero; [exact Hnn | lra]. }
  destruct l as [| x0 l0].
  - (* the empty window has no mean *)
    simpl in Hlen. lia.
  - assert (Hm : exists a, m = Fin a).
    { assert (Hin : In (sq x0) (map Fin qs)) by (rewrite <- Hqs; left; reflexivity).
      apply in_map_iff in Hin. destruct Hin as [q [Hq _]]. symmetry in Hq.
      apply sq_Fin in Hq. destruct Hq as [_ [a [_ [Hm _]]]]. exists a; exact Hm. }
    destruct Hm as [a Hm]. exists a. split; [exact Hm |].
    intros x Hx.
    assert (Hin : In (sq x) (map Fin qs)) by (rewrite <- Hqs; now apply in_map).
    apply in_map_iff in Hin. destruct Hin as [q [Hq Hqin]]. symmetry in Hq.
    pose proof Hq as Hq'.
    apply sq_Fin in Hq'. destruct Hq' as [qx [a' [-> [Hm' Hqq]]]].
    rewrite Hm in Hm'. 
    apply (f_equal (fun x => match x with Fin q => q | _ => 0%Q end)) in Hm'.
    cbv beta iota in Hm'. subst a'.
    exists qx. split; [reflexivity |].
    rewrite Forall_forall in Hz. specialize (Hz q Hqin). rewrite Hz in Hqq.
    symmetry in Hqq. apply Qmult_integral in Hqq. destruct Hqq; lra.
Qed.

Lemma window_last w i xs win :
  window w i xs = Some win -> (0 < w)%nat -> (i < length xs)%nat ->
  In (StockAnalyzer.at_ xs i) win.
Proof.
  unfold window, StockAnalyzer.at_.
  destruct (i + 1 <? w)%nat eqn:Hw; [discriminate |].
  apply Nat.ltb_ge in Hw.
  intros H Hpos Hi. injection H as <-.
  replace (nth i xs NaN) with (nth (w - 1) (firstn w (skipn (i + 1 - w) xs)) NaN).
  - apply nth_In. rewrite length_firstn, length_skipn. lia.
  - rewrite nth_firstn.
    replace (w - 1 <? w)%nat with true by (symmetry; apply Nat.ltb_lt; lia).
    rewrite nth_skipn. f_equal. lia.
Qed.

Lemma length_BB_middle closes : length (StockAnalyzer.BB_middle_col closes) = length closes.
Proof. unfold StockAnalyzer.BB_middle_col, rolling_mean. apply length_rolling. Qed.

Lemma length_bb_std closes : length (StockAnalyzer.bb_std_col closes) = length closes.
Proof. unfold StockAnalyzer.bb_std_col, rolling_std. apply length_rolling. Qed.

Lemma length_BB_upper closes : length (StockAnalyzer.BB_upper_col closes) = length closes.
Proof.
  unfold StockAnalyzer.BB_upper_col.
  rewrite length_map2, length_BB_middle, length_bb_std. lia.
Qed.

Lemma length_BB_lower closes : length (StockAnalyzer.BB_lower_col closes) = length closes.
Proof.
  unfold StockAnalyzer.BB_lower_col.
  rewrite length_map2, length_BB_middle, length_bb_std. lia.
Qed.

(** the position for a mean [m], a deviation [s] and a close [c] *)
Lemma zero_width_position m s c :
  feq (m + s * of_Z 2)%F (m - s * of_Z 2)%F = true ->
  (forall b, s = Fin b -> (b == 0)%Q -> exists q a, c = Fin q /\ m = Fin a /\ (q == a)%Q) ->
  ((c - (m - s * of_Z 2)) / ((m + s * of_Z 2) - (m - s * of_Z 2)))%F = NaN.
Proof.
  intros Heq Hconst.
  destruct m as [a | | |], s as [b | | |];
    try (vm_compute in Heq; discriminate);
    try (cbv [fmul fadd fsub fneg fsign inf_of_sign of_Z feq] in Heq; discriminate).
  - (* finite mean and deviation *)
    assert (Hb : (b == 0)%Q).
    { cbv [fmul fadd fsub fneg of_Z feq] in Heq.
      apply Qeq_bool_iff in Heq. rewrite !Qred_correct in Heq.
      change (inject_Z 2) with 2%Q in Heq. lra. }
    destruct (Hconst b eq_refl Hb) as [q [a' [-> [Ha Hq]]]].
    apply (f_equal (fun x => match x with Fin q => q | _ => 0%Q end)) in Ha.
    cbv beta iota in Ha. subst a'.
    cbv [fmul fadd fsub fneg of_Z fdiv].
    match goal with
    | |- context [Qzero ?d] => assert (Hd : Qzero d = true)
    end.
    { apply Qzero_eq. rewrite !Qred_correct. change (inject_Z 2) with 2%Q. lra. }
    rewrite Hd. cbv [fsign inf_of_sign].
    match goal with
    | |- context [Z.sgn (Qnum ?n)] => assert (Hn : Qnum n = 0)
    end.
    { apply Z.eqb_eq. change (Qzero (Qred (q + Qred (- Qred (a + Qred (- Qred (b * inject_Z 2)))))) = true).
      apply Qzero_eq. rewrite !Qred_correct. change (inject_Z 2) with 2%Q. lra. }
    rewrite Hn. reflexivity.
  - (* mean +inf *)
    destruct c; reflexivity.
  - destruct c; reflexivity.
Qed.

Lemma bb_position_zero_width closes i :
  feq (StockAnalyzer.at_ (StockAnalyzer.BB_upper_col closes) i)
      (StockAnalyzer.at_ (StockAnalyzer.BB_lower_col closes) i) = true ->
  StockAnalyzer.at_ (StockAnalyzer.BB_position_col closes) i = NaN.
Proof.
  intros Heq.
  destruct (Nat.lt_ge_cases i (length closes)) as [Hi | Hi].
  2:{ rewrite (at_out (StockAnalyzer.BB_upper_col closes))
        in Heq by (rewrite length_BB_upper; lia).
      discriminate. }
  unfold StockAnalyzer.BB_position_col.
  rewrite at_map2
    by (rewrite length_map2, ?length_BB_upper, ?length_BB_lower; lia).
  rewrite !at_map2 by (rewrite ?length_BB_upper, ?length_BB_lower; lia).
  revert Heq.
  unfold StockAnalyzer.BB_upper_col, StockAnalyzer.BB_lower_col.
  rewrite !at_map2 by (rewrite ?length_BB_middle, ?length_bb_std; lia).
  unfold StockAnalyzer.BB_middle_col, StockAnalyzer.bb_std_col,
    rolling_mean, rolling_std.
  rewrite !at_rolling by exact Hi.
  destruct (window 20 i closes) as [win |] eqn:Hw; [| discriminate].
  intros Heq. apply zero_width_position; [exact Heq |].
  intros b Hs Hb.
  destruct (fstd_zero win b Hs Hb) as [a [Hm Hall]].
  destruct (Hall (StockAnalyzer.at_ closes i)) as [q [Hq Hqa]].
  { eapply window_last; eauto. lia. }
  exists q, a. repeat split; assumption.
Qed.

Lemma get_with_col_other k k' v r d :
  String.eqb k k' = false -> get (with_col k' v r) k d = get r k d.
Proof. intros H. unfold get, with_col; cbn [derived lookup]. now rewrite H. Qed.

Lemma get_with_col_same k v r d : get (with_col k v r) k d = v.
Proof. unfold get, with_col; cbn [derived lookup]. now rewrite String.eqb_refl. Qed.

Lemma getitem_with_col_other k k' v r :
  String.eqb k k' = false -> getitem (with_col k' v r) k = getitem r k.
Proof. intros H. unfold getitem, with_col; cbn [derived lookup]. now rewrite H. Qed.

Lemma getitem_with_col_same k v r : getitem (with_col k v r) k = Ret v.
Proof. unfold getitem, with_col; cbn [derived lookup]. now rewrite String.eqb_refl. Qed.

Lemma canonical_scores_nan_as_neutral (latest prev : row) :
  lookup "BB_position" (derived latest) = Some NaN ->
  StockAnalyzer._analyze_signals latest prev
  = StockAnalyzer._analyze_signals (with_col "BB_position" (dec 5 1) latest) prev.
Proof.
  intros H. unfold StockAnalyzer._analyze_signals.
  rewrite !get_with_col_same.
  rewrite !get_with_col_other by reflexivity.
  assert (Hg : get latest "BB_position" (dec 5 1) = NaN)
    by (unfold get; now rewrite H).
  rewrite Hg.
  change (close (with_col "BB_position" (dec 5 1) latest)) with (close latest).
  change (volume (with_col "BB_position" (dec 5 1) latest)) with (volume latest).
  change (NaN <? dec 3 1)%F with false.
  change (dec 5 1 <? dec 3 1)%F with false.
  reflexivity.
Qed.

Lemma app2_scores_nan_as_neutral (latest : row) :
  lookup "BB_position" (derived latest) = Some NaN ->
  StockSignalAnalyzer._analyze_oscillators latest
  = StockSignalAnalyzer._analyze_oscillators (with_col "BB_position" (dec 5 1) latest).
Proof.
  intros H. unfold StockSignalAnalyzer._analyze_oscillators.
  rewrite !getitem_with_col_same.
  rewrite !getitem_with_col_other by reflexivity.
  assert (Hg : getitem latest "BB_position" = Ret NaN)
    by (unfold getitem; now rewrite H).
  rewrite Hg.
  destruct (getitem latest "%K") as [k | e]; [| reflexivity].
  cbn [bind].
  destruct (k <? of_Z 20)%F; cbn [bind].
  - reflexivity.
  - destruct (getitem latest "%D") as [d' | e]; [| reflexivity].
    cbn [bind]. destruct (k >? d')%F; reflexivity.
Qed.

Lemma with_all_indicators_row (d : DataFrame) (i : nat) (r : row) :
  nth_error (StockSignalAnalyzer.with_all_indicators d) i = Some r ->
  exists v, derived r = ("MACD_hist"%string, v) :: StockAnalyzer.indicator_columns d i.
Proof.
  unfold StockSignalAnalyzer.with_all_indicators.
  rewrite nth_error_map, nth_error_combine_seq.
  destruct (nth_error d i) as [r0 |]; [| discriminate].
  simpl. intros H.
  apply (f_equal (fun o => match o with Some r => derived r | None => [] end)) in H.
  cbv beta iota in H. cbn [derived] in H. eexists. symmetry. exact H.
Qed.

(** C6, as stated, fails: on thirty identical days the bands of the last
    bar coincide, and its BB_position is NaN, in the frame and in the
    indicators that [analyze] reports, not 0.5. *)
Lemma constant_window_position_is_nan :
  match StockAnalyzer.calculate_indicators
          (StockAnalyzer.init Samples.get_price "sz000333" 120) with
  | (true, self) =>
      match iloc (StockAnalyzer.df self) (-1),
            StockAnalyzer.analyze self (Samples.clock 1) with
      | Ret latest, Ret (Populated _ _ _ _ _ ind _ _ _) =>
          feq (get latest "BB_upper" NaN) (get latest "BB_lower" NaN) = true
          /\ get latest "BB_position" (dec 5 1) = NaN
          /\ get latest "BB_position" (dec 5 1) <> dec 5 1
          /\ i_BB_position ind = NaN
      | _, _ => False
      end
  | _ => False
  end.
Proof. vm_compute. repeat split; discriminate. Qed.

(** C6, amended: for every bar of the frame whose upper and lower bands
    are equal, the stored BB_position is NaN (the division by zero is not
    guarded and raises nothing); the indicator reported for it is NaN; and
    the scorers of mods/stock_analyzer.py and app2.py award it no Bollinger
    points, exactly as they would for the neutral 0.5. *)
Theorem zero_width_band_position_is_nan (d : DataFrame) (i : nat) (r : row) :
  nth_error (StockAnalyzer.with_indicators d) i = Some r
  \/ nth_error (StockSignalAnalyzer.with_all_indicators d) i = Some r ->
  feq (get r "BB_upper" NaN) (get r "BB_lower" NaN) = true ->
  lookup "BB_position" (derived r) = Some NaN
  /\ fround (get r "BB_position" (dec 5 1)) 3 = NaN
  /\ (forall prev,
        StockAnalyzer._analyze_signals r prev
        = StockAnalyzer._analyze_signals (with_col "BB_position" (dec 5 1) r) prev)
  /\ StockSignalAnalyzer._analyze_oscillators r
     = StockSignalAnalyzer._analyze_oscillators (with_col "BB_position" (dec 5 1) r).
Proof.
  intros Hr Heq.
  assert (Hbb : lookup "BB_position" (derived r) = Some NaN).
  { destruct Hr as [Hr | Hr].
    - apply with_indicators_row in Hr.
      destruct Hr as [r0 [_ [_ [_ [_ [_ [_ [_ Hd]]]]]]]].
      unfold get in Heq. rewrite Hd in *.
      cbn [StockAnalyzer.indicator_columns lookup String.eqb Ascii.eqb Bool.eqb] in *.
      now rewrite bb_position_zero_width.
    - apply with_all_indicators_row in Hr. destruct Hr as [v Hd].
      unfold get in Heq. rewrite Hd in *.
      cbn [StockAnalyzer.indicator_columns lookup String.eqb Ascii.eqb Bool.eqb] in *.
      now rewrite bb_position_zero_width. }
  split; [exact Hbb |].
  split; [unfold get; rewrite Hbb; reflexivity |].
  split; [intros prev; now apply canonical_scores_nan_as_neutral |].
  now apply app2_scores_nan_as_neutral.
Qed.

Lemma zero_width_band_position_is_nan_witness :
  let d := StockAnalyzer._fetch_data Samples.get_price "sz000333" 120 in
  exists r,
    nth_error (StockAnalyzer.with_indicators d) 29 = Some r
    /\ feq (get r "BB_upper" NaN) (get r "BB_lower" NaN) = true
    /\ lookup "BB_position" (derived r) = Some NaN.
Proof.
  intros d.
  destruct (nth_error (StockAnalyzer.with_indicators d) 29) as [r |] eqn:Hr;
    [| vm_compute in Hr; discriminate].
  exists r.
  assert (Heq : feq (get r "BB_upper" NaN) (get r "BB_lower" NaN) = true).
  { vm_compute in Hr.
    apply (f_equal (fun o => match o with Some r => derived r | None => [] end)) in Hr.
    cbv beta iota in Hr. cbn [derived] in Hr.
    unfold get. rewrite <- Hr. vm_compute. reflexivity. }
  split; [reflexivity | split; [exact Heq |]].
  exact (proj1 (zero_width_band_position_is_nan d 29 r (or_introl Hr) Heq)).
Defined.

(* ===================================================================== *)
(** ** The batch analyzer *)
(* ===================================================================== *)

Lemma analyze_result_code self now r :
  StockAnalyzer.analyze self now = Ret r -> result_code r = StockAnalyzer.stock_code self.
Proof.
  unfold StockAnalyzer.analyze.
  destruct (StockAnalyzer.too_short _).
  - intros H; injection H as <-. reflexivity.
  - destruct (iloc _ (-1)) as [latest | e]; cbn [bind]; [| discriminate].
    destruct (iloc _ (-2)) as [prev | e]; cbn [bind]; [| discriminate].
    unfold StockAnalyzer._generate_result.
    destruct (StockAnalyzer.choose_signal _) as [[sg ac] ps].
    destruct (py_int _) as [v | e]; cbn [bind]; [| discriminate].
    intros H; injection H as <-. reflexivity.
Qed.

Lemma analyze_one_cases gp self thr now code acc :
  (analyze_one gp self thr now code acc = Ret acc
   /\ analyze_one gp self thr now code [] = Ret [])
  \/ (exists r, analyze_one gp self thr now code acc = Ret (acc ++ [r])
                /\ analyze_one gp self thr now code [] = Ret [r]
                /\ cleared gp (period_days self) thr code r)
  \/ (exists e, analyze_one gp self thr now code acc = Raise e
                /\ analyze_one gp self thr now code [] = Raise e).
Proof.
  unfold analyze_one, cleared.
  set (an := StockAnalyzer.init gp code (period_days self)).
  destruct (StockAnalyzer.too_short (StockAnalyzer.df an)) eqn:Hshort; [left; auto |].
  unfold StockAnalyzer.calculate_indicators. rewrite Hshort. cbn [negb fst snd].
  set (an' := StockAnalyzer.with_df an _).
  destruct (StockAnalyzer.analyze an' now) as [r | e] eqn:Han; cbn [bind];
    [| right; right; eauto].
  destruct (get_success r) eqn:Hsucc; [| left; auto].
  destruct r as [c t p pc v i a rk s | c e t s]; cbn [result_confidence bind].
  - destruct (of_Z (confidence_score a) >=? thr)%F eqn:Hthr; [| left; auto].
    right; left. eexists. split; [reflexivity |]. split; [reflexivity |].
    split; [reflexivity |]. split; [exists now; exact Han |].
    split; [exact Hsucc |]. split; [| split; [reflexivity | exact Hthr]].
    apply analyze_result_code in Han. exact Han.
  - right; right. eauto.
Qed.

Lemma loop_survivors gp self thr now i codes acc :
  loop gp self thr now i codes acc = Ret (acc ++ survivors gp self thr now i codes).
Proof.
  revert i acc. induction codes as [| code rest IH]; intros i acc; cbn [loop survivors].
  - now rewrite app_nil_r.
  - destruct (analyze_one_cases gp self thr (now i) code acc)
      as [[H H0] | [[r [H [H0 _]]] | [e [H H0]]]];
      rewrite H, H0; cbn [try_except bind]; rewrite IH.
    + reflexivity.
    + now rewrite <- app_assoc.
    + reflexivity.
Qed.

Lemma survivors_cleared gp self thr now i codes r :
  In r (survivors gp self thr now i codes) ->
  exists code, In code codes /\ cleared gp (period_days self) thr code r.
Proof.
  revert i. induction codes as [| code rest IH]; intros i; cbn [survivors];
    [intros [] |].
  intros H. apply in_app_or in H. destruct H as [H | H].
  - destruct (analyze_one_cases gp self thr (now i) code [])
      as [[_ H0] | [[r' [_ [H0 Hc]]] | [e [_ H0]]]]; rewrite H0 in H.
    + destruct H.
    + destruct H as [<- | []]. exists code. split; [left; reflexivity | exact Hc].
    + destruct H.
  - destruct (IH _ H) as [code' [Hin Hc]]. exists code'. split; [right; exact Hin | exact Hc].
Qed.

(** *** the stable descending sort *)

Lemma insert_desc_perm {A} (x : Z * A) l : Permutation (insert_desc x l) (x :: l).
Proof.
  induction l as [| y l IH]; cbn [insert_desc]; [reflexivity |].
  destruct (fst x <? fst y); [| reflexivity].
  rewrite IH. apply perm_swap.
Qed.

Lemma sort_desc_perm {A} (l : list (Z * A)) : Permutation (sort_desc l) l.
Proof.
  induction l as [| x l IH]; cbn; [reflexivity |].
  rewrite insert_desc_perm. now constructor.
Qed.

Lemma insert_desc_sorted {A} (x : Z * A) l :
  StronglySorted key_ge l -> StronglySorted key_ge (insert_desc x l).
Proof.
  induction 1 as [| y l Hl IH Hy]; cbn [insert_desc].
  - repeat constructor.
  - destruct (fst x <? fst y) eqn:Hxy.
    + apply Z.ltb_lt in Hxy. constructor; [exact IH |].
      apply Forall_forall. intros z Hz.
      apply (Permutation_in _ (insert_desc_perm x l)) in Hz.
      destruct Hz as [<- | Hz]; [unfold key_ge; lia |].
      rewrite Forall_forall in Hy. now apply Hy.
    + apply Z.ltb_ge in Hxy. constructor; [constructor; assumption |].
      constructor; [exact Hxy |].
      apply Forall_forall. intros z Hz. rewrite Forall_forall in Hy.
      specialize (Hy z Hz). unfold key_ge in *. lia.
Qed.

Lemma sort_desc_sorted {A} (l : list (Z * A)) : StronglySorted key_ge (sort_desc l).
Proof.
  induction l as [| x l IH]; cbn; [constructor |].
  now apply insert_desc_sorted.
Qed.

Lemma insert_desc_stable {A} (k : Z) (x : Z * A) l :
  StronglySorted key_ge l ->
  filter (has_key k) (insert_desc x l) = filter (has_key k) (x :: l).
Proof.
  induction 1 as [| y l Hl IH Hy]; cbn [insert_desc]; [reflexivity |].
  destruct (fst x <? fst y) eqn:Hxy; [| reflexivity].
  apply Z.ltb_lt in Hxy.
  cbn [filter] in *. rewrite IH.
  destruct (has_key k y) eqn:Hy'; destruct (has_key k x) eqn:Hx'; try reflexivity.
  unfold has_key in Hy', Hx'. apply Z.eqb_eq in Hy', Hx'. lia.
Qed.

Lemma sort_desc_stable {A} (k : Z) (l : list (Z * A)) :
  filter (has_key k) (sort_desc l) = filter (has_key k) l.
Proof.
  induction l as [| x l IH]; cbn [sort_desc fold_right]; [reflexivity |].
  fold (sort_desc l).
  rewrite insert_desc_stable by apply sort_desc_sorted.
  cbn [filter]. now rewrite IH.
Qed.

(** *** sorting the results *)

Lemma decorate_keyed l : Forall keyed_well (decorate l).
Proof. unfold decorate. apply Forall_map, Forall_forall. intros; reflexivity. Qed.

Lemma sorted_keyed l : Forall keyed_well (sort_desc (decorate l)).
Proof.
  apply Forall_forall. intros x Hx.
  apply (Permutation_in _ (sort_desc_perm _)) in Hx.
  pose proof (decorate_keyed l) as H. rewrite Forall_forall in H. now apply H.
Qed.

Lemma map_snd_decorate l : map snd (decorate l) = l.
Proof. unfold decorate. rewrite map_map. cbn. apply map_id. Qed.

Lemma ranked_perm l : Permutation (ranked l) l.
Proof.
  unfold ranked. rewrite <- (map_snd_decorate l) at 2.
  apply Permutation_map, sort_desc_perm.
Qed.

Lemma map_snd_sorted (s : list (Z * Result)) :
  Forall keyed_well s -> StronglySorted key_ge s ->
  StronglySorted confidence_ge (map snd s).
Proof.
  intros Hk Hs. induction Hs as [| x s Hs IH Hx]; cbn; [constructor |].
  inversion Hk as [| ? ? Hkx Hks]; subst.
  constructor; [apply IH; exact Hks |].
  apply Forall_map, Forall_forall. intros y Hy.
  rewrite Forall_forall in Hx, Hks.
  specialize (Hx y Hy). specialize (Hks y Hy).
  unfold key_ge, keyed_well, confidence_ge in *. lia.
Qed.

Lemma ranked_sorted l : StronglySorted confidence_ge (ranked l).
Proof. apply map_snd_sorted; [apply sorted_keyed | apply sort_desc_sorted]. Qed.

Lemma filter_map_snd k (s : list (Z * Result)) :
  Forall keyed_well s ->
  filter (has_confidence k) (map snd s) = map snd (filter (has_key k) s).
Proof.
  induction 1 as [| x s Hx Hs IH]; cbn; [reflexivity |].
  unfold has_confidence at 1, has_key at 1. rewrite <- Hx.
  destruct (fst x =? k); cbn; now rewrite IH.
Qed.

Lemma ranked_stable k l :
  filter (has_confidence k) (ranked l) = filter (has_confidence k) l.
Proof.
  unfold ranked. rewrite filter_map_snd by apply sorted_keyed.
  rewrite sort_desc_stable.
  rewrite <- filter_map_snd by apply decorate_keyed.
  now rewrite map_snd_decorate.
Qed.

Lemma mapM_decorate l :
  Forall (fun r => result_confidence r = Ret (confidence_of r)) l ->
  mapM (fun r => k <- result_confidence r ;; Ret (k, r)) l = Ret (decorate l).
Proof.
  induction 1 as [| r l Hr Hl IH]; cbn [mapM decorate map]; [reflexivity |].
  rewrite Hr. cbn [bind]. rewrite IH. reflexivity.
Qed.

Lemma sort_by_confidence_ranked l :
  Forall (fun r => result_confidence r = Ret (confidence_of r)) l ->
  sort_by_confidence l = Ret (ranked l).
Proof.
  intros H. unfold sort_by_confidence. rewrite mapM_decorate by exact H. reflexivity.
Qed.

Lemma survivors_confident gp self thr now i codes :
  Forall (fun r => result_confidence r = Ret (confidence_of r))
         (survivors gp self thr now i codes).
Proof.
  apply Forall_forall. intros r Hr.
  apply survivors_cleared in Hr. destruct Hr as [code [_ Hc]].
  unfold cleared in Hc. tauto.
Qed.

(** [analyze_all] never raises: it returns the ranked survivors *)
Lemma analyze_all_ranked gp self thr now :
  analyze_all gp self thr now =
  let rs := ranked (survivors gp self thr now 1 (stock_list self)) in
  Ret (rs, with_results self rs).
Proof.
  unfold analyze_all. rewrite loop_survivors. cbn [app bind].
  rewrite sort_by_confidence_ranked by apply survivors_confident.
  reflexivity.
Qed.

Lemma fetch_failure_is_short gp code period e :
  gp code period = Raise e ->
  StockAnalyzer.too_short (StockAnalyzer.df (StockAnalyzer.init gp code period)) = true.
Proof.
  intros H. unfold StockAnalyzer.init, StockAnalyzer._fetch_data; cbn [StockAnalyzer.df].
  rewrite H. reflexivity.
Qed.

Lemma cleared_not_failed gp period thr code r :
  cleared gp period thr code r -> ~ symbol_fails gp period code.
Proof.
  unfold cleared, symbol_fails.
  intros [Hlong [[now Han] _]] [[e He] | [Hshort | Hraise]].
  - apply fetch_failure_is_short in He. congruence.
  - congruence.
  - specialize (Hraise now). rewrite Han in Hraise. discriminate.
Qed.

Lemma get_top_stocks_total gp self top_n now :
  exists top b, get_top_stocks gp self top_n now = Ret (top, b)
    /\ top = slice_to (results b) top_n
    /\ (results self <> [] -> b = self)
    /\ (results self = [] ->
        results b = ranked (survivors gp self default_min_confidence now 1 (stock_list self))).
Proof.
  unfold get_top_stocks.
  destruct (results self) as [| r0 rs0] eqn:Hres.
  - rewrite analyze_all_ranked. cbn [bind snd].
    eexists _, _. split; [reflexivity |]. split; [reflexivity |].
    split; [congruence | intros _; reflexivity].
  - cbn [bind]. exists (slice_to (results self) top_n), self.
    split; [reflexivity |]. split; [reflexivity |].
    split; [reflexivity | discriminate].
Qed.

(** C8: [analyze_all] returns for every symbol list, whatever the price
    source does: a symbol whose processing fails (no data, too short a
    history, an exception during the analysis) has no entry in the output,
    every entry is a successful analysis of a listed symbol, the output is
    empty when every symbol fails, and [get_top_stocks] returns as well. *)
Theorem batch_never_raises (gp : price_source) (self : t) (min_confidence : fnum)
    (now : Z -> string) :
  exists rs,
    analyze_all gp self min_confidence now = Ret (rs, with_results self rs)
    /\ (forall code, symbol_fails gp (period_days self) code ->
          forall r, In r rs -> result_code r <> code)
    /\ (forall r, In r rs ->
          exists code, In code (stock_list self)
                       /\ cleared gp (period_days self) min_confidence code r)
    /\ (Forall (symbol_fails gp (period_days self)) (stock_list self) -> rs = [])
    /\ (forall top_n now',
          exists top b, get_top_stocks gp self top_n now' = Ret (top, b)).
Proof.
  exists (ranked (survivors gp self min_confidence now 1 (stock_list self))).
  assert (Hin : forall r,
            In r (ranked (survivors gp self min_confidence now 1 (stock_list self))) ->
            exists code, In code (stock_list self)
                         /\ cleared gp (period_days self) min_confidence code r).
  { intros r Hr. apply (Permutation_in _ (ranked_perm _)) in Hr.
    now apply survivors_cleared in Hr. }
  split; [apply analyze_all_ranked |].
  split; [| split; [exact Hin | split]].
  - intros code Hfail r Hr Hcode.
    destruct (Hin r Hr) as [code' [_ Hc]].
    assert (code' = code) by (unfold cleared in Hc; destruct Hc as [_ [_ [_ [Hc _]]]]; congruence).
    subst code'. exact (cleared_not_failed _ _ _ _ _ Hc Hfail).
  - intros Hall.
    destruct (ranked _) as [| r rs] eqn:E; [reflexivity |]. exfalso.
    destruct (Hin r (or_introl eq_refl)) as [code [Hcode Hc]].
    rewrite Forall_forall in Hall.
    exact (cleared_not_failed _ _ _ _ _ Hc (Hall code Hcode)).
  - intros top_n now'.
    destruct (get_top_stocks_total gp self top_n now') as [top [b [H _]]]. eauto.
Qed.

Lemma firstn_sorted {A} (R : A -> A -> Prop) n l :
  StronglySorted R l -> StronglySorted R (firstn n l).
Proof.
  intros H. revert n. induction H as [| x l Hl IH Hx]; intros [| n]; cbn; try constructor.
  - apply IH.
  - apply Forall_forall. intros y Hy. apply In_firstn in Hy.
    rewrite Forall_forall in Hx. now apply Hx.
Qed.

Lemma slice_to_nonneg {A} (l : list A) n :
  0 <= n -> slice_to l n = firstn (Z.to_nat n) l.
Proof.
  intros H. unfold slice_to.
  destruct (n <? 0) eqn:E; [apply Z.ltb_lt in E; lia | reflexivity].
Qed.

(** C3, amended: for every symbol list, threshold and cap >= 0,
    [analyze_all] keeps only successful analyses with confidence >= the
    threshold, sorted descending by confidence, the entries of equal
    confidence in the order of the symbol list; [get_top_stocks] then returns
    a list sorted descending of at most cap entries, and, when [analyze_all]
    kept at least one analysis, exactly its first cap entries. *)
Theorem batch_ranked_and_capped (gp : price_source) (symbols : list string)
    (period : Z) (min_confidence : fnum) (cap : Z) (now now' : Z -> string) :
  0 <= cap ->
  let batch := init symbols period in
  exists rs b top b',
    analyze_all gp batch min_confidence now = Ret (rs, b)
    /\ get_top_stocks gp b cap now' = Ret (top, b')
    /\ Forall (fun r => get_success r = true
                        /\ result_confidence r = Ret (confidence_of r)
                        /\ (of_Z (confidence_of r) >=? min_confidence)%F = true) rs
    /\ StronglySorted confidence_ge rs
    /\ (forall k, filter (has_confidence k) rs
                  = filter (has_confidence k)
                           (survivors gp batch min_confidence now 1 symbols))
    /\ Z.of_nat (length top) <= cap
    /\ StronglySorted confidence_ge top
    /\ (rs <> [] -> top = firstn (Z.to_nat cap) rs).
Proof.
  intros Hcap batch.
  set (rs := ranked (survivors gp batch min_confidence now 1 symbols)).
  destruct (get_top_stocks_total gp (with_results batch rs) cap now')
    as [top [b' [Htop [Hslice [Hkeep Hrerun]]]]].
  exists rs, (with_results batch rs), top, b'.
  split; [apply analyze_all_ranked |]. split; [exact Htop |].
  rewrite slice_to_nonneg in Hslice by exact Hcap.
  split; [| split; [apply ranked_sorted | split; [intros k; apply ranked_stable |]]].
  - apply Forall_forall. intros r Hr.
    apply (Permutation_in _ (ranked_perm _)) in Hr.
    apply survivors_cleared in Hr. destruct Hr as [code [_ Hc]].
    unfold cleared in Hc. tauto.
  - split; [| split].
    + subst top. rewrite length_firstn. lia.
    + subst top. apply firstn_sorted.
      destruct rs as [| r0 rs0] eqn:Hrs.
      * rewrite Hrerun by reflexivity. apply ranked_sorted.
      * rewrite Hkeep by discriminate. cbn [results with_results].
        rewrite <- Hrs. apply ranked_sorted.
    + intros Hne. subst top. rewrite Hkeep by exact Hne. reflexivity.
Qed.

(** C3, as stated, fails: with threshold 90 nothing clears, so
    [get_top_stocks] runs [analyze_all] again at its default threshold 80 and
    returns an analysis of confidence 85; and with the cap -1 the slice keeps
    all entries but the last, more than the cap. *)
Lemma rerun_forgets_threshold :
  match analyze_all Samples.get_price (init ["sh600519"%string] 120) (of_Z 90)
                    Samples.clock with
  | Ret (rs, b) =>
      rs = []
      /\ match get_top_stocks Samples.get_price b 10 Samples.clock with
         | Ret ([r], _) =>
             get_success r = true /\ confidence_of r = 85
             /\ (of_Z (confidence_of r) >=? of_Z 90)%F = false
         | _ => False
         end
  | Raise _ => False
  end
  /\ match analyze_all Samples.get_price
             (init ["sh600519"; "sh600519"]%string 120) (of_Z 80)
             Samples.clock with
     | Ret (rs, b) =>
         match get_top_stocks Samples.get_price b (-1) Samples.clock with
         | Ret (top, _) => length rs = 2%nat /\ length top = 1%nat
             /\ ~ (Z.of_nat (length top) <= -1)
         | Raise _ => False
         end
     | Raise _ => False
     end.
Proof.
  split.
  - vm_compute. repeat split; reflexivity.
  - vm_compute. repeat split; try reflexivity. intros H; apply H; reflexivity.
Qed.

Lemma batch_ranked_and_capped_witness :
  0 <= 2
  /\ exists rs b top b',
       analyze_all Samples.get_price
         (init ["sh600519"; "sz000858"; "sz000333"]%string 120) (of_Z 20) Samples.clock
       = Ret (rs, b)
       /\ get_top_stocks Samples.get_price b 2 Samples.clock = Ret (top, b')
       /\ StronglySorted confidence_ge rs
       /\ Z.of_nat (length top) <= 2
       /\ (rs <> [] -> top = firstn 2 rs).
Proof.
  assert (Hcap : 0 <= 2) by lia.
  split; [exact Hcap |].
  destruct (batch_ranked_and_capped Samples.get_price
              ["sh600519"; "sz000858"; "sz000333"]%string 120 (of_Z 20) 2
              Samples.clock Samples.clock Hcap)
    as [rs [b [top [b' [H1 [H2 [_ [H4 [_ [H6 [_ H8]]]]]]]]]]].
  exists rs, b, top, b'.
  split; [exact H1 | split; [exact H2 | split; [exact H4 | split; [exact H6 | exact H8]]]].
Defined.

Lemma batch_never_raises_witness :
  symbol_fails Samples.get_price 120 "sz300750"
  /\ symbol_fails Samples.get_price 120 "sz002415"
  /\ symbol_fails Samples.get_price 120 "hk00700"
  /\ exists rs,
       analyze_all Samples.get_price
         (init ["sz300750"; "sh600519"; "sz002415"; "hk00700"]%string 120) (of_Z 80)
         Samples.clock
       = Ret (rs, with_results
                    (init ["sz300750"; "sh600519"; "sz002415"; "hk00700"]%string 120) rs)
       /\ forall r, In r rs ->
            result_code r <> "sz300750"%string /\ result_code r <> "sz002415"%string
            /\ result_code r <> "hk00700"%string.
Proof.
  assert (H1 : symbol_fails Samples.get_price 120 "sz300750")
    by (right; left; vm_compute; reflexivity).
  assert (H2 : symbol_fails Samples.get_price 120 "sz002415")
    by (right; right; intros now; vm_compute; reflexivity).
  assert (H3 : symbol_fails Samples.get_price 120 "hk00700")
    by (left; eexists; vm_compute; reflexivity).
  split; [exact H1 | split; [exact H2 | split; [exact H3 |]]].
  destruct (batch_never_raises Samples.get_price
              (init ["sz300750"; "sh600519"; "sz002415"; "hk00700"]%string 120)
              (of_Z 80) Samples.clock) as [rs [Hret [Hfail _]]].
  exists rs. split; [exact Hret |].
  intros r Hr. split; [| split].
  - exact (Hfail _ H1 r Hr).
  - exact (Hfail _ H2 r Hr).
  - exact (Hfail _ H3 r Hr).
Defined.

(* ===================================================================== *)
(** ** What analyze returns, and when *)
(* ===================================================================== *)

Lemma iloc_in_range {A} (l : list A) (i : Z) :
  - Z.of_nat (length l) <= i < Z.of_nat (length l) -> exists a, iloc l i = Ret a /\ In a l.
Proof.
  intros H. unfold iloc.
  set (n := Z.of_nat (length l)) in *.
  set (j := if i <? 0 then n + i else i).
  assert (Hj : 0 <= j < n).
  { subst j. destruct (i <? 0) eqn:E; [apply Z.ltb_lt in E | apply Z.ltb_ge in E]; lia. }
  replace ((j <? 0) || (n <=? j)) with false.
  2:{ symmetry. apply orb_false_iff. split; [apply Z.ltb_ge | apply Z.leb_gt]; lia. }
  destruct (nth_error l (Z.to_nat j)) as [a |] eqn:E.
  - exists a. split; [reflexivity |]. eapply nth_error_In; eauto.
  - apply nth_error_None in E. lia.
Qed.

Lemma iloc_out_of_range {A} (l : list A) (i : Z) :
  i < - Z.of_nat (length l) \/ Z.of_nat (length l) <= i -> iloc l i = Raise IndexError.
Proof.
  intros H. unfold iloc.
  set (n := Z.of_nat (length l)) in *.
  set (j := if i <? 0 then n + i else i).
  assert (Hj : j < 0 \/ n <= j).
  { subst j. destruct (i <? 0) eqn:E; [apply Z.ltb_lt in E | apply Z.ltb_ge in E]; lia. }
  replace ((j <? 0) || (n <=? j)) with true; [reflexivity |].
  symmetry. apply orb_true_iff.
  destruct Hj; [left; apply Z.ltb_lt | right; apply Z.leb_le]; lia.
Qed.

Lemma long_frame_rows (d : DataFrame) :
  StockAnalyzer.too_short d = false ->
  exists latest prev, iloc d (-1) = Ret latest /\ iloc d (-2) = Ret prev
                      /\ In latest d /\ In prev d.
Proof.
  intros H. unfold StockAnalyzer.too_short in H.
  apply orb_false_iff in H. destruct H as [_ H]. apply Z.ltb_ge in H.
  destruct (iloc_in_range d (-1)) as [latest [H1 H1']]; [lia |].
  destruct (iloc_in_range d (-2)) as [prev [H2 H2']]; [lia |].
  exists latest, prev. auto.
Qed.

Lemma canonical_confidence_bounds latest prev :
  0 <= StockAnalyzer._calculate_confidence (StockAnalyzer._analyze_signals latest prev) <= 100.
Proof.
  rewrite canonical_confidence_is_sum by apply canonical_signals_scored.
  unfold spec_confidence. lia.
Qed.

Lemma choose_signal_action c :
  let '(sg, ac, ps) := StockAnalyzer.choose_signal c in
  (ac = "BUY"%string <-> 60 <= c)
  /\ (ac = "HOLD"%string <-> 45 <= c < 60)
  /\ (ac = "SELL"%string <-> c < 45).
Proof.
  unfold StockAnalyzer.choose_signal.
  destruct (75 <=? c) eqn:H75; [apply Z.leb_le in H75 | apply Z.leb_gt in H75].
  { repeat split; intros; try lia; try discriminate; reflexivity. }
  destruct (60 <=? c) eqn:H60; [apply Z.leb_le in H60 | apply Z.leb_gt in H60].
  { repeat split; intros; try lia; try discriminate; reflexivity. }
  destruct (45 <=? c) eqn:H45; [apply Z.leb_le in H45 | apply Z.leb_gt in H45].
  { repeat split; intros; try lia; try discriminate; reflexivity. }
  repeat split; intros; try lia; try discriminate; reflexivity.
Qed.

Lemma analyze_populated (self : StockAnalyzer.t) (now : string)
    (c t : string) (p pc : fnum) (v : Z) (i : Indicators) (a : Analysis)
    (rk : RiskMetrics) (s : option bool) :
  StockAnalyzer.analyze self now = Ret (Populated c t p pc v i a rk s) ->
  exists latest prev,
    StockAnalyzer.too_short (StockAnalyzer.df self) = false
    /\ iloc (StockAnalyzer.df self) (-1) = Ret latest
    /\ iloc (StockAnalyzer.df self) (-2) = Ret prev
    /\ confidence_score a
       = StockAnalyzer._calculate_confidence (StockAnalyzer._analyze_signals latest prev)
    /\ (signal a, action a, position_suggestion a)
       = StockAnalyzer.choose_signal (confidence_score a)
    /\ (exists all_reasons, key_reasons a = firstn 5 all_reasons)
    /\ detailed_signals a = StockAnalyzer._analyze_signals latest prev
    /\ i = {| i_MA5 := fround (get latest "MA5" (of_Z 0)) 2;
              i_MA10 := fround (get latest "MA10" (of_Z 0)) 2;
              i_MA20 := fround (get latest "MA20" (of_Z 0)) 2;
              i_RSI := fround (get latest "RSI" (of_Z 50)) 2;
              i_MACD := fround (get latest "MACD" (of_Z 0)) 4;
              i_KD_K := fround (get latest "%K" (of_Z 50)) 2;
              i_KD_D := fround (get latest "%D" (of_Z 50)) 2;
              i_BB_position := fround (get latest "BB_position" (dec 5 1)) 3 |}
    /\ py_int (volume latest) = Ret v
    /\ rk = StockAnalyzer._calculate_risk_metrics self
    /\ c = StockAnalyzer.stock_code self /\ t = now /\ s = Some true.
Proof.
  unfold StockAnalyzer.analyze.
  destruct (StockAnalyzer.too_short _) eqn:Hshort; [discriminate |].
  destruct (iloc _ (-1)) as [latest | e]; cbn [bind]; [| discriminate].
  destruct (iloc _ (-2)) as [prev | e]; cbn [bind]; [| discriminate].
  unfold StockAnalyzer._generate_result.
  set (conf := StockAnalyzer._calculate_confidence
                 (StockAnalyzer._analyze_signals latest prev)).
  destruct (StockAnalyzer.choose_signal conf) as [[sg ac] ps] eqn:Hch.
  destruct (py_int _) as [vol | e] eqn:Hv; cbn [bind]; [| discriminate].
  intros H. exists latest, prev.
  pose proof (f_equal (fun r => match r with
                                | Ret (Populated c t _ _ v _ _ rk s) => Some (c, t, v, rk, s)
                                | _ => None
                                end) H) as Hc.
  pose proof (f_equal (fun r => match r with
                                | Ret (Populated _ _ _ _ _ i _ _ _) => Some i
                                | _ => None
                                end) H) as Hi.
  pose proof (f_equal (fun r => match r with
                                | Ret (Populated _ _ _ _ _ _ a _ _) => Some a
                                | _ => None
                                end) H) as Ha.
  cbv beta iota in Hc, Hi, Ha.
  assert (Ha' : a = {| confidence_score := conf; signal := sg; action := ac;
                       position_suggestion := ps;
                       key_reasons := firstn 5
                         (fold_left (fun acc category =>
                                       match reasons category with
                                       | Some rs => acc ++ rs
                                       | None => acc
                                       end)
                                    (values (StockAnalyzer._analyze_signals latest prev)) []);
                       detailed_signals := StockAnalyzer._analyze_signals latest prev |})
    by congruence.
  assert (Hi' : i = {| i_MA5 := fround (get latest "MA5" (of_Z 0)) 2;
              i_MA10 := fround (get latest "MA10" (of_Z 0)) 2;
              i_MA20 := fround (get latest "MA20" (of_Z 0)) 2;
              i_RSI := fround (get latest "RSI" (of_Z 50)) 2;
              i_MACD := fround (get latest "MACD" (of_Z 0)) 4;
              i_KD_K := fround (get latest "%K" (of_Z 50)) 2;
              i_KD_D := fround (get latest "%D" (of_Z 50)) 2;
              i_BB_position := fround (get latest "BB_position" (dec 5 1)) 3 |})
    by congruence.
  assert (Hc' : (c, t, v, rk, s)
                = (StockAnalyzer.stock_code self, now, vol,
                   StockAnalyzer._calculate_risk_metrics self, Some true))
    by congruence.
  clear H Hc Hi Ha. rewrite Ha'. cbn [confidence_score signal action position_suggestion
                                        key_reasons detailed_signals].
  injection Hc' as -> -> -> -> ->.
  split; [reflexivity |]. split; [reflexivity |]. split; [reflexivity |].
  split; [reflexivity |]. split; [now rewrite Hch |].
  split; [eexists; reflexivity |]. split; [reflexivity |].
  split; [exact Hi' |]. split; [exact Hv |]. auto.
Qed.

(** X1: a populated result of [analyze] carries a confidence between 0 and
    100, the action BUY exactly from 60 on, HOLD from 45 to 59 and SELL below
    45, at most five key reasons, the analyzer's symbol, the clock reading and
    success = True. *)
Theorem analysis_is_well_formed (self : StockAnalyzer.t) (now : string)
    (c t : string) (p pc : fnum) (v : Z) (i : Indicators) (a : Analysis)
    (rk : RiskMetrics) (s : option bool) :
  StockAnalyzer.analyze self now = Ret (Populated c t p pc v i a rk s) ->
  0 <= confidence_score a <= 100
  /\ (action a = "BUY"%string <-> 60 <= confidence_score a)
  /\ (action a = "HOLD"%string <-> 45 <= confidence_score a < 60)
  /\ (action a = "SELL"%string <-> confidence_score a < 45)
  /\ (length (key_reasons a) <= 5)%nat
  /\ c = StockAnalyzer.stock_code self /\ t = now /\ s = Some true.
Proof.
  intros H. apply analyze_populated in H.
  destruct H as [latest [prev [_ [_ [_ [Hconf [Hch [[all Hk] [_ [_ [_ [_ [Hc [Ht Hs]]]]]]]]]]]]]].
  split; [rewrite Hconf; apply canonical_confidence_bounds |].
  pose proof (choose_signal_action (confidence_score a)) as Hact.
  rewrite <- Hch in Hact. destruct Hact as [H1 [H2 H3]].
  split; [exact H1 | split; [exact H2 | split; [exact H3 |]]].
  split; [rewrite Hk, length_firstn; lia | auto].
Qed.

Lemma iloc_In {A} (l : list A) (i : Z) (a : A) : iloc l i = Ret a -> In a l.
Proof.
  unfold iloc. destruct (_ || _); [discriminate |].
  destruct (nth_error l _) as [x |] eqn:E; [| discriminate].
  intros H; injection H as <-. eapply nth_error_In; eauto.
Qed.

(** X2: what [analyze] does is decided by the length of the frame and the
    volume of the latest bar: the empty result on a short frame; otherwise a
    populated result when that volume is a number, ValueError when it is NaN
    and OverflowError when it is infinite. *)
Theorem analyze_outcome (self : StockAnalyzer.t) (now : string) :
  match StockAnalyzer.analyze self now with
  | Ret (EmptyResult _ _ _ _) => StockAnalyzer.too_short (StockAnalyzer.df self) = true
  | Ret (Populated _ _ _ _ _ _ _ _ _) =>
      StockAnalyzer.too_short (StockAnalyzer.df self) = false
      /\ exists latest, iloc (StockAnalyzer.df self) (-1) = Ret latest
                        /\ is_fin (volume latest) = true
  | Raise e =>
      StockAnalyzer.too_short (StockAnalyzer.df self) = false
      /\ exists latest, iloc (StockAnalyzer.df self) (-1) = Ret latest
           /\ ((volume latest = NaN /\ e = ValueError)
               \/ ((volume latest = PInf \/ volume latest = NInf) /\ e = OverflowError))
  end.
Proof.
  unfold StockAnalyzer.analyze.
  destruct (StockAnalyzer.too_short (StockAnalyzer.df self)) eqn:Hshort;
    [reflexivity |].
  destruct (long_frame_rows _ Hshort) as [latest [prev [H1 [H2 _]]]].
  rewrite H1, H2. cbn [bind].
  unfold StockAnalyzer._generate_result.
  destruct (StockAnalyzer.choose_signal _) as [[sg ac] ps].
  destruct (volume latest) as [q | | |] eqn:Hv; cbn [py_int bind].
  - split; [reflexivity |]. exists latest. rewrite Hv. auto.
  - split; [reflexivity |]. exists latest. rewrite Hv. auto.
  - split; [reflexivity |]. exists latest. rewrite Hv. auto.
  - split; [reflexivity |]. exists latest. rewrite Hv. auto.
Qed.

Lemma fresh_rows_have_no_indicators gp code period (r : row) :
  In r (StockAnalyzer.df (StockAnalyzer.init gp code period)) -> derived r = [].
Proof.
  unfold StockAnalyzer.init, StockAnalyzer._fetch_data; cbn [StockAnalyzer.df].
  destruct (gp code period) as [bars | e]; [| intros []].
  unfold StockAnalyzer.frame_of. intros H. apply in_map_iff in H.
  destruct H as [[[[[[o h] l] c] v] ret] [<- _]]. reflexivity.
Qed.

Lemma default_scores (latest prev : row) :
  derived latest = [] -> derived prev = [] ->
  map score_of (values (StockAnalyzer._analyze_signals latest prev)) =
  [ (if (close latest >? of_Z 0)%F then 15 else 0);
    10;
    (if (close latest >? close prev)%F && (volume latest >? volume prev)%F then 10 else 0);
    0; 0 ].
Proof.
  intros Hl Hp. unfold StockAnalyzer._analyze_signals, get. rewrite Hl, Hp.
  cbn [lookup].
  change (of_Z 0 >? of_Z 0)%F with false.
  change (of_Z 30 <? of_Z 50)%F with true.
  change (of_Z 50 <? of_Z 70)%F with true.
  change (of_Z 50 <? of_Z 20)%F with false.
  change (dec 5 1 <? dec 3 1)%F with false.
  change (of_Z 1 >? dec 15 1)%F with false.
  cbn [andb].
  destruct (close latest >? of_Z 0)%F;
    destruct ((close latest >? close prev)%F && (volume latest >? volume prev)%F);
    reflexivity.
Qed.

(** X3: [analyze] on a freshly constructed analyzer, before
    [calculate_indicators], scores the defaults of [latest.get]: whatever the
    bars, the confidence is at most 35, the action is SELL, and the reported
    indicators are the defaults themselves (0 for the averages and the MACD,
    50 for RSI, %K and %D, 0.5 for BB_position). *)
Theorem analysis_before_indicators (gp : price_source) (code : string) (period : Z)
    (now : string) (c t : string) (p pc : fnum) (v : Z) (i : Indicators)
    (a : Analysis) (rk : RiskMetrics) (s : option bool) :
  StockAnalyzer.analyze (StockAnalyzer.init gp code period) now
  = Ret (Populated c t p pc v i a rk s) ->
  confidence_score a <= 35
  /\ action a = "SELL"%string
  /\ i = {| i_MA5 := of_Z 0; i_MA10 := of_Z 0; i_MA20 := of_Z 0; i_RSI := of_Z 50;
            i_MACD := of_Z 0; i_KD_K := of_Z 50; i_KD_D := of_Z 50;
            i_BB_position := dec 5 1 |}.
Proof.
  intros H. apply analyze_populated in H.
  destruct H as [latest [prev [_ [H1 [H2 [Hconf [Hch [_ [_ [Hi _]]]]]]]]]].
  apply iloc_In, fresh_rows_have_no_indicators in H1.
  apply iloc_In, fresh_rows_have_no_indicators in H2.
  assert (Hle : confidence_score a <= 35).
  { rewrite Hconf.
    rewrite canonical_confidence_is_sum by apply canonical_signals_scored.
    pose proof (default_scores latest prev H1 H2) as Hs.
    unfold values in Hs. cbn [map] in Hs.
    injection Hs as Ht Hm Hv Ho Hp.
    unfold spec_confidence. rewrite Ht, Hm, Hv, Ho, Hp.
    destruct (close latest >? of_Z 0)%F;
      destruct ((close latest >? close prev)%F && (volume latest >? volume prev)%F);
      vm_compute; discriminate. }
  split; [exact Hle |].
  pose proof (choose_signal_action (confidence_score a)) as Hact.
  rewrite <- Hch in Hact. destruct Hact as [_ [_ H3]].
  split; [apply H3; lia |].
  rewrite Hi. unfold get. rewrite H1. cbn [lookup]. vm_compute. reflexivity.
Qed.

Lemma map_combine_seq {A B} (f : nat * A -> B) (g h : A -> B) (d : list A) (s : nat) :
  (forall i x, f (i, x) = g x) ->
  map f (combine (seq s (length d)) d) = map g d.
Proof.
  intros H. revert s. induction d as [| x d IH]; intros s; cbn; [reflexivity |].
  now rewrite H, IH.
Qed.

Lemma with_indicators_length d : length (StockAnalyzer.with_indicators d) = length d.
Proof.
  unfold StockAnalyzer.with_indicators.
  rewrite length_map, length_combine, length_seq. lia.
Qed.

Lemma with_indicators_column {B} (col : row -> B) d :
  (forall r cols, col {| open := open r; high := high r; low := low r; close := close r;
                         volume := volume r; returns := returns r; derived := cols |}
                  = col r) ->
  map col (StockAnalyzer.with_indicators d) = map col d.
Proof.
  intros H. unfold StockAnalyzer.with_indicators. rewrite map_map.
  apply map_combine_seq; [exact col |]. intros i x. cbn [fst snd]. apply H.
Qed.

Lemma indicator_columns_ext d d' i :
  map close d' = map close d -> map low d' = map low d ->
  map high d' = map high d -> map volume d' = map volume d ->
  StockAnalyzer.indicator_columns d' i = StockAnalyzer.indicator_columns d i.
Proof.
  intros Hc Hl Hh Hv.
  unfold StockAnalyzer.indicator_columns, StockAnalyzer.K_col, StockAnalyzer.D_col,
    StockAnalyzer.K_col, StockAnalyzer.low_14, StockAnalyzer.high_14,
    StockAnalyzer.volume_ratio_col, StockAnalyzer.volume_ma5_col.
  now rewrite Hc, Hl, Hh, Hv.
Qed.

Lemma combine_map_r {A B C} (F : nat * A -> C) (G : nat -> B -> C) (k : A -> B)
    (d : list A) (ns : list nat) :
  (forall i x, F (i, x) = G i (k x)) ->
  map F (combine ns d) = map (fun p => G (fst p) (snd p)) (combine ns (map k d)).
Proof.
  intros H. revert ns. induction d as [| x d IH]; intros [| n ns]; cbn; try reflexivity.
  now rewrite H, IH.
Qed.

Lemma with_indicators_ext d d' :
  map raw d' = map raw d ->
  StockAnalyzer.with_indicators d' = StockAnalyzer.with_indicators d.
Proof.
  intros H.
  assert (Hlen : length d' = length d)
    by (rewrite <- (length_map raw d'), H; apply length_map).
  assert (Hcols : forall i, StockAnalyzer.indicator_columns d' i
                            = StockAnalyzer.indicator_columns d i).
  { intros i. apply indicator_columns_ext.
    - apply (f_equal (map (fun x => match x with (_, _, _, c, _, _) => c end))) in H.
      rewrite !map_map in H. exact H.
    - apply (f_equal (map (fun x => match x with (_, _, l, _, _, _) => l end))) in H.
      rewrite !map_map in H. exact H.
    - apply (f_equal (map (fun x => match x with (_, h, _, _, _, _) => h end))) in H.
      rewrite !map_map in H. exact H.
    - apply (f_equal (map (fun x => match x with (_, _, _, _, v, _) => v end))) in H.
      rewrite !map_map in H. exact H. }
  unfold StockAnalyzer.with_indicators. rewrite Hlen.
  set (G := fun (i : nat) (x : fnum * fnum * fnum * fnum * fnum * fnum) =>
              match x with
              | (o, h, l, c, v, ret) =>
                  {| open := o; high := h; low := l; close := c; volume := v;
                     returns := ret; derived := StockAnalyzer.indicator_columns d i |}
              end).
  rewrite (combine_map_r _ G raw d') by (intros i x; cbn [fst snd]; now rewrite Hcols).
  rewrite (combine_map_r _ G raw d) by (intros i x; reflexivity).
  now rewrite H.
Qed.

(** X4: a successful [calculate_indicators] neither drops nor reorders nor
    changes bars (the source's columns and [returns] are as before, row by
    row), keeps the symbol, and is idempotent: a second call leaves the
    enriched analyzer as it is. *)
Theorem calculate_indicators_keeps_bars (self self' : StockAnalyzer.t) :
  StockAnalyzer.calculate_indicators self = (true, self') ->
  length (StockAnalyzer.df self') = length (StockAnalyzer.df self)
  /\ map raw (StockAnalyzer.df self') = map raw (StockAnalyzer.df self)
  /\ StockAnalyzer.stock_code self' = StockAnalyzer.stock_code self
  /\ StockAnalyzer.calculate_indicators self' = (true, self').
Proof.
  unfold StockAnalyzer.calculate_indicators.
  destruct (StockAnalyzer.too_short (StockAnalyzer.df self)) eqn:Hshort; [discriminate |].
  intros H. injection H as <-. cbn [StockAnalyzer.df StockAnalyzer.with_df StockAnalyzer.stock_code].
  assert (Hraw : map raw (StockAnalyzer.with_indicators (StockAnalyzer.df self))
                 = map raw (StockAnalyzer.df self))
    by (apply with_indicators_column; reflexivity).
  split; [apply with_indicators_length |]. split; [exact Hraw |]. split; [reflexivity |].
  assert (Hshort' : StockAnalyzer.too_short
                      (StockAnalyzer.with_indicators (StockAnalyzer.df self)) = false).
  { unfold StockAnalyzer.too_short in *. rewrite with_indicators_length.
    apply orb_false_iff in Hshort. destruct Hshort as [Hne Hlen].
    apply orb_false_iff. split; [| exact Hlen].
    destruct (StockAnalyzer.df self); [discriminate | reflexivity]. }
  rewrite Hshort'. unfold StockAnalyzer.with_df; cbn [StockAnalyzer.df StockAnalyzer.stock_code StockAnalyzer.period_days].
  now rewrite (with_indicators_ext _ _ Hraw).
Qed.




Lemma app2_fresh_rows gp code period (r : row) :
  In r (StockSignalAnalyzer.df (StockSignalAnalyzer.init gp code period)) ->
  derived r = [].
Proof.
  unfold StockSignalAnalyzer.init; cbn [StockSignalAnalyzer.df].
  exact (fresh_rows_have_no_indicators gp code period r).
Qed.

(** X6: in app2.py, [analyze] on a freshly constructed analyzer with at
    least 30 bars raises KeyError('MA5'): [calculate_all_indicators] has to be
    called first. *)
Theorem app2_analyze_needs_indicators (gp : price_source) (code : string) (period : Z)
    (now : string) :
  let analyzer := StockSignalAnalyzer.init gp code period in
  StockSignalAnalyzer.too_short (StockSignalAnalyzer.df analyzer) = false ->
  StockSignalAnalyzer.analyze analyzer now = Raise (KeyError "MA5").
Proof.
  intros analyzer Hshort. unfold StockSignalAnalyzer.analyze. rewrite Hshort.
  unfold StockSignalAnalyzer._analyze_signals.
  destruct (long_frame_rows (StockSignalAnalyzer.df analyzer) Hshort)
    as [latest [prev [H1 [H2 [Hin _]]]]].
  rewrite H1, H2. cbn [bind].
  apply app2_fresh_rows in Hin.
  unfold StockSignalAnalyzer._analyze_trend, getitem. rewrite Hin. reflexivity.
Qed.


Lemma analysis_is_well_formed_witness :
  exists c t p pc v i a rk s,
    StockAnalyzer.analyze
      (snd (StockAnalyzer.calculate_indicators
              (StockAnalyzer.init Samples.get_price "sh600519" 120)))
      (Samples.clock 1)
    = Ret (Populated c t p pc v i a rk s)
    /\ 0 <= confidence_score a <= 100
    /\ (action a = "BUY"%string <-> 60 <= confidence_score a).
Proof.
  destruct (StockAnalyzer.analyze
              (snd (StockAnalyzer.calculate_indicators
                      (StockAnalyzer.init Samples.get_price "sh600519" 120)))
              (Samples.clock 1))
    as [[c t p pc v i a rk s | c e t s] | e] eqn:E.
  - exists c, t, p, pc, v, i, a, rk, s. split; [reflexivity |].
    destruct (analysis_is_well_formed _ _ _ _ _ _ _ _ _ _ _ E) as [H1 [H2 _]].
    split; assumption.
  - vm_compute in E. discriminate.
  - vm_compute in E. discriminate.
Defined.

Lemma analysis_before_indicators_witness :
  exists c t p pc v i a rk s,
    StockAnalyzer.analyze (StockAnalyzer.init Samples.get_price "sh600519" 120)
                          (Samples.clock 1)
    = Ret (Populated c t p pc v i a rk s)
    /\ confidence_score a <= 35 /\ action a = "SELL"%string.
Proof.
  destruct (StockAnalyzer.analyze (StockAnalyzer.init Samples.get_price "sh600519" 120)
                                  (Samples.clock 1))
    as [[c t p pc v i a rk s | c e t s] | e] eqn:E.
  - exists c, t, p, pc, v, i, a, rk, s. split; [reflexivity |].
    destruct (analysis_before_indicators _ _ _ _ _ _ _ _ _ _ _ _ _ E) as [H1 [H2 _]].
    split; assumption.
  - vm_compute in E. discriminate.
  - vm_compute in E. discriminate.
Defined.

Lemma calculate_indicators_keeps_bars_witness :
  let self := StockAnalyzer.init Samples.get_price "sh600519" 120 in
  exists self',
    StockAnalyzer.calculate_indicators self = (true, self')
    /\ length (StockAnalyzer.df self') = 30%nat
    /\ StockAnalyzer.calculate_indicators self' = (true, self').
Proof.
  intros self.
  destruct (StockAnalyzer.calculate_indicators self) as [[|] self'] eqn:E.
  - exists self'. split; [reflexivity |].
    destruct (calculate_indicators_keeps_bars self self' E) as [H1 [_ [_ H4]]].
    split; [rewrite H1; vm_compute; reflexivity | exact H4].
  - unfold StockAnalyzer.calculate_indicators in E.
    replace (StockAnalyzer.too_short (StockAnalyzer.df self)) with false in E
      by (vm_compute; reflexivity).
    discriminate.
Defined.


Lemma app2_analyze_needs_indicators_witness :
  StockSignalAnalyzer.too_short
    (StockSignalAnalyzer.df (StockSignalAnalyzer.init Samples.get_price "sz000858" 120))
  = false
  /\ StockSignalAnalyzer.analyze
       (StockSignalAnalyzer.init Samples.get_price "sz000858" 120) (Samples.clock 1)
     = Raise (KeyError "MA5").
Proof.
  assert (H : StockSignalAnalyzer.too_short
                (StockSignalAnalyzer.df
                   (StockSignalAnalyzer.init Samples.get_price "sz000858" 120)) = false)
    by (vm_compute; reflexivity).
  split; [exact H |].
  exact (app2_analyze_needs_indicators Samples.get_price "sz000858" 120 (Samples.clock 1) H).
Defined.

(* ===================================================================== *)
(** ** The cache of app2.py *)
(* ===================================================================== *)

Lemma dict_get_set_same {V} k (v : V) d : Dict.get k (Dict.set k v d) = Some v.
Proof.
  induction d as [| [k' v'] d IH]; cbn.
  - now rewrite String.eqb_refl.
  - destruct (String.eqb k k') eqn:E; cbn; [now rewrite String.eqb_refl | now rewrite E].
Qed.

Lemma dict_get_set_other {V} k k' (v : V) d :
  k <> k' -> Dict.get k' (Dict.set k v d) = Dict.get k' d.
Proof.
  intros Hne. induction d as [| [k0 v0] d IH]; cbn.
  - destruct (String.eqb k' k) eqn:E; [apply String.eqb_eq in E; congruence | reflexivity].
  - destruct (String.eqb k k0) eqn:E; cbn.
    + apply String.eqb_eq in E. subst k0.
      destruct (String.eqb k' k) eqn:E'; [apply String.eqb_eq in E'; congruence | reflexivity].
    + destruct (String.eqb k' k0); [reflexivity | exact IH].
Qed.

Lemma dict_get_del_same {V} k (d : Dict.dict V) : Dict.get k (Dict.del k d) = None.
Proof.
  induction d as [| [k' v'] d IH]; cbn; [reflexivity |].
  destruct (String.eqb k k') eqn:E; cbn; [exact IH | now rewrite E].
Qed.

Lemma dict_get_del_other {V} k k' (d : Dict.dict V) :
  k <> k' -> Dict.get k' (Dict.del k d) = Dict.get k' d.
Proof.
  intros Hne. induction d as [| [k0 v0] d IH]; cbn; [reflexivity |].
  destruct (String.eqb k k0) eqn:E; cbn.
  - apply String.eqb_eq in E. subst k0.
    destruct (String.eqb k' k) eqn:E'; [apply String.eqb_eq in E'; congruence | exact IH].
  - destruct (String.eqb k' k0); [reflexivity | exact IH].
Qed.

(** X8: a value stored by [set] is returned by every [get] made less than
    [ttl] seconds later, and the cache is left alone; the first [get] made
    [ttl] seconds later or more returns None and deletes the entry, so that
    no later [get] finds it, whatever the clock says then. *)
Theorem cache_hit_until_expiry {V} (self : CacheManager.t V) (now now' : fnum)
    (key : string) (value : V) :
  let c := CacheManager.set self now key value in
  ((now' - now <? CacheManager.ttl self)%F = true ->
     CacheManager.get c now' key = (Some value, c))
  /\ ((now' - now <? CacheManager.ttl self)%F = false ->
       fst (CacheManager.get c now' key) = None
       /\ Dict.get key (CacheManager.cache (snd (CacheManager.get c now' key))) = None
       /\ forall later, fst (CacheManager.get (snd (CacheManager.get c now' key)) later key)
                        = None).
Proof.
  intros c. unfold CacheManager.get. subst c. cbn [CacheManager.set CacheManager.cache CacheManager.ttl].
  rewrite dict_get_set_same.
  split; intros H; rewrite H.
  - reflexivity.
  - cbn [fst snd CacheManager.cache]. rewrite dict_get_del_same. auto.
Qed.

(** X9: storing under one key, or reading it (which may delete it), does
    not change what [get] returns for any other key. *)
Theorem cache_keys_are_independent {V} (self : CacheManager.t V) (now later : fnum)
    (key other : string) (value : V) :
  key <> other ->
  fst (CacheManager.get (CacheManager.set self now key value) later other)
  = fst (CacheManager.get self later other)
  /\ fst (CacheManager.get (snd (CacheManager.get self now key)) later other)
     = fst (CacheManager.get self later other).
Proof.
  intros Hne. unfold CacheManager.get, CacheManager.set.
  cbn [CacheManager.cache CacheManager.ttl]. split.
  - rewrite dict_get_set_other by exact Hne.
    destruct (Dict.get other (CacheManager.cache self)) as [[d ts] |]; [| reflexivity].
    destruct (later - ts <? CacheManager.ttl self)%F; reflexivity.
  - destruct (Dict.get key (CacheManager.cache self)) as [[d ts] |] eqn:E.
    + destruct (now - ts <? CacheManager.ttl self)%F; cbn [snd CacheManager.cache CacheManager.ttl].
      * reflexivity.
      * rewrite dict_get_del_other by exact Hne.
        destruct (Dict.get other (CacheManager.cache self)) as [[d' ts'] |]; [| reflexivity].
        destruct (later - ts' <? CacheManager.ttl self)%F; reflexivity.
    + reflexivity.
Qed.

Lemma cached_fetch_on_miss gp (cache : CacheManager.t DataFrame) now now' code period :
  fst (CacheManager.get cache now (CacheManager.cache_key code period)) = None ->
  let c0 := snd (CacheManager.get cache now (CacheManager.cache_key code period)) in
  let d := StockAnalyzer._fetch_data gp code period in
  CacheManager._fetch_data gp cache now now' code period
  = (d, match d with
        | [] => c0
        | _ => CacheManager.set c0 now' (CacheManager.cache_key code period) d
        end).
Proof.
  intros Hmiss c0 d. subst c0 d. unfold CacheManager._fetch_data, StockAnalyzer._fetch_data.
  destruct (CacheManager.get cache now (CacheManager.cache_key code period)) as [o c0].
  cbn [fst snd] in *. subst o.
  destruct (gp code period) as [bars | e]; [| reflexivity].
  destruct bars as [| b bars]; [reflexivity |].
  destruct b as [[[[o h] l] cl] v]. reflexivity.
Qed.

Lemma get_miss_leaves_no_entry {V} (cache : CacheManager.t V) now key :
  fst (CacheManager.get cache now key) = None ->
  Dict.get key (CacheManager.cache (snd (CacheManager.get cache now key))) = None
  /\ CacheManager.ttl (snd (CacheManager.get cache now key)) = CacheManager.ttl cache.
Proof.
  unfold CacheManager.get.
  destruct (Dict.get key (CacheManager.cache cache)) as [[d ts] |] eqn:E.
  - destruct (now - ts <? CacheManager.ttl cache)%F; cbn [fst snd CacheManager.cache CacheManager.ttl].
    + discriminate.
    + intros _. split; [apply dict_get_del_same | reflexivity].
  - cbn [fst snd]. intros _. split; [exact E | reflexivity].
Qed.

(** X10: when [_fetch_data] of app2.py misses the cache, a frame it gets
    that is not empty is served to the next [_fetch_data] for the same symbol
    and period made within [ttl], without asking the price source; an empty
    frame (nothing returned, or the source failed) is not cached and the next
    call asks the source again. *)
Theorem fetch_is_cached (gp gp2 : string -> Z -> M (list (fnum * fnum * fnum * fnum * fnum)))
    (cache : CacheManager.t DataFrame) (now now' later later' : fnum)
    (code : string) (period : Z) :
  let key := CacheManager.cache_key code period in
  let d := fetched_frame gp cache now now' code period in
  let c := cache_after gp cache now now' code period in
  fst (CacheManager.get cache now key) = None ->
  (d <> [] -> (later - now' <? CacheManager.ttl cache)%F = true ->
     CacheManager._fetch_data gp2 c later later' code period = (d, c))
  /\ (d = [] -> Dict.get key (CacheManager.cache c) = None
               /\ fetched_frame gp2 c later later' code period
                  = StockAnalyzer._fetch_data gp2 code period).
Proof.
  intros key d c Hmiss. subst d c. unfold fetched_frame, cache_after.
  rewrite (cached_fetch_on_miss gp cache now now' code period Hmiss). cbn [fst snd].
  destruct (get_miss_leaves_no_entry cache now key Hmiss) as [Hnone Httl]. fold key in Hnone, Httl |- *.
  set (c0 := snd (CacheManager.get cache now key)) in *.
  set (d := StockAnalyzer._fetch_data gp code period).
  split.
  - intros Hd Hlive. destruct d as [| r d'] eqn:Ed; [congruence |].
    unfold CacheManager._fetch_data. fold key.
    unfold CacheManager.get at 1. cbn [CacheManager.set CacheManager.cache CacheManager.ttl].
    rewrite dict_get_set_same, Httl, Hlive. reflexivity.
  - intros Hd. rewrite Hd. split; [exact Hnone |].
    assert (Hm : fst (CacheManager.get c0 later key) = None).
    { unfold CacheManager.get. rewrite Hnone. reflexivity. }
    rewrite (cached_fetch_on_miss gp2 c0 later later' code period Hm). reflexivity.
Qed.

Lemma digits_have_no_underscore (d : Decimal.uint) :
  has_char underscore (DecimalString.NilEmpty.string_of_uint d) = false.
Proof. induction d; cbn; auto. Qed.

Lemma int_has_no_underscore (z : Z) :
  has_char underscore (DecimalString.NilZero.string_of_int (Z.to_int z)) = false.
Proof.
  assert (H : forall u, has_char underscore (DecimalString.NilZero.string_of_uint u) = false).
  { intros u. destruct u; try reflexivity; apply (digits_have_no_underscore (_ u)). }
  destruct z; cbn [Z.to_int DecimalString.NilZero.string_of_int].
  - reflexivity.
  - apply H.
  - cbn [has_char]. rewrite H. reflexivity.
Qed.

Lemma string_of_int_inj (a b : Z) :
  DecimalString.NilZero.string_of_int (Z.to_int a)
  = DecimalString.NilZero.string_of_int (Z.to_int b) -> a = b.
Proof.
  intros H. apply DecimalZ.to_int_inj.
  assert (Hn : forall z, Z.to_int z <> Decimal.Pos Decimal.Nil
                         /\ Z.to_int z <> Decimal.Neg Decimal.Nil).
  { intros z. destruct z; cbn [Z.to_int]; split; try discriminate;
      intros X; injection X as X; exact (DecimalPos.Unsigned.to_uint_nonnil _ X). }
  pose proof (DecimalString.NilZero.isi (Z.to_int a) (proj1 (Hn a)) (proj2 (Hn a))) as Ha.
  pose proof (DecimalString.NilZero.isi (Z.to_int b) (proj1 (Hn b)) (proj2 (Hn b))) as Hb.
  rewrite H in Ha. congruence.
Qed.

Lemma has_char_app (c : Ascii.ascii) (s t : string) :
  has_char c (s ++ t) = has_char c s || has_char c t.
Proof.
  induction s as [| a s IH]; cbn [append has_char]; [reflexivity |].
  rewrite IH. now rewrite orb_assoc.
Qed.

Lemma split_at_last_underscore (c1 c2 n1 n2 : string) :
  has_char underscore n1 = false -> has_char underscore n2 = false ->
  (c1 ++ "_" ++ n1)%string = (c2 ++ "_" ++ n2)%string -> c1 = c2 /\ n1 = n2.
Proof.
  intros H1 H2. revert c2.
  induction c1 as [| a c1 IH]; intros [| b c2] H; cbn [append] in H.
  - injection H as H. auto.
  - injection H as Ha Hn. subst n1. rewrite has_char_app in H1. cbn in H1.
    rewrite orb_true_r in H1. discriminate.
  - injection H as Ha Hn. subst n2. rewrite has_char_app in H2. cbn in H2.
    rewrite orb_true_r in H2. discriminate.
  - injection H as Ha Hr. destruct (IH _ Hr) as [-> ->]. subst. auto.
Qed.

(** X11: two analyzers share a cache key exactly when they have the same
    symbol and the same period: the key determines both. *)
Theorem cache_key_injective (code1 code2 : string) (period1 period2 : Z) :
  CacheManager.cache_key code1 period1 = CacheManager.cache_key code2 period2
  <-> code1 = code2 /\ period1 = period2.
Proof.
  split; [| intros [-> ->]; reflexivity].
  unfold CacheManager.cache_key. intros H.
  assert (H' : (code1 ++ "_" ++ DecimalString.NilZero.string_of_int (Z.to_int period1))%string
               = (code2 ++ "_" ++ DecimalString.NilZero.string_of_int (Z.to_int period2))%string).
  { cbn [append] in H. injection H as H. exact H. }
  apply split_at_last_underscore in H'; try apply int_has_no_underscore.
  destruct H' as [Hc Hp]. split; [exact Hc | now apply string_of_int_inj].
Qed.

Lemma cache_hit_until_expiry_witness :
  let c := CacheManager.set (CacheManager.init (of_Z 300)) (of_Z 1000) "k" 7 in
  CacheManager.get c (of_Z 1299) "k" = (Some 7, c)
  /\ fst (CacheManager.get c (of_Z 1300) "k") = None.
Proof.
  intros c. split.
  - apply (proj1 (cache_hit_until_expiry (CacheManager.init (of_Z 300)) (of_Z 1000)
                    (of_Z 1299) "k"%string 7)).
    vm_compute. reflexivity.
  - apply (proj2 (cache_hit_until_expiry (CacheManager.init (of_Z 300)) (of_Z 1000)
                    (of_Z 1300) "k"%string 7)).
    vm_compute. reflexivity.
Defined.

Lemma cache_keys_are_independent_witness :
  let c := CacheManager.set (CacheManager.init (of_Z 300)) (of_Z 0) "b" 1 in
  "a"%string <> "b"%string
  /\ fst (CacheManager.get (CacheManager.set c (of_Z 10) "a" 2) (of_Z 20) "b") = Some 1.
Proof.
  intros c.
  assert (H : "a"%string <> "b"%string) by discriminate.
  split; [exact H |].
  rewrite (proj1 (cache_keys_are_independent c (of_Z 10) (of_Z 20) "a" "b" 2 H)).
  reflexivity.
Defined.

Lemma fetch_is_cached_witness :
  let first := CacheManager._fetch_data Samples.get_price (CacheManager.init (of_Z 300))
                 (of_Z 0) (of_Z 1) "sz300750" 120 in
  length (fst first) = 12%nat
  /\ CacheManager._fetch_data (fun _ _ => Raise ProviderError) (snd first)
       (of_Z 100) (of_Z 101) "sz300750" 120
     = first.
Proof.
  intros first.
  assert (Hlen : length (fst first) = 12%nat) by (vm_compute; reflexivity).
  split; [exact Hlen |].
  rewrite (surjective_pairing first) at 2.
  apply (proj1 (fetch_is_cached Samples.get_price (fun _ _ => Raise ProviderError)
                  (CacheManager.init (of_Z 300)) (of_Z 0) (of_Z 1) (of_Z 100) (of_Z 101)
                  "sz300750" 120 eq_refl)).
  - intros X. fold first in X. unfold fetched_frame in X. fold first in X.
    rewrite X in Hlen. discriminate.
  - vm_compute. reflexivity.
Defined.

(* ===================================================================== *)
(** ** Realtime analysis *)
(* ===================================================================== *)

Lemma flt_asym (a b : fnum) : flt a b = true -> flt b a = false.
Proof.
  unfold flt. destruct a as [x | | |], b as [y | | |]; try congruence; try reflexivity.
  intros H. apply Qltb_lt in H. apply Qltb_ge. lra.
Qed.

Lemma realtime_signals_cases (rd : Realtime.realtime_data) (day : Result)
    (s : Realtime.rt_signals) :
  Realtime._generate_realtime_signals rd day = Ret s ->
  Realtime.warning_signals s = []
  /\ ((Realtime.buy_signals s = [] /\ Realtime.sell_signals s = [])
      \/ (Realtime.buy_signals s = ["放量上涨"%string] /\ Realtime.sell_signals s = []
          /\ 3 <= Z.of_nat (length (kline_of rd)))
      \/ (Realtime.buy_signals s = [] /\ Realtime.sell_signals s = ["放量下跌"%string]
          /\ 3 <= Z.of_nat (length (kline_of rd))))
  /\ Realtime.overall_signal s
     = (if match day_action day with Some a => String.eqb a "BUY" | None => false end
           && negb (match Realtime.buy_signals s with [] => true | _ => false end)
        then "BUY"
        else if match day_action day with Some a => String.eqb a "SELL" | None => false end
                && negb (match Realtime.sell_signals s with [] => true | _ => false end)
        then "SELL" else "HOLD")%string.
Proof.
  unfold Realtime._generate_realtime_signals.
  destruct rd as [e | fr dc dl lt kl sm].
  { intros H. apply (f_equal (fun m => match m with Ret x => Some x | _ => None end)) in H.
    injection H as <-. cbn. split; [reflexivity |]. split; [auto |].
    now rewrite !andb_false_r. }
  destruct kl as [| k0 kl].
  { intros H. apply (f_equal (fun m => match m with Ret x => Some x | _ => None end)) in H.
    injection H as <-. cbn. split; [reflexivity |]. split; [auto |].
    now rewrite !andb_false_r. }
  destruct (Z.of_nat (length (k0 :: kl)) <? 3) eqn:Hlen.
  { intros H. apply (f_equal (fun m => match m with Ret x => Some x | _ => None end)) in H.
    injection H as <-. cbn. split; [reflexivity |]. split; [auto |].
    now rewrite !andb_false_r. }
  apply Z.ltb_ge in Hlen. cbn [kline_of].
  destruct (iloc (k0 :: kl) (-1)) as [latest | e]; cbn [bind]; [| discriminate].
  destruct (iloc (k0 :: kl) (-2)) as [prev | e]; cbn [bind]; [| discriminate].
  cbn [Realtime.buy_signals Realtime.sell_signals Realtime.warning_signals
       Realtime.overall_signal app].
  set (big := (of_Z (Realtime.k_volume latest) >? of_Z (Realtime.k_volume prev) * dec 15 1)%F).
  assert (Hex : (Realtime.change_percent latest >? of_Z 0)%F = true ->
                (Realtime.change_percent latest <? of_Z 0)%F = false).
  { unfold fgt. apply flt_asym. }
  destruct big; cbn [andb];
    destruct (Realtime.change_percent latest >? of_Z 0)%F eqn:Hup;
    [rewrite (Hex eq_refl) | | | ];
    destruct day as [c t p pc v i a rk [[|] |] | c er t [[|] |]];
    cbn [get_success day_action];
    try destruct (Realtime.change_percent latest <? of_Z 0)%F;
    try destruct (String.eqb (action a) "BUY") eqn:Hb;
    try destruct (String.eqb (action a) "SELL") eqn:Hs;
    cbn [bind andb length Z.of_nat Z.ltb Z.compare negb Pos.of_succ_nat];
    try discriminate;
    intros H; apply (f_equal (fun m => match m with Ret x => Some x | _ => None end)) in H;
    injection H as <-; cbn [Realtime.buy_signals Realtime.sell_signals
                            Realtime.warning_signals Realtime.overall_signal negb andb];
    (split; [reflexivity |]); (split; [| reflexivity]); auto 6.
Qed.

(** X12: the signals of [_generate_realtime_signals]: never both a buy and
    a sell signal, at most 放量上涨 on one side and 放量下跌 on the other, no
    warning ever; the overall signal is BUY exactly when the day analysis says
    BUY and there is a buy signal, SELL exactly when it says SELL and there is
    a sell signal, HOLD otherwise; with fewer than three bars there is no
    signal at all. *)
Theorem realtime_signals_shape (rd : Realtime.realtime_data) (day : Result)
    (s : Realtime.rt_signals) :
  Realtime._generate_realtime_signals rd day = Ret s ->
  (Realtime.buy_signals s = [] \/ Realtime.sell_signals s = [])
  /\ (Realtime.buy_signals s = [] \/ Realtime.buy_signals s = ["放量上涨"%string])
  /\ (Realtime.sell_signals s = [] \/ Realtime.sell_signals s = ["放量下跌"%string])
  /\ Realtime.warning_signals s = []
  /\ (Realtime.overall_signal s = "BUY"%string <->
      day_action day = Some "BUY"%string /\ Realtime.buy_signals s <> [])
  /\ (Realtime.overall_signal s = "SELL"%string <->
      day_action day = Some "SELL"%string /\ Realtime.sell_signals s <> [])
  /\ (Realtime.overall_signal s <> "BUY"%string ->
      Realtime.overall_signal s <> "SELL"%string ->
      Realtime.overall_signal s = "HOLD"%string)
  /\ (Z.of_nat (length (kline_of rd)) < 3 ->
      Realtime.buy_signals s = [] /\ Realtime.sell_signals s = []
      /\ Realtime.overall_signal s = "HOLD"%string).
Proof.
  intros H. apply realtime_signals_cases in H. destruct H as [Hw [Hc Ho]].
  assert (Hact : forall x, (match day_action day with
                            | Some a => String.eqb a x | None => false end) = true
                           <-> day_action day = Some x).
  { intros x. destruct (day_action day) as [a |].
    - rewrite String.eqb_eq. split; congruence.
    - split; discriminate. }
  destruct (match day_action day with Some a => String.eqb a "BUY" | None => false end)
    eqn:Eb;
  destruct (match day_action day with Some a => String.eqb a "SELL" | None => false end)
    eqn:Es;
  try (apply Hact in Eb); try (apply Hact in Es);
  try (assert (Eb' : day_action day <> Some "BUY"%string)
         by (intros X; apply Hact in X; congruence));
  try (assert (Es' : day_action day <> Some "SELL"%string)
         by (intros X; apply Hact in X; congruence));
  destruct Hc as [[Hb Hs] | [[Hb [Hs Hl]] | [Hb [Hs Hl]]]];
    rewrite Hb, Hs in *; cbn [negb andb] in Ho; rewrite Ho;
    repeat match goal with
           | |- _ /\ _ => split
           | |- _ <-> _ => split
           end;
    try (intros; discriminate); try (intros; reflexivity); try (intros; lia);
    try (now left); try (now right); try congruence;
    try (intros [? ?]; congruence); try (intros; exfalso; congruence).
  all: intros; repeat split; auto; discriminate.
Qed.

Lemma fresh_confidence_low gp code period (latest prev : row) :
  In latest (StockAnalyzer.df (StockAnalyzer.init gp code period)) ->
  In prev (StockAnalyzer.df (StockAnalyzer.init gp code period)) ->
  StockAnalyzer._calculate_confidence (StockAnalyzer._analyze_signals latest prev) <= 35.
Proof.
  intros H1 H2.
  apply fresh_rows_have_no_indicators in H1.
  apply fresh_rows_have_no_indicators in H2.
  rewrite canonical_confidence_is_sum by apply canonical_signals_scored.
  pose proof (default_scores latest prev H1 H2) as Hs.
  unfold values in Hs. cbn [map] in Hs.
  injection Hs as Ht Hm Hv Ho Hp.
  unfold spec_confidence. rewrite Ht, Hm, Hv, Ho, Hp.
  destruct (close latest >? of_Z 0)%F;
    destruct ((close latest >? close prev)%F && (volume latest >? volume prev)%F);
    vm_compute; discriminate.
Qed.

Lemma fresh_analysis_never_buys gp code period (now : string) (r : Result) :
  StockAnalyzer.analyze (StockAnalyzer.init gp code period) now = Ret r ->
  day_action r <> Some "BUY"%string.
Proof.
  intros H. destruct r as [c t p pc v i a rk s | c er t s].
  - apply analyze_populated in H.
    destruct H as [latest [prev [_ [H1 [H2 [Hconf [Hch [_ [_ [_ [_ [_ [_ [_ Hs]]]]]]]]]]]]]].
    apply iloc_In in H1, H2.
    pose proof (fresh_confidence_low gp code period latest prev H1 H2) as Hle.
    rewrite <- Hconf in Hle.
    pose proof (choose_signal_action (confidence_score a)) as Hact.
    rewrite <- Hch in Hact. destruct Hact as [Hb _].
    subst s. cbn [day_action]. intros X. injection X as X. apply Hb in X. lia.
  - destruct s as [[|] |]; discriminate.
Qed.

Lemma analyze_realtime_never_buys gpm gp code period (clock : Realtime.readings)
    (minutes : Z) (ra : Realtime.realtime_analysis) :
  Realtime.analyze_realtime gpm (StockAnalyzer.init gp code period) clock minutes = Ret ra ->
  overall_of ra <> Some "BUY"%string.
Proof.
  unfold Realtime.analyze_realtime.
  destruct (Realtime.get_realtime_data _ _ _ _ _) as [e | fr dc dl lt kl sm].
  { intros H. apply (f_equal (fun m => match m with Ret x => Some x | _ => None end)) in H.
    injection H as <-. discriminate. }
  destruct (StockAnalyzer.analyze _ _) as [day | e] eqn:Hday; cbn [bind]; [| discriminate].
  destruct (Realtime._generate_realtime_signals _ _) as [s | e] eqn:Hs; cbn [bind];
    [| discriminate].
  intros H. apply (f_equal (fun m => match m with Ret x => Some x | _ => None end)) in H.
  injection H as <-. cbn [overall_of signals_of option_map].
  apply fresh_analysis_never_buys in Hday.
  apply realtime_signals_cases in Hs. destruct Hs as [_ [_ Ho]].
  rewrite Ho.
  destruct (day_action day) as [a |].
  - destruct (String.eqb a "BUY") eqn:E.
    + apply String.eqb_eq in E. congruence.
    + cbn [andb]. clear Ho. destruct (String.eqb a "SELL" && _); intros X; discriminate X.
  - cbn [andb]. intros X; discriminate X.
Qed.

Lemma analyze_realtime_signals gpm (self : StockAnalyzer.t) (clock : Realtime.readings)
    (minutes : Z) (ra : Realtime.realtime_analysis) (s : Realtime.rt_signals) :
  Realtime.analyze_realtime gpm self clock minutes = Ret ra ->
  signals_of ra = Some s ->
  exists rd day, Realtime._generate_realtime_signals rd day = Ret s.
Proof.
  unfold Realtime.analyze_realtime.
  destruct (Realtime.get_realtime_data _ _ _ _ _) as [e | fr dc dl lt kl sm].
  { intros H. apply (f_equal (fun m => match m with Ret x => Some x | _ => None end)) in H.
    injection H as <-. discriminate. }
  destruct (StockAnalyzer.analyze _ _) as [day | e] eqn:Hday; cbn [bind]; [| discriminate].
  destruct (Realtime._generate_realtime_signals _ _) as [s' | e] eqn:Hs; cbn [bind];
    [| discriminate].
  intros H. apply (f_equal (fun m => match m with Ret x => Some x | _ => None end)) in H.
  injection H as <-. cbn [signals_of]. intros X. injection X as <-. eauto.
Qed.

Lemma combined_confidence_bounds (ra : Realtime.realtime_analysis) (day : Result) :
  (forall s, signals_of ra = Some s ->
             exists rd d, Realtime._generate_realtime_signals rd d = Ret s) ->
  0 <= day_confidence day <= 100 ->
  0 <= Realtime._calculate_combined_confidence ra day <= 100
  /\ day_confidence day - 3 <= Realtime._calculate_combined_confidence ra day
     <= day_confidence day + 5.
Proof.
  intros Hs Hd. unfold Realtime._calculate_combined_confidence.
  fold (day_confidence day).
  destruct ra as [e | c t rd da s]; cbn [length Z.of_nat].
  - lia.
  - destruct (Hs s eq_refl) as [rd' [d' Hg]].
    apply realtime_signals_cases in Hg.
    destruct Hg as [_ [[[Hb Hl] | [[Hb [Hl _]] | [Hb [Hl _]]]] _]];
      rewrite Hb, Hl; cbn [length Z.of_nat Pos.of_succ_nat]; lia.
Qed.

Lemma realtime_one_adds gpm gp (self : BatchStockAnalyzer.t) (minutes : Z)
    (clock : Realtime.readings) (code : string) (acc l : list Realtime.combined_result) :
  Realtime.realtime_one gpm gp self minutes clock code acc = Ret l ->
  l = acc
  \/ exists r, l = acc ++ [r] /\ Realtime.c_stock_code r = code /\ sound_entry r.
Proof.
  unfold Realtime.realtime_one.
  destruct (Realtime.analyze_realtime _ _ _ _) as [ra | e] eqn:Hra; cbn [bind];
    [| discriminate].
  destruct (StockAnalyzer.too_short _) eqn:Hshort.
  { intros H. left. congruence. }
  unfold StockAnalyzer.calculate_indicators. rewrite Hshort. cbn [negb].
  destruct (StockAnalyzer.analyze _ _) as [day | e] eqn:Hday; cbn [bind]; [| discriminate].
  destruct (get_success day) eqn:Hsucc; [| intros H; left; congruence].
  intros H. apply (f_equal (fun m => match m with Ret x => x | _ => [] end)) in H.
  cbv beta iota in H. subst l. right. eexists. split; [reflexivity |].
  cbn [Realtime.c_stock_code]. split; [reflexivity |].
  unfold sound_entry.
  cbn [Realtime.c_day_analysis Realtime.c_stock_code Realtime.combined_confidence
       Realtime.c_realtime_analysis].
  destruct day as [c t p pc v i a rk s | c er t s].
  2:{ apply (f_equal (fun m => match m with
                               | Ret (EmptyResult _ _ _ s) => s | _ => None end)) in Hday.
      unfold StockAnalyzer.analyze in Hday.
      destruct (StockAnalyzer.too_short _) in Hday.
      - cbn in Hday. subst s. discriminate.
      - destruct (iloc _ (-1)) as [la |]; cbn [bind] in Hday;
          [| subst s; discriminate].
        destruct (iloc _ (-2)) as [pr |]; cbn [bind] in Hday;
          [| subst s; discriminate].
        unfold StockAnalyzer._generate_result in Hday.
        destruct (StockAnalyzer.choose_signal _) as [[? ?] ?].
        destruct (py_int _); cbn [bind] in Hday; subst s; discriminate. }
  apply analyze_populated in Hday.
  destruct Hday as [latest [prev [_ [_ [_ [Hconf [_ [_ [_ [_ [_ [_ [Hc _]]]]]]]]]]]]].
  assert (Hb : 0 <= day_confidence (Populated c t p pc v i a rk s) <= 100).
  { cbn [day_confidence]. rewrite Hconf. apply canonical_confidence_bounds. }
  pose proof (combined_confidence_bounds ra (Populated c t p pc v i a rk s)
                (fun s0 => analyze_realtime_signals gpm _ clock minutes ra s0 Hra) Hb)
    as [Hc1 Hc2].
  split; [reflexivity |]. split; [exact Hsucc |].
  split; [cbn [result_code]; rewrite Hc; reflexivity |].
  split; [exact Hb |]. split; [exact Hc1 |]. split; [exact Hc2 |].
  eapply analyze_realtime_never_buys; exact Hra.
Qed.

Lemma realtime_loop_sound gpm gp (self : BatchStockAnalyzer.t) (minutes : Z)
    (clock : Z -> Realtime.readings) (codes : list string) :
  forall (i : Z) (acc : list Realtime.combined_result) (seen : list string),
    Forall sound_entry acc ->
    (exists picks, map Realtime.c_stock_code acc = picks /\ incl picks seen
                   /\ (length picks <= length seen)%nat) ->
    let out := Realtime.realtime_loop gpm gp self minutes clock i codes acc in
    Forall sound_entry out
    /\ incl (map Realtime.c_stock_code out) (seen ++ codes)
    /\ (length out <= length seen + length codes)%nat.
Proof.
  induction codes as [| code rest IH]; intros i acc seen Hacc [picks [Hp [Hin Hlen]]]; cbn.
  - rewrite app_nil_r. subst picks. rewrite length_map in Hlen. split; [exact Hacc |].
    split; [exact Hin | lia].
  - set (acc' := match Realtime.realtime_one gpm gp self minutes (clock i) code acc with
                 | Ret l => l | Raise _ => acc end).
    assert (Hcase : acc' = acc
                    \/ exists r, acc' = acc ++ [r] /\ Realtime.c_stock_code r = code
                                 /\ sound_entry r).
    { subst acc'. destruct (Realtime.realtime_one _ _ _ _ _ _ _) as [l | e] eqn:E;
        [apply realtime_one_adds in E; exact E | now left]. }
    specialize (IH (i + 1) acc' (seen ++ [code])).
    replace ((seen ++ [code]) ++ rest) with (seen ++ code :: rest) in IH
      by (rewrite <- app_assoc; reflexivity).
    replace (length (seen ++ [code]) + length rest)%nat
      with (length seen + S (length rest))%nat in IH
      by (rewrite length_app; cbn; lia).
    subst picks. rewrite length_map in Hlen.
    apply IH.
    + destruct Hcase as [-> | [r [-> [_ Hr]]]]; [exact Hacc |].
      apply Forall_app. split; [exact Hacc | constructor; [exact Hr | constructor]].
    + eexists. split; [reflexivity |].
      destruct Hcase as [-> | [r [-> [Hr _]]]].
      * split; [intros x Hx; apply in_or_app; left; now apply Hin |].
        rewrite length_map, length_app. cbn. lia.
      * rewrite map_app. cbn [map]. rewrite Hr. split.
        -- intros x Hx. apply in_app_or in Hx. apply in_or_app.
           destruct Hx as [Hx | Hx]; [left; now apply Hin | now right].
        -- rewrite !length_app, length_map. cbn. lia.
Qed.

Lemma slice_to_incl {A} (l : list A) (n : Z) : incl (slice_to l n) l.
Proof.
  unfold slice_to. intros x Hx.
  destruct (n <? 0); eapply In_firstn; exact Hx.
Qed.

Lemma slice_to_length {A} (l : list A) (n : Z) :
  0 <= n -> Z.of_nat (length (slice_to l n)) <= n.
Proof.
  intros Hn. unfold slice_to.
  destruct (n <? 0) eqn:E; [apply Z.ltb_lt in E; lia |].
  rewrite length_firstn. lia.
Qed.

(** X13: [analyze_with_realtime] looks at the first 50 symbols only and
    returns no more entries than it looks at; an entry carries a successful day
    analysis of its own symbol with a confidence from 0 to 100, a combined
    confidence from 0 to 100 that is at most 3 below and 5 above the day's,
    and a realtime analysis whose overall signal is never BUY: it is computed
    before [calculate_indicators], on the defaults. *)
Theorem analyze_with_realtime_entries gpm gp (self : BatchStockAnalyzer.t)
    (stock_codes : option (list string)) (realtime_minutes : Z)
    (clock : Z -> Realtime.readings) :
  let codes := match stock_codes with
               | Some l => l
               | None => BatchStockAnalyzer.stock_list self
               end in
  let out := Realtime.analyze_with_realtime gpm gp self stock_codes realtime_minutes clock in
  Z.of_nat (length out) <= 50
  /\ (length out <= length codes)%nat
  /\ incl (map Realtime.c_stock_code out) (firstn 50 codes)
  /\ Forall sound_entry out.
Proof.
  intros codes out. subst out. unfold Realtime.analyze_with_realtime. cbv zeta.
  fold codes.
  destruct (realtime_loop_sound gpm gp self realtime_minutes clock (slice_to codes 50)
              0 [] [] (Forall_nil _)) as [Hs [Hi Hl]].
  { exists []. split; [reflexivity |]. split; [intros x [] | cbn; lia]. }
  cbn [app] in Hi.
  change (@length string [] + length (slice_to codes 50))%nat
    with (length (slice_to codes 50)) in Hl.
  pose proof (slice_to_length codes 50 ltac:(lia)) as H50.
  assert (Hsl : slice_to codes 50 = firstn 50 codes) by reflexivity.
  split; [lia |]. split.
  - pose proof (length_firstn 50 codes) as Hf. rewrite <- Hsl in Hf. lia.
  - split; [rewrite <- Hsl; exact Hi | exact Hs].
Qed.

Lemma is_fin_qof (a : fnum) : is_fin a = true -> a = Fin (qof a).
Proof. destruct a; try discriminate. reflexivity. Qed.

Lemma fle_Fin (a b : Q) : fle (Fin a) (Fin b) = true <-> (a <= b)%Q.
Proof.
  unfold fle, flt, feq. rewrite orb_true_iff, Qltb_lt, Qeq_bool_iff. lra.
Qed.

Lemma fle_trans_fin (a b c : fnum) :
  is_fin a = true -> is_fin b = true -> is_fin c = true ->
  (a <=? b)%F = true -> (b <=? c)%F = true -> (a <=? c)%F = true.
Proof.
  destruct a as [x | | |], b as [y | | |], c as [z | | |]; try discriminate.
  intros _ _ _ H1 H2. apply fle_Fin in H1, H2. apply fle_Fin. lra.
Qed.

Lemma fold_pymax_fin (r : list fnum) :
  forall x, is_fin x = true -> Forall (fun y => is_fin y = true) r ->
  is_fin (fold_left pymax r x) = true
  /\ In (fold_left pymax r x) (x :: r)
  /\ forall y, In y (x :: r) -> (y <=? fold_left pymax r x)%F = true.
Proof.
  induction r as [| y r IH]; intros x Hx Hr.
  - cbn [fold_left]. split; [exact Hx |]. split; [now left |].
    intros y [<- | []]. rewrite (is_fin_qof x Hx). apply fle_Fin. lra.
  - inversion Hr as [| ? ? Hy Hr']; subst. cbn [fold_left].
    assert (Hm : is_fin (pymax x y) = true /\ (pymax x y = x \/ pymax x y = y)
                 /\ (x <=? pymax x y)%F = true /\ (y <=? pymax x y)%F = true).
    { rewrite (is_fin_qof x Hx), (is_fin_qof y Hy). unfold pymax, fgt, flt.
      destruct (Qltb (qof x) (qof y)) eqn:E;
        [apply Qltb_lt in E | apply Qltb_ge in E];
        (split; [reflexivity |]); (split; [auto |]); split; apply fle_Fin; lra. }
    destruct Hm as [Hf [Hor [Hxm Hym]]].
    destruct (IH (pymax x y) Hf Hr') as [H1 [H2 H3]].
    split; [exact H1 |]. split.
    + destruct H2 as [H2 | H2]; [| right; now right].
      rewrite <- H2. destruct Hor as [-> | ->]; [now left | right; now left].
    + assert (Htr : forall z, is_fin z = true -> (z <=? pymax x y)%F = true ->
                              (z <=? fold_left pymax r (pymax x y))%F = true).
      { intros z Hz Hzm. pose proof (H3 (pymax x y) (or_introl eq_refl)) as Hmm.
        exact (fle_trans_fin _ _ _ Hz Hf H1 Hzm Hmm). }
      intros z [<- | [<- | Hz]]; [now apply Htr | now apply Htr |].
      apply H3. now right.
Qed.

Lemma fold_pymin_fin (r : list fnum) :
  forall x, is_fin x = true -> Forall (fun y => is_fin y = true) r ->
  is_fin (fold_left pymin r x) = true
  /\ In (fold_left pymin r x) (x :: r)
  /\ forall y, In y (x :: r) -> (fold_left pymin r x <=? y)%F = true.
Proof.
  induction r as [| y r IH]; intros x Hx Hr.
  - cbn [fold_left]. split; [exact Hx |]. split; [now left |].
    intros y [<- | []]. rewrite (is_fin_qof x Hx). apply fle_Fin. lra.
  - inversion Hr as [| ? ? Hy Hr']; subst. cbn [fold_left].
    assert (Hm : is_fin (pymin x y) = true /\ (pymin x y = x \/ pymin x y = y)
                 /\ (pymin x y <=? x)%F = true /\ (pymin x y <=? y)%F = true).
    { rewrite (is_fin_qof x Hx), (is_fin_qof y Hy). unfold pymin, flt.
      destruct (Qltb (qof y) (qof x)) eqn:E;
        [apply Qltb_lt in E | apply Qltb_ge in E];
        (split; [reflexivity |]); (split; [auto |]); split; apply fle_Fin; lra. }
    destruct Hm as [Hf [Hor [Hxm Hym]]].
    destruct (IH (pymin x y) Hf Hr') as [H1 [H2 H3]].
    split; [exact H1 |]. split.
    + destruct H2 as [H2 | H2]; [| right; now right].
      rewrite <- H2. destruct Hor as [-> | ->]; [now left | right; now left].
    + assert (Htr : forall z, is_fin z = true -> (pymin x y <=? z)%F = true ->
                              (fold_left pymin r (pymin x y) <=? z)%F = true).
      { intros z Hz Hzm. pose proof (H3 (pymin x y) (or_introl eq_refl)) as Hmm.
        exact (fle_trans_fin _ _ _ H1 Hf Hz Hmm Hzm). }
      intros z [<- | [<- | Hz]]; [now apply Htr | now apply Htr |].
      apply H3. now right.
Qed.

Lemma realtime_summary_returns (kline : list Realtime.kbar) :
  kline <> [] ->
  exists latest high low s,
    iloc kline (-1) = Ret latest
    /\ Realtime.py_max (map Realtime.k_close kline) = Ret high
    /\ Realtime.py_min (map Realtime.k_close kline) = Ret low
    /\ Realtime._calculate_realtime_summary kline = Ret (Some s)
    /\ Realtime.latest_price s = Realtime.k_close latest
    /\ Realtime.latest_volume s = Realtime.k_volume latest
    /\ Realtime.s_high s = high /\ Realtime.s_low s = low
    /\ Realtime.total_volume s = Realtime.zsum (map Realtime.k_volume kline)
    /\ (Realtime.short_trend s = None <-> Z.of_nat (length kline) < 3).
Proof.
  intros Hne. destruct kline as [| k0 kl]; [congruence |].
  destruct (iloc_in_range (k0 :: kl) (-1)) as [latest [Hl _]]; [cbn; lia |].
  unfold Realtime._calculate_realtime_summary.
  rewrite Hl. cbn [bind map Realtime.py_max Realtime.py_min].
  set (closes := Realtime.k_close k0 :: map Realtime.k_close kl).
  assert (Hlen : length closes = length (k0 :: kl))
    by (subst closes; cbn [length]; now rewrite length_map).
  exists latest, (fold_left pymax (map Realtime.k_close kl) (Realtime.k_close k0)),
         (fold_left pymin (map Realtime.k_close kl) (Realtime.k_close k0)).
  destruct (3 <=? Z.of_nat (length closes)) eqn:H3;
    [apply Z.leb_le in H3 | apply Z.leb_gt in H3].
  - destruct (iloc_in_range closes (-1)) as [c1 [E1 _]]; [lia |].
    destruct (iloc_in_range closes (-2)) as [c2 [E2 _]]; [lia |].
    destruct (iloc_in_range closes (-3)) as [c3 [E3 _]]; [lia |].
    rewrite E1, E2, E3. cbn [bind].
    destruct (c1 >? c2)%F; cbn [bind];
      [destruct (c2 >? c3)%F; cbn [bind] |];
      try (destruct (c1 <? c2)%F; cbn [bind];
           [destruct (c2 <? c3)%F; cbn [bind] |]);
      eexists; (split; [reflexivity |]); (split; [reflexivity |]);
      (split; [reflexivity |]); (split; [reflexivity |]);
      cbn [Realtime.latest_price Realtime.latest_volume Realtime.s_high Realtime.s_low
           Realtime.total_volume Realtime.short_trend];
      repeat (split; [reflexivity |]); (split; [discriminate | lia]).
  - cbn [bind]. eexists. (split; [reflexivity |]); (split; [reflexivity |]);
      (split; [reflexivity |]); (split; [reflexivity |]).
    cbn [Realtime.latest_price Realtime.latest_volume Realtime.s_high Realtime.s_low
         Realtime.total_volume Realtime.short_trend].
    repeat (split; [reflexivity |]). split; [lia | reflexivity].
Qed.

(** X14: on bars with finite closes [_calculate_realtime_summary] returns
    a summary whose [high] and [low] are closes of the list and bound every
    close, the latest price among them; [total_volume] is the sum of the
    volumes and [short_trend] is missing exactly when there are fewer than
    three bars. *)
Theorem realtime_summary_bounds (kline : list Realtime.kbar) :
  kline <> [] ->
  Forall (fun k => is_fin (Realtime.k_close k) = true) kline ->
  exists s,
    Realtime._calculate_realtime_summary kline = Ret (Some s)
    /\ In (Realtime.s_high s) (map Realtime.k_close kline)
    /\ In (Realtime.s_low s) (map Realtime.k_close kline)
    /\ (forall k, In k kline ->
          (Realtime.s_low s <=? Realtime.k_close k)%F = true
          /\ (Realtime.k_close k <=? Realtime.s_high s)%F = true)
    /\ (Realtime.s_low s <=? Realtime.latest_price s)%F = true
    /\ (Realtime.latest_price s <=? Realtime.s_high s)%F = true
    /\ Realtime.total_volume s = Realtime.zsum (map Realtime.k_volume kline)
    /\ (Realtime.short_trend s = None <-> Z.of_nat (length kline) < 3).
Proof.
  intros Hne Hfin.
  destruct (realtime_summary_returns kline Hne)
    as [latest [high [low [s [Hl [Hmax [Hmin [Hs [Hlp [_ [Hh [Hlo [Htv Hst]]]]]]]]]]]]].
  exists s. split; [exact Hs |].
  destruct kline as [| k0 kl]; [congruence |].
  inversion Hfin as [| ? ? Hk0 Hkl]; subst.
  assert (Hkl' : Forall (fun y => is_fin y = true) (map Realtime.k_close kl)).
  { apply Forall_forall. intros y Hy. apply in_map_iff in Hy.
    destruct Hy as [k [<- Hk]]. rewrite Forall_forall in Hkl. now apply Hkl. }
  cbn [map Realtime.py_max Realtime.py_min] in Hmax, Hmin.
  destruct (fold_pymax_fin _ _ Hk0 Hkl') as [_ [Hin1 Hub]].
  destruct (fold_pymin_fin _ _ Hk0 Hkl') as [_ [Hin2 Hlb]].
  assert (Hhigh : Realtime.s_high s
                  = fold_left pymax (map Realtime.k_close kl) (Realtime.k_close k0))
    by congruence.
  assert (Hlow : Realtime.s_low s
                 = fold_left pymin (map Realtime.k_close kl) (Realtime.k_close k0))
    by congruence.
  rewrite Hhigh, Hlow, Hlp. cbn [map].
  assert (Hall : forall k, In k (k0 :: kl) ->
            (fold_left pymin (map Realtime.k_close kl) (Realtime.k_close k0)
             <=? Realtime.k_close k)%F = true
            /\ (Realtime.k_close k
                <=? fold_left pymax (map Realtime.k_close kl) (Realtime.k_close k0))%F = true).
  { intros k Hk.
    assert (Hc : In (Realtime.k_close k) (Realtime.k_close k0 :: map Realtime.k_close kl))
      by (change (In (Realtime.k_close k) (map Realtime.k_close (k0 :: kl)));
          now apply in_map).
    split; [now apply Hlb | now apply Hub]. }
  split; [exact Hin1 |]. split; [exact Hin2 |]. split; [exact Hall |].
  apply iloc_In in Hl. destruct (Hall latest Hl) as [Ha Hb].
  split; [exact Ha |]. split; [exact Hb |]. split; [exact Htv | exact Hst].
Qed.

Lemma mapM_kline_entry (bars : list Realtime.minute_bar) :
  forallb finite_volume bars = true ->
  exists kl, BatchStockAnalyzer.mapM Realtime.kline_entry bars = Ret kl
             /\ Forall2 (fun b k => Realtime.kline_entry b = Ret k) bars kl.
Proof.
  induction bars as [| b bars IH]; intros H.
  - exists []. split; [reflexivity | constructor].
  - cbn [forallb] in H. apply andb_true_iff in H. destruct H as [Hb Hr].
    destruct (IH Hr) as [kl [Hm Hf]].
    assert (Hk : exists k, Realtime.kline_entry b = Ret k).
    { unfold Realtime.kline_entry. unfold finite_volume in Hb.
      destruct (Realtime.m_volume b); try discriminate. cbn [py_int bind]. eauto. }
    destruct Hk as [k Hk]. exists (k :: kl).
    cbn [BatchStockAnalyzer.mapM]. rewrite Hk, Hm. cbn [bind].
    split; [reflexivity | constructor; assumption].
Qed.

Lemma mapM_kline_entry_fails (bars : list Realtime.minute_bar) :
  forallb finite_volume bars = false ->
  BatchStockAnalyzer.mapM Realtime.kline_entry bars = Raise ValueError
  \/ BatchStockAnalyzer.mapM Realtime.kline_entry bars = Raise OverflowError.
Proof.
  induction bars as [| b bars IH]; intros H; [discriminate |].
  cbn [forallb] in H. cbn [BatchStockAnalyzer.mapM].
  set (rest := BatchStockAnalyzer.mapM Realtime.kline_entry bars) in *.
  set (ok := forallb finite_volume bars) in *.
  unfold Realtime.kline_entry. unfold finite_volume in H.
  destruct (Realtime.m_volume b); cbn [is_fin andb] in H; cbn [py_int bind]; auto.
  destruct (IH H) as [-> | ->]; cbn [bind]; auto.
Qed.

Lemma Forall2_nth {A B} (R : A -> B -> Prop) (l1 : list A) (l2 : list B) :
  Forall2 R l1 l2 ->
  forall j a, nth_error l1 j = Some a -> exists b, nth_error l2 j = Some b /\ R a b.
Proof.
  induction 1 as [| x y l1 l2 Hxy HF IH]; intros j a.
  - destruct j; discriminate.
  - destruct j as [| j]; cbn [nth_error].
    + intros H. exists y. split; [reflexivity | congruence].
    + apply IH.
Qed.

Lemma Forall2_iloc {A B} (R : A -> B -> Prop) (l1 : list A) (l2 : list B) (i : Z) (a : A) :
  Forall2 R l1 l2 -> iloc l1 i = Ret a -> exists b, iloc l2 i = Ret b /\ R a b.
Proof.
  intros HF. pose proof (Forall2_length HF) as Hlen. unfold iloc. rewrite <- Hlen.
  destruct (_ || _); [discriminate |].
  destruct (nth_error l1 _) as [x |] eqn:E; [| discriminate].
  intros H. destruct (Forall2_nth R l1 l2 HF _ _ E) as [b [Hb Hr]].
  rewrite Hb. exists b. split; [reflexivity | congruence].
Qed.

(** X15: what [get_realtime_data] returns: str(e) as the error when the
    minute source raises e, the fixed error text when it returns no row, the
    error of int() when a volume is NaN or infinite; otherwise one entry per
    row, in order, [data_count] rows, the label of the last row as
    [latest_time], the delay to that label rounded to one decimal, and a
    summary. *)
Theorem get_realtime_data_outcome (gpm : string -> string -> Z -> M (list Realtime.minute_bar))
    (self : StockAnalyzer.t) (now : Q) (minutes : Z) (frequency : string) :
  let out := Realtime.get_realtime_data gpm self now minutes frequency in
  match gpm (StockAnalyzer.stock_code self) frequency minutes with
  | Raise e => out = Realtime.RtError (Realtime.StrOf e)
  | Ret [] => out = Realtime.RtError (Realtime.Text "无法获取实时数据")
  | Ret bars =>
      if forallb finite_volume bars then
        exists last_bar kline s,
          iloc bars (-1) = Ret last_bar
          /\ out = Realtime.RtData frequency (Z.of_nat (length bars))
                     (fround (Fin (Qred (now - Realtime.label last_bar))) 1)
                     (Some (Realtime.label_long last_bar)) kline (Some s)
          /\ Forall2 (fun b k => Realtime.kline_entry b = Ret k) bars kline
          /\ Realtime._calculate_realtime_summary kline = Ret (Some s)
      else out = Realtime.RtError (Realtime.StrOf ValueError)
           \/ out = Realtime.RtError (Realtime.StrOf OverflowError)
  end.
Proof.
  intros out. subst out. unfold Realtime.get_realtime_data.
  destruct (gpm _ _ _) as [bars | e]; cbn [bind]; [| reflexivity].
  destruct bars as [| b0 bars]; [reflexivity |].
  set (df_min := b0 :: bars).
  destruct (iloc_in_range df_min (-1)) as [last_bar [Hl _]]; [cbn; lia |].
  rewrite Hl. cbn [bind].
  destruct (forallb finite_volume df_min) eqn:Hv.
  - destruct (mapM_kline_entry df_min Hv) as [kl [Hm HF]].
    rewrite Hm. cbn [bind].
    destruct (Forall2_iloc _ _ _ _ _ HF Hl) as [k [Hk Hkb]].
    assert (Hne : kl <> []).
    { intros ->. apply Forall2_length in HF. discriminate. }
    destruct (realtime_summary_returns kl Hne) as [la [hi [lo [s [_ [_ [_ [Hs _]]]]]]]].
    exists last_bar, kl, s. split; [reflexivity |].
    destruct kl as [| k0 kl']; [congruence |].
    rewrite Hk, Hs. cbn [bind].
    assert (Ht : Realtime.timestamp k = Realtime.label_long last_bar).
    { unfold Realtime.kline_entry in Hkb.
      destruct (py_int _); cbn [bind] in Hkb; [| discriminate].
      apply (f_equal (fun m => match m with
                               | Ret x => Realtime.timestamp x | _ => ""%string end)) in Hkb.
      cbn in Hkb. congruence. }
    rewrite Ht, <- (Forall2_length HF).
    split; [reflexivity |]. split; [exact HF | reflexivity].
  - destruct (mapM_kline_entry_fails df_min Hv) as [-> | ->]; cbn [bind]; auto.
Qed.

Lemma pairs_induction {A} (P : list A -> Prop) :
  P [] -> (forall a, P [a]) -> (forall a b r, P r -> P (a :: b :: r)) -> forall l, P l.
Proof.
  intros H0 H1 H2.
  assert (H : forall l, P l /\ forall a, P (a :: l)).
  { induction l as [| x l [IH1 IH2]]; [split; [exact H0 | exact H1] |].
    split; [apply IH2 | intros a; apply H2; exact IH1]. }
  intros l. apply H.
Qed.

Lemma iloc_app_at {A} (pre : list A) (a : A) (r : list A) :
  iloc (pre ++ a :: r) (Z.of_nat (length pre)) = Ret a.
Proof.
  unfold iloc. rewrite length_app. cbn [length].
  replace (Z.of_nat (length pre) <? 0) with false by (symmetry; apply Z.ltb_ge; lia).
  replace ((Z.of_nat (length pre) <? 0)
           || (Z.of_nat (length pre + S (length r)) <=? Z.of_nat (length pre)))
    with false.
  2:{ symmetry. apply orb_false_iff. split; [apply Z.ltb_ge | apply Z.leb_gt]; lia. }
  rewrite Nat2Z.id, nth_error_app2 by lia. now rewrite Nat.sub_diag.
Qed.

Lemma two_min_loop_pairs (l : list Realtime.minute_bar) :
  forall (rest pre : list Realtime.minute_bar) (fuel : nat),
    l = pre ++ rest -> (length rest <= S fuel)%nat ->
    BatchStockAnalyzer.mapM
      (fun i => bar1 <- iloc l i ;; bar2 <- iloc l (i + 1) ;; Realtime.two_min_bar bar1 bar2)
      (Realtime.until_break (fun i => Z.of_nat (length l) <=? i + 1)
         (Realtime.range2 fuel (Z.of_nat (length pre)) (Z.of_nat (length l) - 1)))
    = BatchStockAnalyzer.mapM pair_bar (pairs rest).
Proof.
  intros rest. induction rest as [| a | a b r IH] using pairs_induction;
    intros pre fuel Hl Hf.
  - assert (Hn : length l = length pre) by (rewrite Hl, app_nil_r; reflexivity).
    rewrite Hn. destruct fuel; cbn [Realtime.range2]; [reflexivity |].
    replace (Z.of_nat (length pre) <? Z.of_nat (length pre) - 1) with false
      by (symmetry; apply Z.ltb_ge; lia).
    reflexivity.
  - assert (Hn : length l = S (length pre))
      by (rewrite Hl, length_app; cbn; lia).
    rewrite Hn. destruct fuel; cbn [Realtime.range2]; [reflexivity |].
    replace (Z.of_nat (length pre) <? Z.of_nat (S (length pre)) - 1) with false
      by (symmetry; apply Z.ltb_ge; lia).
    reflexivity.
  - assert (Hn : length l = (length pre + 2 + length r)%nat)
      by (rewrite Hl, length_app; cbn; lia).
    destruct fuel as [| fuel]; [cbn in Hf; lia |].
    cbn [Realtime.range2].
    replace (Z.of_nat (length pre) <? Z.of_nat (length l) - 1) with true
      by (symmetry; apply Z.ltb_lt; lia).
    cbn [Realtime.until_break].
    replace (Z.of_nat (length l) <=? Z.of_nat (length pre) + 1) with false
      by (symmetry; apply Z.leb_gt; lia).
    cbn [BatchStockAnalyzer.mapM pairs].
    assert (H1 : iloc l (Z.of_nat (length pre)) = Ret a)
      by (rewrite Hl; apply iloc_app_at).
    assert (H2 : iloc l (Z.of_nat (length pre) + 1) = Ret b).
    { replace (Z.of_nat (length pre) + 1) with (Z.of_nat (length (pre ++ [a])))
        by (rewrite length_app; cbn; lia).
      replace l with ((pre ++ [a]) ++ b :: r)
        by (rewrite Hl, <- app_assoc; reflexivity).
      apply iloc_app_at. }
    rewrite H1, H2. cbn [bind]. unfold pair_bar at 1. cbn [fst snd].
    specialize (IH (pre ++ [a; b]) fuel).
    replace (Z.of_nat (length (pre ++ [a; b]))) with (Z.of_nat (length pre) + 2) in IH
      by (rewrite length_app; cbn; lia).
    rewrite IH; [reflexivity | rewrite Hl, <- app_assoc; reflexivity | cbn in Hf; lia].
Qed.

Lemma insert_asc_perm (x : Realtime.minute_bar) (l : list Realtime.minute_bar) :
  Permutation (x :: l) (Realtime.insert_asc x l).
Proof.
  induction l as [| y l IH]; cbn [Realtime.insert_asc]; [reflexivity |].
  destruct (Qle_bool _ _); [| reflexivity].
  rewrite perm_swap. now constructor.
Qed.

Lemma sort_index_perm (l : list Realtime.minute_bar) :
  Permutation l (Realtime.sort_index l).
Proof.
  unfold Realtime.sort_index.
  assert (H : forall acc, Permutation (acc ++ l)
                (fold_left (fun acc x => Realtime.insert_asc x acc) l acc)).
  { induction l as [| x l IH]; intros acc; cbn [fold_left].
    - now rewrite app_nil_r.
    - etransitivity; [| apply IH].
      etransitivity; [| apply Permutation_app_tail, insert_asc_perm].
      cbn [app]. symmetry. apply Permutation_middle. }
  apply (H []).
Qed.

Lemma pair_bars_return (l : list Realtime.minute_bar) :
  Forall (fun b => finite_volume b = true) l ->
  exists all, BatchStockAnalyzer.mapM pair_bar (pairs l) = Ret all
              /\ Forall2 (fun p k => pair_bar p = Ret k) (pairs l) all.
Proof.
  induction l as [| a | a b r IH] using pairs_induction; intros H.
  - exists []. split; [reflexivity | constructor].
  - exists []. split; [reflexivity | constructor].
  - inversion H as [| ? ? Ha H']; subst. inversion H' as [| ? ? Hb Hr]; subst.
    destruct (IH Hr) as [all [Hm HF]].
    assert (Hk : exists k, pair_bar (a, b) = Ret k).
    { unfold pair_bar, Realtime.two_min_bar. cbn [fst snd].
      unfold finite_volume in Ha, Hb.
      destruct (Realtime.m_volume a); try discriminate.
      destruct (Realtime.m_volume b); try discriminate.
      cbn [fadd py_int bind]. eauto. }
    destruct Hk as [k Hk]. exists (k :: all). cbn [pairs BatchStockAnalyzer.mapM].
    rewrite Hk, Hm. cbn [bind]. split; [reflexivity | constructor; assumption].
Qed.

Lemma pairs_length {A} (l : list A) : length (pairs l) = (length l / 2)%nat.
Proof.
  induction l as [| a | a b r IH] using pairs_induction; [reflexivity | reflexivity |].
  cbn [pairs length]. rewrite IH.
  change (S (S (length r))) with (2 + length r)%nat.
  replace (2 + length r)%nat with (length r + 1 * 2)%nat by lia.
  rewrite Nat.div_add by lia. lia.
Qed.

(** X16: [get_2min_data] asks for 2 * total_minutes + 10 one-minute rows,
    sorts them and merges them two by two (a last odd row is dropped); with
    finite volumes it returns the latest total_minutes // 2 merged bars when
    total_minutes is at least 2, but every merged bar when total_minutes is 0
    or 1 (the slice [-0:]), and all but the first -(total_minutes // 2) when
    it is negative. *)
Theorem get_2min_data_outcome (gpm : string -> string -> Z -> M (list Realtime.minute_bar))
    (stock_code : string) (total_minutes : Z) (now : Q) :
  let out := Realtime.get_2min_data gpm stock_code total_minutes now in
  match gpm stock_code "1min"%string (total_minutes * 2 + 10) with
  | Raise e => out = Realtime.TmError (Realtime.StrOf e) []
  | Ret [] => out = Realtime.TmError (Realtime.Text "无法获取1分钟数据") []
  | Ret bars =>
      forallb finite_volume bars = true ->
      exists all recent last_bar,
        Forall2 (fun p k => pair_bar p = Ret k) (pairs (Realtime.sort_index bars)) all
        /\ length all = (length bars / 2)%nat
        /\ iloc (Realtime.sort_index bars) (-1) = Ret last_bar
        /\ out = Realtime.TmData "2min" (Z.of_nat (length recent))
                   (Z.of_nat (length recent) * 2)
                   (fround (Fin (Qred (now - Realtime.label last_bar))) 1) recent
        /\ (2 <= total_minutes ->
            recent = skipn (length all - Z.to_nat (total_minutes / 2)) all)
        /\ (0 <= total_minutes < 2 -> recent = all)
        /\ (total_minutes < 0 -> recent = skipn (Z.to_nat (- (total_minutes / 2))) all)
  end.
Proof.
  intros out. subst out. unfold Realtime.get_2min_data.
  destruct (gpm _ _ _) as [bars | e]; cbn [bind]; [| reflexivity].
  destruct bars as [| b0 bars]; [reflexivity |].
  set (df := b0 :: bars). intros Hv.
  set (sorted := Realtime.sort_index df).
  pose proof (sort_index_perm df) as Hperm. fold sorted in Hperm.
  assert (Hlen : length sorted = length df) by (symmetry; now apply Permutation_length).
  assert (Hfin : Forall (fun b => finite_volume b = true) sorted).
  { apply Forall_forall. intros b Hb. rewrite forallb_forall in Hv. apply Hv.
    eapply Permutation_in; [symmetry; exact Hperm | exact Hb]. }
  destruct (pair_bars_return sorted Hfin) as [all [Hm HF]].
  unfold Realtime.range_by_2.
  pose proof (two_min_loop_pairs sorted sorted []
                (Z.to_nat (Z.of_nat (length sorted) - 1 - 0)) eq_refl) as Hloop.
  cbn [length Z.of_nat] in Hloop. rewrite Hloop by lia. clear Hloop.
  rewrite Hm. cbn [bind].
  destruct (iloc_in_range sorted (-1)) as [last_bar [Hl _]];
    [rewrite Hlen; cbn; lia |].
  rewrite Hl. cbn [bind].
  assert (Hall : length all = (length df / 2)%nat).
  { rewrite <- (Forall2_length HF), pairs_length, Hlen. reflexivity. }
  eexists all, _, last_bar.
  split; [exact HF |]. split; [exact Hall |]. split; [reflexivity |].
  split; [reflexivity |].
  unfold Realtime.slice_from.
  assert (Hdiv : forall t, 2 <= t -> 1 <= t / 2)
    by (intros t Ht; apply Z.div_le_lower_bound; lia).
  assert (Hdiv0 : forall t, 0 <= t < 2 -> t / 2 = 0)
    by (intros t Ht; apply Z.div_small; lia).
  assert (Hdivn : forall t, t < 0 -> t / 2 < 0)
    by (intros t Ht; apply Z.div_lt_upper_bound; lia).
  split; [| split].
  - intros Ht. specialize (Hdiv _ Ht).
    destruct (Z.min_spec (Z.of_nat (length all)) (total_minutes / 2)) as [[Hc ->] | [Hc ->]].
    + destruct (- Z.of_nat (length all) <? 0) eqn:E.
      * rewrite Z.opp_involutive, Nat2Z.id, Nat.sub_diag.
        replace (length all - Z.to_nat (total_minutes / 2))%nat with 0%nat by lia.
        reflexivity.
      * apply Z.ltb_ge in E. assert (length all = 0%nat) by lia.
        destruct all; [reflexivity | discriminate].
    + replace (- (total_minutes / 2) <? 0) with true by (symmetry; apply Z.ltb_lt; lia).
      now rewrite Z.opp_involutive.
  - intros Ht. rewrite (Hdiv0 _ Ht).
    destruct (Z.min_spec (Z.of_nat (length all)) 0) as [[Hc ->] | [Hc ->]]; [lia |].
    reflexivity.
  - intros Ht. specialize (Hdivn _ Ht).
    rewrite Z.min_r by lia.
    replace (- (total_minutes / 2) <? 0) with false by (symmetry; apply Z.ltb_ge; lia).
    reflexivity.
Qed.

Lemma realtime_signals_shape_witness :
  let s := {| Realtime.buy_signals := [];
              Realtime.sell_signals := ["放量下跌"%string];
              Realtime.warning_signals := [];
              Realtime.overall_signal := "SELL" |} in
  Realtime._generate_realtime_signals sample_realtime sample_day = Ret s
  /\ day_action sample_day = Some "SELL"%string
  /\ (Realtime.buy_signals s = [] \/ Realtime.sell_signals s = []).
Proof.
  intros s.
  assert (H : Realtime._generate_realtime_signals sample_realtime sample_day = Ret s)
    by (vm_compute; reflexivity).
  split; [exact H |].
  pose proof (realtime_signals_shape sample_realtime sample_day s H)
    as [H1 [_ [_ [_ [_ [H6 _]]]]]].
  split; [apply H6; reflexivity | exact H1].
Defined.

Lemma realtime_summary_bounds_witness :
  exists s,
    Realtime._calculate_realtime_summary (kline_of sample_realtime) = Ret (Some s)
    /\ (Realtime.s_low s <=? Realtime.latest_price s)%F = true
    /\ (Realtime.latest_price s <=? Realtime.s_high s)%F = true.
Proof.
  assert (Hne : kline_of sample_realtime <> [])
    by (intros X; apply (f_equal (@length _)) in X; vm_compute in X; discriminate).
  assert (Hfin : Forall (fun k => is_fin (Realtime.k_close k) = true)
                        (kline_of sample_realtime)).
  { apply Forall_forall.
    apply (proj1 (forallb_forall (fun k => is_fin (Realtime.k_close k))
                                 (kline_of sample_realtime))).
    vm_compute. reflexivity. }
  destruct (realtime_summary_bounds (kline_of sample_realtime) Hne Hfin)
    as [s [Hs [_ [_ [_ [Hlo [Hhi _]]]]]]].
  exists s. split; [exact Hs |]. split; [exact Hlo | exact Hhi].
Defined.

Lemma get_2min_data_outcome_witness :
  exists recent delay,
    Realtime.get_2min_data MinuteSamples.get_price_min_tx "sh600519" 1 MinuteSamples.now
    = Realtime.TmData "2min" 2 4 delay recent
    /\ length recent = 2%nat.
Proof.
  destruct (get_2min_data_outcome MinuteSamples.get_price_min_tx "sh600519" 1
              MinuteSamples.now eq_refl)
    as [all [recent [last_bar [_ [Hlen [_ [Hout [_ [H01 _]]]]]]]]].
  assert (Hr : recent = all) by (apply H01; lia).
  subst recent. exists all. eexists. rewrite Hout, Hlen. split; reflexivity.
Defined.

(* ===================================================================== *)
(** ** The other analyzers, the indicators and the risk metrics *)
(* ===================================================================== *)

Lemma all_indicators_present (d : DataFrame) (r : row) :
  In r (StockSignalAnalyzer.with_all_indicators d) -> has_indicators r.
Proof.
  intros H. apply In_nth_error in H. destruct H as [i Hi].
  apply with_all_indicators_row in Hi. destruct Hi as [v Hd].
  intros k Hk. unfold getitem. rewrite Hd.
  unfold StockAnalyzer.indicator_columns.
  cbn [In] in Hk.
  repeat (destruct Hk as [<- | Hk]; [cbn; eauto |]). destruct Hk.
Qed.

Ltac column H k :=
  let v := fresh "v" in
  let E := fresh "E" in
  destruct (H k ltac:(cbn [In]; tauto)) as [v E]; rewrite ?E; cbn [bind].

Ltac settle_ifs :=
  repeat (match goal with
          | |- context [if ?b then _ else _] => destruct b
          end; cbn [bind]).

Lemma app2_trend_returns (self : StockSignalAnalyzer.t) (latest prev sixth : row) :
  has_indicators latest -> iloc (StockSignalAnalyzer.df self) (-6) = Ret sixth ->
  has_indicators sixth ->
  exists rs sc, StockSignalAnalyzer._analyze_trend self latest prev
                = Ret (reasons_entry rs sc) /\ 0 <= sc.
Proof.
  intros Hl H6 Hs. unfold StockSignalAnalyzer._analyze_trend.
  column Hl "MA5"%string. column Hl "MA10"%string. column Hl "MA20"%string.
  rewrite H6. cbn [bind]. column Hs "MA5"%string.
  settle_ifs; eexists; eexists; (split; [reflexivity | lia]).
Qed.

Lemma app2_momentum_returns (latest prev : row) :
  has_indicators latest -> has_indicators prev ->
  exists rs sc, StockSignalAnalyzer._analyze_momentum latest prev
                = Ret (reasons_entry rs sc) /\ 0 <= sc.
Proof.
  intros Hl Hp. unfold StockSignalAnalyzer._analyze_momentum.
  column Hl "RSI"%string. column Hl "MACD"%string. column Hl "MACD_signal"%string.
  column Hp "MACD"%string. column Hp "MACD_signal"%string.
  settle_ifs; eexists; eexists; (split; [reflexivity | lia]).
Qed.

Lemma app2_volume_returns (latest prev : row) :
  has_indicators latest ->
  exists rs sc, StockSignalAnalyzer._analyze_volume latest prev
                = Ret (reasons_entry rs sc) /\ 0 <= sc.
Proof.
  intros Hl. unfold StockSignalAnalyzer._analyze_volume.
  column Hl "volume_ratio"%string. column Hl "volume_ma5"%string.
  settle_ifs; eexists; eexists; (split; [reflexivity | lia]).
Qed.

Lemma app2_oscillators_returns (latest : row) :
  has_indicators latest ->
  exists rs sc, StockSignalAnalyzer._analyze_oscillators latest
                = Ret (reasons_entry rs sc) /\ 0 <= sc.
Proof.
  intros Hl. unfold StockSignalAnalyzer._analyze_oscillators.
  column Hl "%K"%string. column Hl "%D"%string. column Hl "BB_position"%string.
  settle_ifs; eexists; eexists; (split; [reflexivity | lia]).
Qed.

Lemma app2_patterns_return (self : StockSignalAnalyzer.t) :
  StockSignalAnalyzer.df self <> [] ->
  exists ps, StockSignalAnalyzer._check_patterns self
             = Ret (patterns_entry ps (Z.of_nat (length ps) * 10)).
Proof.
  intros Hne. unfold StockSignalAnalyzer._check_patterns.
  set (recent := StockSignalAnalyzer.tail 5 (StockSignalAnalyzer.df self)).
  assert (Hlen : (0 < length recent)%nat).
  { subst recent. unfold StockSignalAnalyzer.tail. rewrite length_skipn.
    destruct (StockSignalAnalyzer.df self); [congruence | cbn [length]; lia]. }
  destruct (iloc_in_range recent (-1)) as [l1 [E1 _]]; [lia |].
  rewrite E1. cbn [bind].
  destruct (3 <=? Z.of_nat (length recent)) eqn:H3.
  - apply Z.leb_le in H3.
    destruct (iloc_in_range recent (-3)) as [d1 [E3 _]]; [lia |].
    destruct (iloc_in_range recent (-2)) as [d2 [E2 _]]; [lia |].
    rewrite E3, E2. cbn [bind].
    destruct (StockSignalAnalyzer._is_hammer l1);
      destruct (StockSignalAnalyzer._is_morning_star d1 d2 l1);
      eexists; reflexivity.
  - cbn [bind]. destruct (StockSignalAnalyzer._is_hammer l1); eexists; reflexivity.
Qed.

Lemma app2_choose_signal_action c :
  let '(sg, ac, ps) := StockSignalAnalyzer.choose_signal c in
  (ac = "BUY"%string <-> 60 <= c)
  /\ (ac = "HOLD"%string <-> 45 <= c < 60)
  /\ (ac = "SELL"%string <-> c < 45).
Proof. exact (choose_signal_action c). Qed.

(** X17: in app2.py, once [calculate_all_indicators] has returned True,
    [analyze] never raises KeyError or IndexError: it returns a populated
    result (without the key success) for the analyzer's symbol, with a
    confidence from 0 to 100 that it also stores in [self.confidence_score],
    the action BUY from 60 on, HOLD from 45 to 59 and SELL below, and at most
    five key reasons; it raises only when the latest volume is NaN
    (ValueError) or infinite (OverflowError). *)
Theorem app2_analyze_outcome (self analyzer : StockSignalAnalyzer.t) (now : string) :
  StockSignalAnalyzer.calculate_all_indicators self = (true, analyzer) ->
  exists latest,
    iloc (StockSignalAnalyzer.df analyzer) (-1) = Ret latest
    /\ match StockSignalAnalyzer.analyze analyzer now with
       | Ret (r, after) =>
           is_fin (volume latest) = true
           /\ exists p pc v i a rk,
                r = Populated (StockSignalAnalyzer.stock_code self) now p pc v i a rk None
                /\ 0 <= confidence_score a <= 100
                /\ StockSignalAnalyzer.confidence_score_ after = confidence_score a
                /\ StockSignalAnalyzer.signals_ after = Some (detailed_signals a)
                /\ (action a = "BUY"%string <-> 60 <= confidence_score a)
                /\ (action a = "HOLD"%string <-> 45 <= confidence_score a < 60)
                /\ (action a = "SELL"%string <-> confidence_score a < 45)
                /\ (length (key_reasons a) <= 5)%nat
       | Raise e =>
           (volume latest = NaN /\ e = ValueError)
           \/ ((volume latest = PInf \/ volume latest = NInf) /\ e = OverflowError)
       end.
Proof.
  unfold StockSignalAnalyzer.calculate_all_indicators.
  destruct (StockSignalAnalyzer.too_short (StockSignalAnalyzer.df self)) eqn:Hshort;
    [discriminate |].
  intros H. apply (f_equal snd) in H. cbn [snd] in H. subst analyzer.
  cbn [StockSignalAnalyzer.df].
  set (d := StockSignalAnalyzer.with_all_indicators (StockSignalAnalyzer.df self)).
  assert (Hlen : 30 <= Z.of_nat (length d)).
  { subst d. unfold StockSignalAnalyzer.with_all_indicators.
    rewrite length_map, length_combine, length_seq, Nat.min_id.
    unfold StockSignalAnalyzer.too_short in Hshort.
    apply orb_false_iff in Hshort. destruct Hshort as [_ Hs]. apply Z.ltb_ge in Hs. lia. }
  destruct (iloc_in_range d (-1)) as [latest [E1 I1]]; [lia |].
  destruct (iloc_in_range d (-2)) as [prev [E2 I2]]; [lia |].
  destruct (iloc_in_range d (-6)) as [sixth [E6 I6]]; [lia |].
  pose proof (all_indicators_present _ _ I1) as Hl.
  pose proof (all_indicators_present _ _ I2) as Hp.
  pose proof (all_indicators_present _ _ I6) as H6.
  exists latest. split; [exact E1 |].
  unfold StockSignalAnalyzer.analyze. cbn [StockSignalAnalyzer.df]. fold d.
  replace (StockSignalAnalyzer.too_short d) with false.
  2:{ symmetry. unfold StockSignalAnalyzer.too_short. apply orb_false_iff. split.
      - destruct d; [cbn in Hlen; lia | reflexivity].
      - apply Z.ltb_ge. lia. }
  set (an := {| StockSignalAnalyzer.stock_code := StockSignalAnalyzer.stock_code self;
                StockSignalAnalyzer.period_days := StockSignalAnalyzer.period_days self;
                StockSignalAnalyzer.df := d;
                StockSignalAnalyzer.signals_ := StockSignalAnalyzer.signals_ self;
                StockSignalAnalyzer.confidence_score_ :=
                  StockSignalAnalyzer.confidence_score_ self |}).
  unfold StockSignalAnalyzer._analyze_signals.
  change (StockSignalAnalyzer.df an) with d. rewrite E1, E2. cbn [bind].
  destruct (app2_trend_returns an latest prev sixth Hl E6 H6) as [rs1 [s1 [-> P1]]].
  destruct (app2_momentum_returns latest prev Hl Hp) as [rs2 [s2 [-> P2]]].
  destruct (app2_volume_returns latest prev Hl) as [rs3 [s3 [-> P3]]].
  destruct (app2_oscillators_returns latest Hl) as [rs4 [s4 [-> P4]]].
  destruct (app2_patterns_return an) as [ps ->].
  { change (StockSignalAnalyzer.df an) with d. destruct d; [cbn in Hlen; lia | discriminate]. }
  cbn [bind].
  set (sg := {| s_trend := reasons_entry rs1 s1; s_momentum := reasons_entry rs2 s2;
                s_volume := reasons_entry rs3 s3; s_oscillators := reasons_entry rs4 s4;
                s_patterns := patterns_entry ps (Z.of_nat (length ps) * 10) |}).
  assert (Hsc : scored sg).
  { unfold scored, values, sg. cbn [s_trend s_momentum s_volume s_oscillators s_patterns].
    repeat constructor; eexists; (split; [reflexivity | lia]). }
  pose proof (app2_confidence_formula sg Hsc) as Hconf.
  assert (Hb : 0 <= StockSignalAnalyzer._calculate_confidence sg <= 100).
  { rewrite Hconf. unfold sg, score_of.
    cbn [s_trend s_momentum s_volume s_oscillators s_patterns score reasons_entry
         patterns_entry]. lia. }
  set (conf := StockSignalAnalyzer._calculate_confidence sg) in *.
  unfold StockSignalAnalyzer._generate_result.
  cbn [StockSignalAnalyzer.with_analysis StockSignalAnalyzer.df
       StockSignalAnalyzer.confidence_score_ StockSignalAnalyzer.stock_code].
  change (StockSignalAnalyzer.df an) with d. rewrite E1, E2. cbn [bind].
  pose proof (app2_choose_signal_action conf) as Hact.
  destruct (StockSignalAnalyzer.choose_signal conf) as [[sig ac] pos].
  destruct (volume latest) as [q | | |] eqn:Hv; cbn [py_int bind]; auto.
  column Hl "MA5"%string. column Hl "MA10"%string. column Hl "MA20"%string.
  column Hl "RSI"%string. column Hl "MACD"%string. column Hl "%K"%string.
  column Hl "%D"%string. column Hl "BB_position"%string.
  split; [reflexivity |].
  do 6 eexists. split; [reflexivity |].
  cbn [confidence_score action key_reasons detailed_signals
       StockSignalAnalyzer.confidence_score_ StockSignalAnalyzer.signals_].
  destruct Hact as [A1 [A2 A3]].
  split; [exact Hb |]. split; [reflexivity |]. split; [reflexivity |].
  split; [exact A1 |]. split; [exact A2 |]. split; [exact A3 |].
  rewrite length_firstn. lia.
Qed.

Lemma old_indicators_present (d : DataFrame) (r : row) :
  In r (OldAnalyzer.with_indicators d) -> has_old_indicators r.
Proof.
  intros H. unfold OldAnalyzer.with_indicators in H.
  apply in_map_iff in H. destruct H as [[i r0] [<- _]].
  intros k Hk. unfold getitem. cbn [derived snd fst].
  unfold OldAnalyzer.indicator_columns.
  cbn [In] in Hk.
  repeat (destruct Hk as [<- | Hk]; [cbn; eauto |]). destruct Hk.
Qed.

Lemma old_signals_scores (latest prev : row) :
  has_old_indicators latest ->
  exists sg, OldApp._analyze_signals latest prev = Ret sg
    /\ scored sg
    /\ score_of (s_trend sg) <= 25 /\ score_of (s_momentum sg) <= 35
    /\ score_of (s_volume sg) = 0 /\ score_of (s_oscillators sg) <= 25
    /\ score_of (s_patterns sg) = 0.
Proof.
  intros Hl. unfold OldApp._analyze_signals.
  column Hl "MA20"%string. column Hl "MA5"%string. column Hl "MA10"%string.
  column Hl "RSI"%string. column Hl "MACD"%string. column Hl "MACD_signal"%string.
  column Hl "%K"%string. column Hl "BB_position"%string.
  settle_ifs; eexists; (split; [reflexivity |]);
    (split; [unfold scored, values; cbn; repeat constructor; eexists;
             (split; [reflexivity | lia]) |]);
    cbn; lia.
Qed.

Lemma old_confidence_is_sum sg :
  scored sg -> OldAnalyzer._calculate_confidence sg = spec_confidence sg.
Proof. exact (canonical_confidence_is_sum sg). Qed.

(** X18: the older analyzer of old/app.py on a frame of at least 30 bars:
    before [calculate_indicators] its [analyze] raises KeyError('MA20');
    after it, [analyze] returns a populated result with success = True whose
    confidence is at most 80 (the volume and pattern categories never score),
    BUY from 60 on and SELL below 45, or raises ValueError / OverflowError
    when the latest volume is NaN / infinite. *)
Theorem old_analyze_outcome (gp : price_source) (stock_code : string) (days : Z)
    (now : string) :
  let fresh := OldAnalyzer.init gp stock_code days in
  OldAnalyzer.too_short (OldAnalyzer.df fresh) = false ->
  OldAnalyzer.analyze fresh now = Raise (KeyError "MA20")
  /\ exists analyzer latest,
       OldAnalyzer.calculate_indicators fresh = (true, analyzer)
       /\ iloc (OldAnalyzer.df analyzer) (-1) = Ret latest
       /\ match OldAnalyzer.analyze analyzer now with
          | Ret r =>
              is_fin (volume latest) = true
              /\ exists p pc v i a rk,
                   r = Populated stock_code now p pc v i a rk (Some true)
                   /\ 0 <= confidence_score a <= 80
                   /\ score_of (s_volume (detailed_signals a)) = 0
                   /\ score_of (s_patterns (detailed_signals a)) = 0
                   /\ (action a = "BUY"%string <-> 60 <= confidence_score a)
                   /\ (action a = "SELL"%string <-> confidence_score a < 45)
          | Raise e =>
              (volume latest = NaN /\ e = ValueError)
              \/ ((volume latest = PInf \/ volume latest = NInf) /\ e = OverflowError)
          end.
Proof.
  intros fresh Hshort. split.
  - unfold OldAnalyzer.analyze. rewrite Hshort.
    destruct (long_frame_rows (OldAnalyzer.df fresh) Hshort)
      as [latest [prev [H1 [H2 [Hin _]]]]].
    rewrite H1, H2. cbn [bind].
    assert (Hd : derived latest = []).
    { exact (fresh_rows_have_no_indicators gp stock_code days latest Hin). }
    unfold OldApp._analyze_signals, getitem. rewrite Hd. reflexivity.
  - unfold OldAnalyzer.calculate_indicators. rewrite Hshort.
    set (d := OldAnalyzer.with_indicators (OldAnalyzer.df fresh)).
    assert (Hlen : 30 <= Z.of_nat (length d)).
    { subst d. unfold OldAnalyzer.with_indicators.
      rewrite length_map, length_combine, length_seq, Nat.min_id.
      unfold OldAnalyzer.too_short in Hshort.
      apply orb_false_iff in Hshort. destruct Hshort as [_ Hs]. apply Z.ltb_ge in Hs. lia. }
    destruct (iloc_in_range d (-1)) as [latest [E1 I1]]; [lia |].
    destruct (iloc_in_range d (-2)) as [prev [E2 I2]]; [lia |].
    pose proof (old_indicators_present _ _ I1) as Hl.
    eexists. exists latest. split; [reflexivity |].
    cbn [OldAnalyzer.df]. split; [exact E1 |].
    unfold OldAnalyzer.analyze. cbn [OldAnalyzer.df]. fold d.
    replace (OldAnalyzer.too_short d) with false.
    2:{ symmetry. unfold OldAnalyzer.too_short. apply orb_false_iff. split.
        - destruct d; [cbn in Hlen; lia | reflexivity].
        - apply Z.ltb_ge. lia. }
    rewrite E1, E2. cbn [bind].
    destruct (old_signals_scores latest prev Hl)
      as [sg [-> [Hsc [S1 [S2 [S3 [S4 S5]]]]]]].
    cbn [bind].
    pose proof (old_confidence_is_sum sg Hsc) as Hconf.
    assert (Hnn : 0 <= score_of (s_trend sg) /\ 0 <= score_of (s_momentum sg)
                  /\ 0 <= score_of (s_oscillators sg)).
    { unfold scored, values in Hsc.
      repeat match goal with
             | H : Forall _ (_ :: _) |- _ => inversion H; clear H; subst
             end.
      unfold score_of.
      repeat match goal with
             | H : exists s, score _ = Some s /\ _ |- _ =>
                 let s := fresh "s" in let E := fresh "E" in
                 destruct H as [s [E ?]]; rewrite ?E
             end.
      lia. }
    assert (Hb : 0 <= OldAnalyzer._calculate_confidence sg <= 80).
    { rewrite Hconf. unfold spec_confidence. lia. }
    set (conf := OldAnalyzer._calculate_confidence sg) in *.
    unfold OldAnalyzer._generate_result. cbn [OldAnalyzer.code].
    pose proof (choose_signal_action conf) as Hact.
    unfold StockAnalyzer.choose_signal in Hact.
    destruct (if 75 <=? conf then _ else _) as [[sig ac] pos].
    destruct (volume latest) as [q | | |] eqn:Hv; cbn [py_int bind]; auto.
    column Hl "MA5"%string. column Hl "MA10"%string. column Hl "MA20"%string.
    column Hl "RSI"%string. column Hl "MACD"%string. column Hl "%K"%string.
    column Hl "%D"%string. column Hl "BB_position"%string.
    split; [reflexivity |].
    do 6 eexists. split; [reflexivity |].
    cbn [confidence_score action detailed_signals].
    destruct Hact as [A1 [A2 A3]].
    split; [exact Hb |]. split; [exact S3 |]. split; [exact S5 |].
    split; [exact A1 | exact A3].
Qed.

Lemma with_indicators_iloc (d : DataFrame) (i : Z) (r : row) :
  iloc (StockAnalyzer.with_indicators d) i = Ret r ->
  exists r0, iloc d i = Ret r0 /\ volume r = volume r0 /\ close r = close r0.
Proof.
  unfold iloc. rewrite with_indicators_length.
  destruct (_ || _); [discriminate |].
  destruct (nth_error (StockAnalyzer.with_indicators d) _) as [x |] eqn:E; [| discriminate].
  intros H. apply with_indicators_row in E.
  destruct E as [r0 [E0 [Hc [_ [_ [_ [Hv _]]]]]]].
  rewrite E0. exists r0. split; [reflexivity |].
  assert (x = r) by congruence. subst x. auto.
Qed.

(** X19: [analyze_stock_simple] returns the empty result (success False)
    exactly when the frame is empty or shorter than 30 bars, which includes
    a failing price source; on a longer frame it returns the populated
    result with confidence 0 to 100 when the latest volume is a number, and
    raises ValueError / OverflowError when that volume is NaN / infinite:
    unlike the batch functions it does not catch the exception. *)
Theorem analyze_stock_simple_outcome (gp : price_source) (stock_code : string)
    (period_days : Z) (now : string) :
  let frame := StockAnalyzer._fetch_data gp stock_code period_days in
  match Realtime.analyze_stock_simple gp stock_code period_days now with
  | Ret (EmptyResult c e t s) =>
      StockAnalyzer.too_short frame = true
      /\ c = stock_code /\ t = now /\ s = Some false
  | Ret (Populated c t p pc v i a rk s) =>
      StockAnalyzer.too_short frame = false
      /\ c = stock_code /\ t = now /\ s = Some true
      /\ 0 <= confidence_score a <= 100
      /\ (exists latest, iloc frame (-1) = Ret latest /\ py_int (volume latest) = Ret v)
  | Raise e =>
      StockAnalyzer.too_short frame = false
      /\ exists latest, iloc frame (-1) = Ret latest
           /\ ((volume latest = NaN /\ e = ValueError)
               \/ ((volume latest = PInf \/ volume latest = NInf) /\ e = OverflowError))
  end.
Proof.
  intros frame. unfold Realtime.analyze_stock_simple.
  change (StockAnalyzer.df (StockAnalyzer.init gp stock_code period_days)) with frame.
  destruct (StockAnalyzer.too_short frame) eqn:Hshort.
  { cbn. auto. }
  unfold StockAnalyzer.calculate_indicators.
  change (StockAnalyzer.df (StockAnalyzer.init gp stock_code period_days)) with frame.
  rewrite Hshort. cbn [negb].
  set (an := StockAnalyzer.with_df _ _).
  destruct (StockAnalyzer.analyze an now) as [[c t p pc v i a rk s | c e t s] | e] eqn:E.
  - apply analyze_populated in E.
    destruct E as [latest [prev [_ [H1 [_ [Hconf [_ [_ [_ [_ [Hv [_ [Hc [Ht Hs]]]]]]]]]]]]]].
    split; [reflexivity |]. split; [exact Hc |]. split; [exact Ht |]. split; [exact Hs |].
    split; [rewrite Hconf; apply canonical_confidence_bounds |].
    apply with_indicators_iloc in H1. destruct H1 as [r0 [H0 [Hvol _]]].
    exists r0. split; [exact H0 | now rewrite <- Hvol].
  - exfalso. unfold StockAnalyzer.analyze in E.
    assert (Hs' : StockAnalyzer.too_short (StockAnalyzer.df an) = false).
    { subst an. cbn [StockAnalyzer.df StockAnalyzer.with_df].
      unfold StockAnalyzer.too_short in *. apply orb_false_iff in Hshort.
      destruct Hshort as [Hne Hl]. rewrite with_indicators_length, Hl, orb_false_r.
      unfold StockAnalyzer.with_indicators.
      destruct frame; [discriminate | reflexivity]. }
    rewrite Hs' in E.
    destruct (iloc _ (-1)) as [la |]; cbn [bind] in E; [| discriminate].
    destruct (iloc _ (-2)) as [pr |]; cbn [bind] in E; [| discriminate].
    unfold StockAnalyzer._generate_result in E.
    destruct (StockAnalyzer.choose_signal _) as [[? ?] ?].
    destruct (py_int _); cbn [bind] in E; discriminate.
  - split; [reflexivity |].
    unfold StockAnalyzer.analyze in E.
    assert (Hs' : StockAnalyzer.too_short (StockAnalyzer.df an) = false).
    { subst an. cbn [StockAnalyzer.df StockAnalyzer.with_df].
      unfold StockAnalyzer.too_short in *. apply orb_false_iff in Hshort.
      destruct Hshort as [Hne Hl]. rewrite with_indicators_length, Hl, orb_false_r.
      unfold StockAnalyzer.with_indicators.
      destruct frame; [discriminate | reflexivity]. }
    rewrite Hs' in E.
    destruct (long_frame_rows _ Hs') as [latest [prev [H1 [H2 _]]]].
    rewrite H1, H2 in E. cbn [bind] in E.
    unfold StockAnalyzer._generate_result in E.
    destruct (StockAnalyzer.choose_signal _) as [[? ?] ?].
    subst an. cbn [StockAnalyzer.df StockAnalyzer.with_df] in H1.
    apply with_indicators_iloc in H1. destruct H1 as [r0 [H0 [Hvol _]]].
    exists r0. split; [exact H0 |]. rewrite <- Hvol.
    destruct (volume latest) as [q | | |]; cbn [py_int bind] in E;
      try discriminate;
      apply (f_equal (fun m => match m with Raise x => x | Ret _ => IndexError end)) in E;
      cbv beta iota in E; subst e; auto.
Qed.

Lemma fold_nmin_is_pymin (l : list fnum) :
  forall x, is_fin x = true -> Forall (fun y => is_fin y = true) l ->
            fold_left nmin l x = fold_left pymin l x.
Proof.
  induction l as [| y l IH]; intros x Hx Hl; [reflexivity |].
  inversion Hl as [| ? ? Hy Hl']; subst. cbn [fold_left].
  assert (E : nmin x y = pymin x y)
    by (destruct x, y; try discriminate; reflexivity).
  rewrite E. apply IH; [| exact Hl'].
  unfold pymin. destruct (flt y x); assumption.
Qed.

Lemma fold_nmax_is_pymax (l : list fnum) :
  forall x, is_fin x = true -> Forall (fun y => is_fin y = true) l ->
            fold_left nmax l x = fold_left pymax l x.
Proof.
  induction l as [| y l IH]; intros x Hx Hl; [reflexivity |].
  inversion Hl as [| ? ? Hy Hl']; subst. cbn [fold_left].
  assert (E : nmax x y = pymax x y)
    by (destruct x, y; try discriminate; reflexivity).
  rewrite E. apply IH; [| exact Hl'].
  unfold pymax, fgt. destruct (flt x y); assumption.
Qed.

Lemma fmin_list_bound (win : list fnum) (a : fnum) :
  Forall (fun y => is_fin y = true) win -> In a win ->
  exists lo, fmin_list win = Fin lo /\ (lo <= qof a)%Q.
Proof.
  intros Hf Ha. destruct win as [| x r]; [destruct Ha |].
  inversion Hf as [| ? ? Hx Hr]; subst. cbn [fmin_list].
  rewrite (fold_nmin_is_pymin r x Hx Hr).
  destruct (fold_pymin_fin r x Hx Hr) as [Hfin [_ Hlb]].
  exists (qof (fold_left pymin r x)). split; [now apply is_fin_qof |].
  specialize (Hlb a Ha).
  assert (Hafin : is_fin a = true) by (rewrite Forall_forall in Hf; now apply Hf).
  rewrite (is_fin_qof _ Hfin), (is_fin_qof a Hafin) in Hlb.
  now apply fle_Fin in Hlb.
Qed.

Lemma fmax_list_bound (win : list fnum) (a : fnum) :
  Forall (fun y => is_fin y = true) win -> In a win ->
  exists hi, fmax_list win = Fin hi /\ (qof a <= hi)%Q.
Proof.
  intros Hf Ha. destruct win as [| x r]; [destruct Ha |].
  inversion Hf as [| ? ? Hx Hr]; subst. cbn [fmax_list].
  rewrite (fold_nmax_is_pymax r x Hx Hr).
  destruct (fold_pymax_fin r x Hx Hr) as [Hfin [_ Hub]].
  exists (qof (fold_left pymax r x)). split; [now apply is_fin_qof |].
  specialize (Hub a Ha).
  assert (Hafin : is_fin a = true) by (rewrite Forall_forall in Hf; now apply Hf).
  rewrite (is_fin_qof _ Hfin), (is_fin_qof a Hafin) in Hub.
  now apply fle_Fin in Hub.
Qed.

Lemma k_value_range (c lo hi : Q) :
  (lo <= c)%Q -> (c <= hi)%Q ->
  (of_Z 100 * ((Fin c - Fin lo) / (Fin hi - Fin lo)))%F = NaN
  \/ exists q, (of_Z 100 * ((Fin c - Fin lo) / (Fin hi - Fin lo)))%F = Fin q
               /\ (0 <= q)%Q /\ (q <= 100)%Q.
Proof.
  intros H1 H2. unfold fsub. cbn [fneg fadd].
  set (x := Qred (c + Qred (- lo))). set (y := Qred (hi + Qred (- lo))).
  assert (Hx : (x == c - lo)%Q) by (subst x; rewrite !Qred_correct; reflexivity).
  assert (Hy : (y == hi - lo)%Q) by (subst y; rewrite !Qred_correct; reflexivity).
  clearbody x y. unfold fdiv.
  destruct (Qzero y) eqn:Ez.
  - apply Qzero_eq in Ez. assert (Hx0 : (x == 0)%Q) by lra.
    apply Qzero_eq in Hx0. unfold Qzero in Hx0. apply Z.eqb_eq in Hx0.
    left. cbn [fsign]. rewrite Hx0. reflexivity.
  - right. assert (Hy0 : ~ (y == 0)%Q).
    { intros X. apply Qzero_eq in X. congruence. }
    unfold of_Z. cbn [fmul]. eexists. split; [reflexivity |].
    rewrite !Qred_correct.
    assert (Hyp : (0 < y)%Q) by lra.
    assert (Hq : (0 <= x / y)%Q /\ (x / y <= 1)%Q).
    { split.
      - apply Qle_shift_div_l; [exact Hyp | lra].
      - apply Qle_shift_div_r; [exact Hyp | lra]. }
    change (inject_Z 100) with (100%Q). destruct Hq. split; nra.
Qed.

Lemma K_in_range (d : DataFrame) (i : nat) :
  Forall consistent_bar d ->
  StockAnalyzer.at_ (StockAnalyzer.K_col d) i = NaN
  \/ exists q, StockAnalyzer.at_ (StockAnalyzer.K_col d) i = Fin q
               /\ (0 <= q)%Q /\ (q <= 100)%Q.
Proof.
  intros Hd.
  destruct (Nat.lt_ge_cases i (length d)) as [Hi | Hi].
  2:{ left. apply at_out. unfold StockAnalyzer.K_col.
      rewrite length_map, !length_map2, !length_map.
      unfold StockAnalyzer.low_14, StockAnalyzer.high_14, rolling_min, rolling_max.
      rewrite !length_rolling, !length_map. lia. }
  assert (Ll : length (StockAnalyzer.low_14 d) = length d)
    by (unfold StockAnalyzer.low_14, rolling_min; now rewrite length_rolling, length_map).
  assert (Lh : length (StockAnalyzer.high_14 d) = length d)
    by (unfold StockAnalyzer.high_14, rolling_max; now rewrite length_rolling, length_map).
  unfold StockAnalyzer.K_col.
  rewrite at_map_in by (rewrite !length_map2, !length_map, Ll, Lh; lia).
  rewrite at_map2 by (rewrite !length_map2, ?length_map, ?Ll, ?Lh; lia).
  rewrite !at_map2 by (rewrite ?length_map, ?Ll, ?Lh; lia).
  unfold StockAnalyzer.low_14, StockAnalyzer.high_14, rolling_min, rolling_max.
  rewrite !at_rolling by (rewrite length_map; lia).
  assert (Hrow : exists r, nth_error d i = Some r).
  { destruct (nth_error d i) eqn:E; [eauto | apply nth_error_None in E; lia]. }
  destruct Hrow as [r Hr].
  assert (Hcons : consistent_bar r)
    by (rewrite Forall_forall in Hd; apply Hd; eapply nth_error_In; eauto).
  destruct Hcons as [l [c [h [El [Ec [Eh [Hlc Hch]]]]]]].
  assert (Hat : forall (col : row -> fnum), StockAnalyzer.at_ (map col d) i = col r).
  { intros col. unfold StockAnalyzer.at_.
    rewrite (nth_indep _ NaN (col r)) by (rewrite length_map; lia).
    rewrite map_nth. f_equal. now apply nth_error_nth. }
  rewrite (Hat close), Ec.
  assert (Hw : window 14 i (map low d) = None <-> window 14 i (map high d) = None).
  { unfold window. destruct (i + 1 <? 14)%nat; split; congruence. }
  destruct (window 14 i (map low d)) as [wl |] eqn:Wl.
  2:{ left. destruct (window 14 i (map high d)); reflexivity. }
  destruct (window 14 i (map high d)) as [wh |] eqn:Wh.
  2:{ exfalso. destruct Hw as [_ Hw]. specialize (Hw eq_refl). discriminate. }
  assert (Fl : Forall (fun y => is_fin y = true) wl).
  { apply Forall_forall. intros y Hy. apply (window_incl _ _ _ _ Wl) in Hy.
    apply in_map_iff in Hy. destruct Hy as [r' [<- Hr']].
    rewrite Forall_forall in Hd. destruct (Hd r' Hr') as [l' [_ [_ [-> _]]]]. reflexivity. }
  assert (Fh : Forall (fun y => is_fin y = true) wh).
  { apply Forall_forall. intros y Hy. apply (window_incl _ _ _ _ Wh) in Hy.
    apply in_map_iff in Hy. destruct Hy as [r' [<- Hr']].
    rewrite Forall_forall in Hd.
    destruct (Hd r' Hr') as [l' [c' [h' [_ [_ [-> _]]]]]]. reflexivity. }
  assert (Il : In (Fin l) wl).
  { rewrite <- El, <- (Hat low).
    apply (window_last 14 i _ _ Wl); [lia | rewrite length_map; lia]. }
  assert (Ih : In (Fin h) wh).
  { rewrite <- Eh, <- (Hat high).
    apply (window_last 14 i _ _ Wh); [lia | rewrite length_map; lia]. }
  destruct (fmin_list_bound wl (Fin l) Fl Il) as [lo [-> Hlo]].
  destruct (fmax_list_bound wh (Fin h) Fh Ih) as [hi [-> Hhi]].
  cbn [qof] in Hlo, Hhi.
  apply k_value_range; lra.
Qed.

Lemma fold_fadd_percent (l : list fnum) :
  Forall (fun x => x = NaN \/ exists q, x = Fin q /\ (0 <= q)%Q /\ (q <= 100)%Q) l ->
  forall acc n, (0 <= acc)%Q -> (acc <= 100 * inject_Z (Z.of_nat n))%Q ->
    fold_left fadd l (Fin acc) = NaN
    \/ exists s, fold_left fadd l (Fin acc) = Fin s /\ (0 <= s)%Q
                 /\ (s <= 100 * inject_Z (Z.of_nat (n + length l)))%Q.
Proof.
  induction 1 as [| x l Hx Hl IH]; intros acc n H0 H1.
  - right. exists acc. cbn [fold_left length]. rewrite Nat.add_0_r. auto.
  - cbn [fold_left length]. destruct Hx as [-> | [q [-> [Hq0 Hq1]]]].
    + left. cbn [fadd]. clear. induction l as [| y l IH]; [reflexivity |].
      cbn [fold_left]. destruct y; exact IH.
    + cbn [fadd].
      assert (Ha : (0 <= Qred (acc + q))%Q) by (rewrite Qred_correct; lra).
      assert (Hb : (Qred (acc + q) <= 100 * inject_Z (Z.of_nat (S n)))%Q).
      { rewrite Qred_correct, Nat2Z.inj_succ. unfold Z.succ. rewrite inject_Z_plus.
        change (inject_Z 1) with 1%Q. lra. }
      destruct (IH _ (S n) Ha Hb) as [E | [s [E [Hs0 Hs1]]]]; [now left |].
      right. exists s. split; [exact E |]. split; [exact Hs0 |].
      now rewrite Nat.add_succ_r.
Qed.

(** X20: for bars whose low, close and high are numbers with
    low <= close <= high, every value of the %K column and of the %D column
    is NaN (undefined) or a number from 0 to 100. *)
Theorem stochastic_KD_in_range (d : DataFrame) (i : nat) :
  Forall consistent_bar d ->
  (StockAnalyzer.at_ (StockAnalyzer.K_col d) i = NaN
   \/ exists q, StockAnalyzer.at_ (StockAnalyzer.K_col d) i = Fin q
                /\ (0 <= q)%Q /\ (q <= 100)%Q)
  /\ (StockAnalyzer.at_ (StockAnalyzer.D_col d) i = NaN
      \/ exists q, StockAnalyzer.at_ (StockAnalyzer.D_col d) i = Fin q
                   /\ (0 <= q)%Q /\ (q <= 100)%Q).
Proof.
  intros Hd. split; [now apply K_in_range |].
  unfold StockAnalyzer.D_col, rolling_mean.
  destruct (Nat.lt_ge_cases i (length (StockAnalyzer.K_col d))) as [Hi | Hi].
  2:{ left. apply at_out. now rewrite length_rolling. }
  rewrite at_rolling by exact Hi.
  destruct (window 3 i (StockAnalyzer.K_col d)) as [win |] eqn:W; [| now left].
  assert (Hwin : Forall (fun x => x = NaN \/ exists q, x = Fin q /\ (0 <= q)%Q /\ (q <= 100)%Q)
                        win).
  { apply Forall_forall. intros x Hx. apply (window_incl _ _ _ _ W) in Hx.
    apply In_nth_error in Hx. destruct Hx as [j Hj].
    assert (x = StockAnalyzer.at_ (StockAnalyzer.K_col d) j).
    { unfold StockAnalyzer.at_. symmetry. now apply nth_error_nth. }
    subst x. now apply K_in_range. }
  assert (Hlen : length win = 3%nat).
  { unfold window in W. destruct (i + 1 <? 3)%nat eqn:E; [discriminate |].
    apply Nat.ltb_ge in E.
    apply (f_equal (fun o => match o with Some l => length l | None => 0%nat end)) in W.
    cbv beta iota in W. rewrite <- W, length_firstn, length_skipn.
    clear - Hi E. apply Nat.min_l. lia. }
  unfold fmean, fsum. rewrite Hlen.
  destruct (fold_fadd_percent win Hwin 0 0%nat ltac:(lra) ltac:(unfold Qle; cbn; lia))
    as [-> | [s [-> [Hs0 Hs1]]]]; [now left |].
  rewrite Hlen in Hs1. right. unfold of_Z, fdiv.
  change (Qzero (inject_Z (Z.of_nat 3))) with false. cbv beta iota.
  eexists. split; [reflexivity |]. rewrite Qred_correct.
  change (inject_Z (Z.of_nat 3)) with 3%Q.
  change (inject_Z (Z.of_nat (0 + 3))) with 3%Q in Hs1.
  split.
  - apply Qle_shift_div_l; lra.
  - apply Qle_shift_div_r; lra.
Qed.

Lemma fsqrt_nonneg (v : fnum) (s : Q) : fsqrt v = Fin s -> (0 <= s)%Q.
Proof.
  destruct v as [q | | |]; cbn [fsqrt]; try discriminate.
  destruct (Qneg q); [discriminate |].
  intros H. apply (f_equal qof) in H. cbn [qof] in H. subst s.
  unfold Qsqrt. rewrite Qred_correct. unfold Qle. cbn [Qnum Qden].
  pose proof (Z.sqrt_nonneg (Qnum q * Z.pos (Qden q) * 4 ^ 60)). lia.
Qed.

(** X21: wherever the three Bollinger columns are numbers they are in
    order, BB_lower <= BB_middle <= BB_upper, and the band is 4 standard
    deviations wide. *)
Theorem bollinger_bands_ordered (closes : Series) (i : nat) (lo mid up : Q) :
  StockAnalyzer.at_ (StockAnalyzer.BB_lower_col closes) i = Fin lo ->
  StockAnalyzer.at_ (StockAnalyzer.BB_middle_col closes) i = Fin mid ->
  StockAnalyzer.at_ (StockAnalyzer.BB_upper_col closes) i = Fin up ->
  (lo <= mid)%Q /\ (mid <= up)%Q
  /\ exists s, StockAnalyzer.at_ (StockAnalyzer.bb_std_col closes) i = Fin s
               /\ (0 <= s)%Q /\ (up - lo == 4 * s)%Q.
Proof.
  intros Hlo Hmid Hup.
  assert (Lm : length (StockAnalyzer.BB_middle_col closes) = length closes)
    by (unfold StockAnalyzer.BB_middle_col, rolling_mean; apply length_rolling).
  assert (Ls : length (StockAnalyzer.bb_std_col closes) = length closes)
    by (unfold StockAnalyzer.bb_std_col, rolling_std; apply length_rolling).
  destruct (Nat.lt_ge_cases i (length closes)) as [Hi | Hi].
  2:{ rewrite at_out in Hmid by lia. discriminate. }
  unfold StockAnalyzer.BB_lower_col in Hlo. unfold StockAnalyzer.BB_upper_col in Hup.
  rewrite at_map2 in Hlo, Hup by lia.
  rewrite Hmid in Hlo, Hup.
  assert (Hstd : exists s, StockAnalyzer.at_ (StockAnalyzer.bb_std_col closes) i = Fin s).
  { destruct (StockAnalyzer.at_ (StockAnalyzer.bb_std_col closes) i) as [s | | |];
      [eauto | discriminate | discriminate | discriminate]. }
  destruct Hstd as [s Hs]. rewrite Hs in Hlo, Hup.
  assert (Hs0 : (0 <= s)%Q).
  { unfold StockAnalyzer.bb_std_col, rolling_std in Hs.
    rewrite at_rolling in Hs by lia.
    destruct (window 20 i closes); [| discriminate].
    unfold fstd in Hs. now apply fsqrt_nonneg in Hs. }
  apply (f_equal qof) in Hlo, Hup. cbn [qof fmul fadd fsub fneg of_Z] in Hlo, Hup.
  assert (Elo : (lo == mid - s * 2)%Q).
  { rewrite <- Hlo. rewrite !Qred_correct. change (inject_Z 2) with 2%Q. lra. }
  assert (Eup : (up == mid + s * 2)%Q).
  { rewrite <- Hup. rewrite !Qred_correct. change (inject_Z 2) with 2%Q. lra. }
  split; [lra |]. split; [lra |]. exists s. split; [exact Hs |]. split; [exact Hs0 | lra].
Qed.

Lemma round_half_even_ge (x : Q) (k : Z) : (inject_Z k <= x)%Q -> k <= round_half_even x.
Proof.
  intros H. unfold round_half_even.
  assert (Hf : k <= Qfloor x).
  { rewrite <- (Qfloor_Z k). now apply Qfloor_resp_le. }
  destruct (Qcompare _ _); [destruct (Z.even _) | |]; lia.
Qed.

Lemma round_half_even_le (x : Q) (k : Z) : (x <= inject_Z k)%Q -> round_half_even x <= k.
Proof.
  intros H. unfold round_half_even.
  assert (Hf : Qfloor x <= k).
  { rewrite <- (Qfloor_Z k). now apply Qfloor_resp_le. }
  destruct (Z.eq_dec (Qfloor x) k) as [E | E].
  - assert (Hx : (x - inject_Z (Qfloor x) <= 0)%Q) by (rewrite E; lra).
    destruct (Qcompare (x - inject_Z (Qfloor x)) (1 # 2)) eqn:C.
    + apply Qeq_alt in C. lra.
    + lia.
    + apply Qgt_alt in C. lra.
  - destruct (Qcompare _ _); [destruct (Z.even _) | |]; lia.
Qed.

Lemma fround2_bounds (v : Q) :
  exists q, fround (Fin v) 2 = Fin q
    /\ ((0 <= v)%Q -> (0 <= q)%Q)
    /\ ((40 <= v)%Q -> (40 <= q)%Q)
    /\ ((20 <= v)%Q -> (20 <= q)%Q)
    /\ ((v <= 40)%Q -> (q <= 40)%Q)
    /\ ((v <= 20)%Q -> (q <= 20)%Q).
Proof.
  cbn [fround]. eexists. split; [reflexivity |].
  set (n := round_half_even (v * pow10 2)).
  assert (Hp : pow10 2 = 100%Q) by reflexivity.
  assert (Hq : (Qred (inject_Z n / pow10 2) == inject_Z n / 100)%Q)
    by (rewrite Qred_correct, Hp; reflexivity).
  assert (Hge : forall k, (inject_Z k <= v * 100)%Q -> (inject_Z k <= inject_Z n)%Q).
  { intros k Hk. rewrite <- Hp in Hk. apply round_half_even_ge in Hk. fold n in Hk.
    now rewrite <- Zle_Qle. }
  assert (Hle : forall k, (v * 100 <= inject_Z k)%Q -> (inject_Z n <= inject_Z k)%Q).
  { intros k Hk. rewrite <- Hp in Hk. apply round_half_even_le in Hk. fold n in Hk.
    now rewrite <- Zle_Qle. }
  assert (H100 : (0 < 100)%Q) by reflexivity.
  rewrite Hq. clearbody n. revert Hge Hle. generalize (inject_Z n). intros y Hge Hle.
  split; [intros H; apply Qle_shift_div_l; [exact H100 |];
          specialize (Hge 0); change (inject_Z 0) with 0%Q in Hge;
          assert (X : (0 <= y)%Q) by (apply Hge; lra); lra |].
  split; [intros H; apply Qle_shift_div_l; [exact H100 |];
          specialize (Hge 4000); change (inject_Z 4000) with 4000%Q in Hge;
          assert (X : (4000 <= y)%Q) by (apply Hge; lra); lra |].
  split; [intros H; apply Qle_shift_div_l; [exact H100 |];
          specialize (Hge 2000); change (inject_Z 2000) with 2000%Q in Hge;
          assert (X : (2000 <= y)%Q) by (apply Hge; lra); lra |].
  split; [intros H; apply Qle_shift_div_r; [exact H100 |];
          specialize (Hle 4000); change (inject_Z 4000) with 4000%Q in Hle;
          assert (X : (y <= 4000)%Q) by (apply Hle; lra); lra |].
  intros H; apply Qle_shift_div_r; [exact H100 |].
  specialize (Hle 2000); change (inject_Z 2000) with 2000%Q in Hle.
  assert (X : (y <= 2000)%Q) by (apply Hle; lra). lra.
Qed.

Lemma fstd_cases (l : list fnum) :
  fstd l = NaN \/ fstd l = PInf \/ exists s, fstd l = Fin s /\ (0 <= s)%Q.
Proof.
  unfold fstd. destruct (fvar l) as [q | | |] eqn:E; cbn [fsqrt]; auto.
  destruct (Qneg q) eqn:N; auto. right. right. eexists. split; [reflexivity |].
  apply (fsqrt_nonneg (Fin q)). cbn [fsqrt]. now rewrite N.
Qed.

(** X22: [_calculate_risk_metrics] returns [{}] exactly on fewer than 20
    rows; otherwise the reported volatility and max_drawdown are never
    negative (NaN, +inf or a number >= 0), and the risk level agrees with
    the reported volatility: 高 needs at least 40, 中 a value from 20 to 40,
    低 a value up to 20 or NaN, a volatility that cannot be computed being
    reported as low risk. *)
Theorem risk_metrics_shape (d : DataFrame) :
  match risk_of_frame d with
  | NoRisk => Z.of_nat (length d) < 20
  | Risk volatility sharpe_ratio max_drawdown risk_level =>
      20 <= Z.of_nat (length d)
      /\ (volatility = NaN \/ volatility = PInf
          \/ exists q, volatility = Fin q /\ (0 <= q)%Q)
      /\ (max_drawdown = NaN \/ max_drawdown = PInf
          \/ exists q, max_drawdown = Fin q /\ (0 <= q)%Q)
      /\ (risk_level = "高"%string ->
          volatility = PInf \/ exists q, volatility = Fin q /\ (40 <= q)%Q)
      /\ (risk_level = "中"%string ->
          exists q, volatility = Fin q /\ (20 <= q)%Q /\ (q <= 40)%Q)
      /\ (risk_level = "低"%string ->
          volatility = NaN \/ exists q, volatility = Fin q /\ (0 <= q)%Q /\ (q <= 20)%Q)
      /\ (risk_level = "高" \/ risk_level = "中" \/ risk_level = "低")%string
  end.
Proof.
  unfold risk_of_frame.
  destruct (Z.of_nat (length d) <? 20) eqn:Hlen;
    [now apply Z.ltb_lt in Hlen | apply Z.ltb_ge in Hlen].
  split; [exact Hlen |].
  set (rets := dropna (map returns d)).
  assert (Hsq : exists r, fsqrt (of_Z 252) = Fin r /\ (0 < r)%Q).
  { eexists. split; [reflexivity | vm_compute; reflexivity]. }
  destruct Hsq as [r [-> Hr]].
  assert (Hmdd : forall x, fround (fabs x) 2 = NaN \/ fround (fabs x) 2 = PInf
                           \/ exists q, fround (fabs x) 2 = Fin q /\ (0 <= q)%Q).
  { intros [q | | |]; cbn [fabs]; auto.
    destruct (fround2_bounds (Qred (Qabs q))) as [q' [E [H0 _]]].
    right. right. exists q'. split; [exact E |]. apply H0.
    rewrite Qred_correct. apply Qabs_nonneg. }
  split; [| split; [apply Hmdd |]].
  - destruct (fstd_cases rets) as [-> | [-> | [s [-> Hs]]]].
    + left. reflexivity.
    + right. left. cbn [fmul fsign]. unfold Qlt in Hr. cbn [Qnum Qden] in Hr.
      replace (1 * Z.sgn (Qnum r)) with 1 by (rewrite Z.sgn_pos; lia).
      reflexivity.
    + right. right. unfold of_Z. cbn [fmul].
      destruct (fround2_bounds (Qred (Qred (s * r) * inject_Z 100))) as [q [E [H0 _]]].
      exists q. split; [exact E |]. apply H0. rewrite !Qred_correct.
      change (inject_Z 100) with 100%Q. nra.
  - destruct (fstd_cases rets) as [-> | [-> | [s [-> Hs]]]].
    + cbn [fmul]. change (NaN >? of_Z 40)%F with false. change (NaN >? of_Z 20)%F with false.
      cbv beta iota. repeat split; try discriminate; auto.
    + cbn [fmul fsign]. unfold Qlt in Hr. cbn [Qnum Qden] in Hr.
      replace (1 * Z.sgn (Qnum r)) with 1 by (rewrite Z.sgn_pos; lia).
      change (inf_of_sign 1) with PInf. cbn [fmul fsign of_Z].
      change (inf_of_sign (1 * Z.sgn (Qnum (inject_Z 100)))) with PInf.
      change (PInf >? of_Z 40)%F with true. cbv beta iota.
      repeat split; try discriminate; auto.
    + unfold of_Z. cbn [fmul].
      set (v := Qred (Qred (s * r) * inject_Z 100)).
      assert (Hv : (0 <= v)%Q).
      { subst v. rewrite !Qred_correct. change (inject_Z 100) with 100%Q. nra. }
      destruct (fround2_bounds v) as [q [E [H0 [H40 [H20 [L40 L20]]]]]].
      rewrite E. unfold fgt, flt.
      destruct (Qltb (inject_Z 40) v) eqn:C40.
      * apply Qltb_lt in C40. change (inject_Z 40) with 40%Q in C40.
        repeat split; try discriminate; auto.
        intros _. right. exists q. split; [reflexivity | apply H40; lra].
      * apply Qltb_ge in C40. change (inject_Z 40) with 40%Q in C40.
        destruct (Qltb (inject_Z 20) v) eqn:C20.
        -- apply Qltb_lt in C20. change (inject_Z 20) with 20%Q in C20.
           repeat split; try discriminate; auto.
           intros _. exists q. split; [reflexivity |]. split; [apply H20; lra | now apply L40].
        -- apply Qltb_ge in C20. change (inject_Z 20) with 20%Q in C20.
           repeat split; try discriminate; auto.
           intros _. right. exists q. split; [reflexivity |].
           split; [now apply H0 | now apply L20].
Qed.

Lemma app2_analyze_outcome_witness :
  exists analyzer latest,
    StockSignalAnalyzer.calculate_all_indicators
      (StockSignalAnalyzer.init Samples.get_price "sz000858" 120) = (true, analyzer)
    /\ iloc (StockSignalAnalyzer.df analyzer) (-1) = Ret latest.
Proof.
  destruct (StockSignalAnalyzer.calculate_all_indicators
              (StockSignalAnalyzer.init Samples.get_price "sz000858" 120))
    as [[|] analyzer] eqn:E.
  - destruct (app2_analyze_outcome _ analyzer (Samples.clock 1) E) as [latest [H _]].
    exists analyzer, latest. split; [reflexivity | exact H].
  - unfold StockSignalAnalyzer.calculate_all_indicators in E.
    replace (StockSignalAnalyzer.too_short
               (StockSignalAnalyzer.df
                  (StockSignalAnalyzer.init Samples.get_price "sz000858" 120)))
      with false in E by (vm_compute; reflexivity).
    discriminate.
Defined.

Lemma old_analyze_outcome_witness :
  let fresh := OldAnalyzer.init Samples.get_price "sz000333" 120 in
  OldAnalyzer.too_short (OldAnalyzer.df fresh) = false
  /\ OldAnalyzer.analyze fresh (Samples.clock 1) = Raise (KeyError "MA20").
Proof.
  intros fresh.
  assert (H : OldAnalyzer.too_short (OldAnalyzer.df fresh) = false)
    by (vm_compute; reflexivity).
  split; [exact H |].
  exact (proj1 (old_analyze_outcome Samples.get_price "sz000333" 120 (Samples.clock 1) H)).
Defined.

Lemma stochastic_KD_in_range_witness :
  Forall consistent_bar quiet_frame
  /\ StockAnalyzer.at_ (StockAnalyzer.K_col quiet_frame) 14 = of_Z 50
  /\ (StockAnalyzer.at_ (StockAnalyzer.D_col quiet_frame) 12 = NaN
      \/ exists q, StockAnalyzer.at_ (StockAnalyzer.D_col quiet_frame) 12 = Fin q
                   /\ (0 <= q)%Q /\ (q <= 100)%Q).
Proof.
  assert (H : Forall consistent_bar quiet_frame).
  { apply Forall_forall. intros r Hr. unfold quiet_frame in Hr. vm_compute in Hr.
    repeat (destruct Hr as [<- | Hr];
            [exists (9 # 1)%Q, (10 # 1)%Q, (11 # 1)%Q;
             repeat split; try reflexivity; discriminate |]).
    destruct Hr. }
  split; [exact H |]. split; [vm_compute; reflexivity |].
  exact (proj2 (stochastic_KD_in_range quiet_frame 12 H)).
Defined.

Lemma bollinger_bands_ordered_witness :
  exists lo mid up,
    StockAnalyzer.at_ (StockAnalyzer.BB_lower_col zigzag) 19 = Fin lo
    /\ StockAnalyzer.at_ (StockAnalyzer.BB_middle_col zigzag) 19 = Fin mid
    /\ StockAnalyzer.at_ (StockAnalyzer.BB_upper_col zigzag) 19 = Fin up
    /\ (lo <= mid)%Q /\ (mid <= up)%Q /\ (mid == 10)%Q.
Proof.
  destruct (StockAnalyzer.at_ (StockAnalyzer.BB_lower_col zigzag) 19) as [lo | | |] eqn:E1;
    [| vm_compute in E1; discriminate ..].
  destruct (StockAnalyzer.at_ (StockAnalyzer.BB_middle_col zigzag) 19) as [mid | | |] eqn:E2;
    [| vm_compute in E2; discriminate ..].
  destruct (StockAnalyzer.at_ (StockAnalyzer.BB_upper_col zigzag) 19) as [up | | |] eqn:E3;
    [| vm_compute in E3; discriminate ..].
  exists lo, mid, up.
  destruct (bollinger_bands_ordered zigzag 19 lo mid up E1 E2 E3) as [H1 [H2 _]].
  repeat (split; [first [reflexivity | assumption] |]).
  vm_compute in E2. apply (f_equal qof) in E2. cbn [qof] in E2. subst mid. reflexivity.
Defined.

(** X23: [analyze_realtime] returns the error of [get_realtime_data]
    without running the day analysis; otherwise it raises exactly when
    [analyze] does, and returns a dictionary with the analyzer's symbol, the
    clock reading, the realtime data as fetched with frequency 5min, the day
    analysis when that one succeeded and None when the frame is too short,
    and the signals computed from the two. *)
Theorem analyze_realtime_outcome (gpm : string -> string -> Z -> M (list Realtime.minute_bar))
    (self : StockAnalyzer.t) (clock : Realtime.readings) (minutes : Z) :
  let rd := Realtime.get_realtime_data gpm self (Realtime.r_delay clock) minutes "5min" in
  match rd with
  | Realtime.RtError e =>
      Realtime.analyze_realtime gpm self clock minutes = Ret (Realtime.RaError e)
  | _ =>
      match StockAnalyzer.analyze self (Realtime.r_day clock) with
      | Raise e => Realtime.analyze_realtime gpm self clock minutes = Raise e
      | Ret day =>
          exists s,
            Realtime._generate_realtime_signals rd day = Ret s
            /\ Realtime.analyze_realtime gpm self clock minutes
               = Ret (Realtime.Combined (StockAnalyzer.stock_code self)
                        (Realtime.r_combined clock) rd
                        (if StockAnalyzer.too_short (StockAnalyzer.df self)
                         then None else Some day)
                        s)
      end
  end.
Proof.
  intros rd. unfold Realtime.analyze_realtime. fold rd.
  destruct rd as [e | fr dc dl lt kl sm] eqn:Erd; [reflexivity |].
  destruct (StockAnalyzer.analyze self (Realtime.r_day clock)) as [day | e] eqn:Eday;
    cbn [bind]; [| reflexivity].
  assert (Hday : (StockAnalyzer.too_short (StockAnalyzer.df self) = true
                  /\ get_success day = false /\ is_populated day = false)
                 \/ (StockAnalyzer.too_short (StockAnalyzer.df self) = false
                     /\ get_success day = true /\ is_populated day = true)).
  { unfold StockAnalyzer.analyze in Eday.
    destruct (StockAnalyzer.too_short (StockAnalyzer.df self)) eqn:Hs.
    - left. apply (f_equal (fun m => match m with Ret r => Some r | _ => None end)) in Eday.
      injection Eday as <-. auto.
    - right. destruct (iloc _ (-1)) as [la |]; cbn [bind] in Eday; [| discriminate].
      destruct (iloc _ (-2)) as [pr |]; cbn [bind] in Eday; [| discriminate].
      unfold StockAnalyzer._generate_result in Eday.
      destruct (StockAnalyzer.choose_signal _) as [[? ?] ?].
      destruct (py_int _); cbn [bind] in Eday; [| discriminate].
      apply (f_equal (fun m => match m with
                               | Ret r => (get_success r, is_populated r)
                               | _ => (false, false) end)) in Eday.
      cbn in Eday. split; [reflexivity |]. split; congruence. }
  assert (Hsig : exists s, Realtime._generate_realtime_signals
                             (Realtime.RtData fr dc dl lt kl sm) day = Ret s).
  { unfold Realtime._generate_realtime_signals.
    destruct kl as [| k0 kl]; [eauto |].
    destruct (Z.of_nat (length (k0 :: kl)) <? 3) eqn:H3; [eauto |].
    apply Z.ltb_ge in H3.
    destruct (iloc_in_range (k0 :: kl) (-1)) as [latest [-> _]]; [lia |].
    destruct (iloc_in_range (k0 :: kl) (-2)) as [prev [-> _]]; [lia |].
    cbn [bind].
    destruct Hday as [[_ [Hs _]] | [_ [Hs Hp]]]; rewrite Hs.
    - cbn [bind]. eauto.
    - destruct day as [c t p pc v i a rk s | c er t s]; [| discriminate].
      destruct (_ && _); [cbn [bind]; eauto |].
      destruct (_ && _); cbn [bind]; eauto. }
  destruct Hsig as [s Hs]. exists s. split; [exact Hs |]. rewrite Hs. cbn [bind].
  destruct Hday as [[-> [-> _]] | [-> [-> _]]]; reflexivity.
Qed.

Lemma analyze_with_realtime_entries_witness :
  let out := Realtime.analyze_with_realtime MinuteSamples.get_price_min_tx Samples.get_price
               (BatchStockAnalyzer.init ["sz300750"; "sh600519"; "hk00700"]%string 120)
               None 30 sample_readings in
  map Realtime.c_stock_code out = ["sh600519"%string]
  /\ Forall sound_entry out
  /\ map (fun r => overall_of (Realtime.c_realtime_analysis r)) out = [Some "SELL"%string].
Proof.
  intros out.
  split; [vm_compute; reflexivity |].
  split; [| vm_compute; reflexivity].
  exact (proj2 (proj2 (proj2
    (analyze_with_realtime_entries MinuteSamples.get_price_min_tx Samples.get_price
       (BatchStockAnalyzer.init ["sz300750"; "sh600519"; "hk00700"]%string 120)
       None 30 sample_readings)))).
Defined.













